(** * discbot: optical media changer control

    A shallow embedding of the changer library ([CChangerLib/scsi.c],
    [CChangerLib/sbp2.c], [CChangerLib/mount.c]) and of the application's
    bridging copy of the mount helpers ([Discbot/Bridging/mount.c]).

    Conventions.
    - [uint8_t] values held in memory are [byte]s; [u8] reads one as an
      integer.  Wider unsigned C integers are [Z] with the truncation of
      every store written out ([u16], [u32]).
    - C arrays are lists; [buf[i]] is [byte_at buf i].
    - A pointer that may be [NULL] is an [option].
    - Operating-system services (the SCSI task user client, the SBP-2 LUN,
      the I/O registry, disk arbitration, the allocator) are oracles
      gathered in environment records; every call that reaches them is
      recorded in a trace of events. *)

From Stdlib Require Import ZArith Lia List String Bool.
From Stdlib Require Import Strings.Byte.
From stdpp Require Import base list.
Import ListNotations.

Local Open Scope string_scope.
Local Open Scope Z_scope.

(** ** Machine integers *)

Definition u8 (b : byte) : Z := Z.of_N (Byte.to_N b).

Definition u16 (x : Z) : Z := x mod 65536.
Definition u32 (x : Z) : Z := x mod 4294967296.

(** Truncation of an integer to [uint8_t]. *)
Definition to_byte (x : Z) : byte :=
  match Byte.of_N (Z.to_N (x mod 256)) with
  | Some b => b
  | None => x00
  end.

(** [buf[i]] for memory held as the list [buf]; past the end of the list
    the value is 0.  A list holds every byte its reader can reach: the
    response parsers of [scsi_inquiry] and [scsi_mode_sense_element] stay
    inside their arrays, and the descriptor loop of
    [scsi_read_element_status], which can read the one byte behind its
    allocation, is run on the allocation followed by that byte (see
    [heap_after] below). *)
Definition byte_at (buf : list byte) (i : Z) : Z :=
  if i <? 0 then 0 else u8 (nth (Z.to_nat i) buf x00).

(** [(buf[i] << 8) | buf[i + 1]] *)
Definition be16 (buf : list byte) (i : Z) : Z :=
  Z.lor (Z.shiftl (byte_at buf i) 8) (byte_at buf (i + 1)).

(** [(buf[i] << 16) | (buf[i + 1] << 8) | buf[i + 2]] *)
Definition be24 (buf : list byte) (i : Z) : Z :=
  Z.lor (Z.lor (Z.shiftl (byte_at buf i) 16) (Z.shiftl (byte_at buf (i + 1)) 8))
        (byte_at buf (i + 2)).

Definition bytes_of (l : list Z) : list byte := map to_byte l.

(** ** Data model ([scsi.h], [sbp2.h]) *)

Definition ELEM_TRANSPORT : Z := 0x01.
Definition ELEM_STORAGE : Z := 0x02.
Definition ELEM_IE : Z := 0x03.
Definition ELEM_DRIVE : Z := 0x04.
Definition ELEM_ALL : Z := 0x00.

Definition DIR_NONE : Z := 0.
Definition DIR_READ : Z := 1.
Definition DIR_WRITE : Z := 2.

Record ElementMap := mkElementMap {
  transport : Z;
  slots : option (list Z);   (* uint16_t *slots *)
  slot_count : Z;
  drive : Z;
  ie : Z;
  has_ie : bool
}.

Record ElementStatus := mkElementStatus {
  address : Z;
  full : bool;
  except : bool;
  source : Z;
  source_valid : bool
}.

Record SenseData := mkSenseData {
  sense_key : byte;
  asc : byte;
  ascq : byte;
  valid : bool
}.

Inductive BackendType := BACKEND_NONE | BACKEND_SCSITASK | BACKEND_SBP2.

(** Interface pointers and the service handle are opaque numbers; a
    [NULL] pointer is [None], [IO_OBJECT_NULL] is [0]. *)
Record ChangerConnection := mkChangerConnection {
  backend : BackendType;
  service : Z;
  scsi_device : option Z;
  has_exclusive : bool;
  lun : option Z;
  login : option Z;
  connected : bool
}.

(** ** The world outside the connection structure *)

(** Calls into the operating system that acquire, use or give back a
    resource. *)
Inductive Event :=
| EvReleaseExclusiveAccess (dev : Z)
| EvReleaseScsiDevice (dev : Z)
| EvSubmitLogout (lg : Z)
| EvReleaseLogin (lg : Z)
| EvRemoveCallbackDispatcher (l : Z)
| EvCloseLun (l : Z)
| EvReleaseLun (l : Z)
| EvIOObjectRelease (svc : Z)
| EvExecuteTaskSync (dev : Z) (cdb : list byte)
| EvSubmitORB (lg : Z) (cdb : list byte)
| EvCalloc (size : Z)
| EvFree
| EvUsleep (usec : Z).

(** What [ExecuteTaskSync] hands back for one task. *)
Record ScsiTaskReply := mkScsiTaskReply {
  task_created : bool;          (* CreateSCSITask returned non-NULL *)
  kr_success : bool;            (* ExecuteTaskSync == kIOReturnSuccess *)
  status_good : bool;           (* status == kSCSITaskStatus_GOOD *)
  SENSE_KEY : byte;
  ADDITIONAL_SENSE_CODE : byte;
  ADDITIONAL_SENSE_CODE_QUALIFIER : byte;
  task_data : list byte         (* bytes the target transfers to the initiator *)
}.

(** What the SBP-2 login hands back for one ORB. *)
Record Sbp2Reply := mkSbp2Reply {
  orb_created : bool;           (* createORB returned non-NULL *)
  orb_submitted : bool;         (* submitORB == kIOReturnSuccess *)
  notified : bool;              (* the status callback fired before the deadline *)
  normal_status : bool;         (* event == kFWSBP2NormalCommandStatus *)
  orb_data : list byte
}.

(** The device and the allocator.  The [n]-th command submitted in a run
    is answered according to its CDB; the [n]-th allocation succeeds or
    not, and [heap_after n] is the byte that lies in memory right behind
    the block it returned. *)
Record Env := mkEnv {
  scsitask_reply : nat -> list byte -> ScsiTaskReply;
  sbp2_reply : nat -> list byte -> Sbp2Reply;
  calloc_ok : nat -> bool;
  heap_after : nat -> byte
}.

(** Process-wide state: the module-level [g_last_sense] of [scsi.c], the
    number of commands and allocations so far, and the trace. *)
Record World := mkWorld {
  g_last_sense : SenseData;
  commands : nat;
  allocations : nat;
  trace : list Event
}.

Definition set_last_sense (s : SenseData) (w : World) : World :=
  mkWorld s (commands w) (allocations w) (trace w).

Definition emit (e : Event) (w : World) : World :=
  mkWorld (g_last_sense w) (commands w) (allocations w) (trace w ++ [e]).

Definition count_command (w : World) : World :=
  mkWorld (g_last_sense w) (S (commands w)) (allocations w) (trace w).

Definition count_allocation (w : World) : World :=
  mkWorld (g_last_sense w) (commands w) (S (allocations w)) (trace w).

(** ** Sense decoder ([scsi.c], lines 7-83) *)

Definition scsi_get_last_sense (w : World) : SenseData := g_last_sense w.

Definition scsi_set_sense (key a q : byte) (w : World) : World :=
  set_last_sense (mkSenseData key a q true) w.

Definition scsi_sense_string (sense : option SenseData) : string :=
  match sense with
  | None => "No sense data"
  | Some s =>
    if negb (valid s) then "No sense data"
    else
      let k := u8 (sense_key s) in
      let a := u8 (asc s) in
      let q := u8 (ascq s) in
      if k =? 0x00 then "No sense"
      else if k =? 0x02 then
        let rest := if a =? 0x3A then "Medium not present" else "Not ready" in
        if a =? 0x04 then
          if q =? 0x00 then "Not ready, cause not reportable"
          else if q =? 0x01 then "Becoming ready"
          else if q =? 0x02 then "Need INITIALIZE ELEMENT STATUS"
          else if q =? 0x03 then "Manual intervention required"
          else rest
        else rest
      else if k =? 0x05 then
        if a =? 0x21 then "Invalid element address"
        else if a =? 0x24 then "Invalid field in CDB"
        else if a =? 0x3B then
          if q =? 0x0D then "Medium destination full"
          else if q =? 0x0E then "Medium source empty"
          else "Element position error"
        else "Illegal request"
      else if k =? 0x06 then
        if a =? 0x28 then "Medium may have changed"
        else if a =? 0x29 then "Power on or reset"
        else "Unit attention"
      else if k =? 0x0B then
        if a =? 0x3B then
          if q =? 0x0D then "Medium destination full"
          else if q =? 0x0E then "Medium source empty"
          else "Element position error"
        else "Aborted command"
      else "Unknown error"
  end.

(** [parse_sense]: the slot is updated field by field, so a field that is
    not assigned keeps what the slot held before the call. *)
Definition parse_sense (sense_buf : option (list byte)) (len : Z) (w : World) : World :=
  let g0 := g_last_sense w in
  let g1 := mkSenseData (sense_key g0) (asc g0) (ascq g0) false in
  match sense_buf with
  | None => set_last_sense g1 w
  | Some buf =>
    if len <? 8 then set_last_sense g1 w
    else
      let response_code := Z.land (byte_at buf 0) 0x7F in
      if negb (response_code =? 0x70) && negb (response_code =? 0x71) then
        set_last_sense g1 w
      else
        let g2 := mkSenseData (to_byte (Z.land (byte_at buf 2) 0x0F)) (asc g1) (ascq g1) (valid g1) in
        let g3 := if 13 <=? len
                  then mkSenseData (sense_key g2) (to_byte (byte_at buf 12)) (ascq g2) (valid g2)
                  else g2 in
        let g4 := if 14 <=? len
                  then mkSenseData (sense_key g3) (asc g3) (to_byte (byte_at buf 13)) (valid g3)
                  else g3 in
        set_last_sense (mkSenseData (sense_key g4) (asc g4) (ascq g4) true) w
  end.

(** ** Computations over the world

    A computation either returns a value and the next world, or has no
    defined result: it dereferenced a [NULL] interface pointer, or a loop
    of the model ran out of fuel. *)

Inductive Failure := NullDeref | OutOfFuel.

Inductive Res (A : Type) :=
| Ok (a : A) (w : World)
| Stuck (why : Failure).
Arguments Ok {A} a w.
Arguments Stuck {A} why.

Definition M (A : Type) : Type := World -> Res A.

Definition ret {A} (a : A) : M A := fun w => Ok a w.

Definition bind {A B} (m : M A) (k : A -> M B) : M B :=
  fun w => match m w with
           | Ok a w' => k a w'
           | Stuck why => Stuck why
           end.

Definition stuck {A} (why : Failure) : M A := fun _ => Stuck why.

Definition modify (f : World -> World) : M unit := fun w => Ok tt (f w).

Definition gets {A} (f : World -> A) : M A := fun w => Ok (f w) w.

Notation "x <- m ;; k" := (bind m (fun x => k))
  (at level 100, m at next level, right associativity).
Notation "m ;;; k" := (bind m (fun _ => k))
  (at level 100, right associativity).

Definition when (b : bool) (m : M unit) : M unit := if b then m else ret tt.

(** ** Changer connection ([sbp2.c]) *)

Definition set_scsi_device (d : option Z) (c : ChangerConnection) :=
  mkChangerConnection (backend c) (service c) d (has_exclusive c) (lun c) (login c) (connected c).
Definition set_login (l : option Z) (c : ChangerConnection) :=
  mkChangerConnection (backend c) (service c) (scsi_device c) (has_exclusive c) (lun c) l (connected c).
Definition set_lun (l : option Z) (c : ChangerConnection) :=
  mkChangerConnection (backend c) (service c) (scsi_device c) (has_exclusive c) l (login c) (connected c).
Definition set_service (s : Z) (c : ChangerConnection) :=
  mkChangerConnection (backend c) s (scsi_device c) (has_exclusive c) (lun c) (login c) (connected c).
Definition set_connected (b : bool) (c : ChangerConnection) :=
  mkChangerConnection (backend c) (service c) (scsi_device c) (has_exclusive c) (lun c) (login c) b.

Definition disconnect_scsitask (conn : ChangerConnection) : M ChangerConnection :=
  match scsi_device conn with
  | Some dev =>
    when (has_exclusive conn) (modify (emit (EvReleaseExclusiveAccess dev))) ;;;
    modify (emit (EvReleaseScsiDevice dev)) ;;;
    ret (set_scsi_device None conn)
  | None => ret conn
  end.

Definition disconnect_sbp2 (conn : ChangerConnection) : M ChangerConnection :=
  c1 <- match login conn with
        | Some lg =>
          modify (emit (EvSubmitLogout lg)) ;;;
          modify (emit (EvReleaseLogin lg)) ;;;
          ret (set_login None conn)
        | None => ret conn
        end ;;
  match lun c1 with
  | Some l =>
    modify (emit (EvRemoveCallbackDispatcher l)) ;;;
    modify (emit (EvCloseLun l)) ;;;
    modify (emit (EvReleaseLun l)) ;;;
    ret (set_lun None c1)
  | None => ret c1
  end.

Definition changer_disconnect (conn : option ChangerConnection)
  : M (option ChangerConnection) :=
  match conn with
  | None => ret None
  | Some c =>
    c1 <- match backend c with
          | BACKEND_SCSITASK => disconnect_scsitask c
          | BACKEND_SBP2 => disconnect_sbp2 c
          | BACKEND_NONE => ret c
          end ;;
    c2 <- (if negb (service c1 =? 0)
           then modify (emit (EvIOObjectRelease (service c1))) ;;; ret (set_service 0 c1)
           else ret c1) ;;
    ret (Some (set_connected false c2))
  end.

(** The caller's buffer after the target has transferred [data] into it:
    at most [buffer_len] bytes are written, from the start. *)
Definition receive (data : list byte) (buffer_len : Z) (buffer : option (list byte))
  : option (list byte) :=
  match buffer with
  | None => None
  | Some b =>
    let k := Nat.min (length data) (Z.to_nat buffer_len) in
    Some (take k data ++ drop k b)%list
  end.

Section Transport.
Variable env : Env.

Definition execute_cdb_scsitask (dev : Z)
    (cdb : list byte) (cdb_len : Z)
    (buffer : option (list byte)) (buffer_len : Z)
    (direction : Z) (timeout_ms : Z) : M (Z * option (list byte)) :=
  n <- gets commands ;;
  modify count_command ;;;
  let r := scsitask_reply env n (take (Z.to_nat cdb_len) cdb) in
  if negb (task_created r) then ret (-1, buffer)
  else
    modify (emit (EvExecuteTaskSync dev (take (Z.to_nat cdb_len) cdb))) ;;;
    let buffer' := if direction =? DIR_READ
                   then receive (task_data r) buffer_len buffer
                   else buffer in
    let key := to_byte (Z.land (u8 (SENSE_KEY r)) 0x0F) in
    let a := ADDITIONAL_SENSE_CODE r in
    let q := ADDITIONAL_SENSE_CODE_QUALIFIER r in
    if negb (kr_success r) then
      when (negb (u8 key =? 0) || negb (u8 a =? 0) || negb (u8 q =? 0))
           (modify (scsi_set_sense key a q)) ;;;
      ret (-1, buffer')
    else if negb (status_good r) then
      modify (scsi_set_sense key a q) ;;;
      ret (-1, buffer')
    else ret (0, buffer').

Definition execute_cdb_sbp2 (lg : Z)
    (cdb : list byte) (cdb_len : Z)
    (buffer : option (list byte)) (buffer_len : Z)
    (direction : Z) (timeout_ms : Z) : M (Z * option (list byte)) :=
  n <- gets commands ;;
  modify count_command ;;;
  let r := sbp2_reply env n (take (Z.to_nat cdb_len) cdb) in
  if negb (orb_created r) then ret (-1, buffer)
  else
    modify (emit (EvSubmitORB lg (take (Z.to_nat cdb_len) cdb))) ;;;
    if negb (orb_submitted r) then ret (-1, buffer)
    else if negb (notified r) then ret (-1, buffer)
    else
      let attached := negb (direction =? DIR_NONE)
                      && match buffer with Some _ => true | None => false end
                      && (0 <? buffer_len) in
      let buffer' := if (direction =? DIR_READ) && attached
                     then receive (orb_data r) buffer_len buffer
                     else buffer in
      if negb (normal_status r) then ret (-1, buffer')
      else ret (0, buffer').

Definition changer_execute_cdb (conn : option ChangerConnection)
    (cdb : list byte) (cdb_len : Z)
    (buffer : option (list byte)) (buffer_len : Z)
    (direction : Z) (timeout_ms : Z) : M (Z * option (list byte)) :=
  match conn with
  | None => ret (-1, buffer)
  | Some c =>
    if negb (connected c) then ret (-1, buffer)
    else
      match backend c with
      | BACKEND_SCSITASK =>
        match scsi_device c with
        | Some dev =>
          execute_cdb_scsitask dev cdb cdb_len buffer buffer_len direction timeout_ms
        | None => stuck NullDeref
        end
      | BACKEND_SBP2 =>
        match login c with
        | Some lg =>
          execute_cdb_sbp2 lg cdb cdb_len buffer buffer_len direction timeout_ms
        | None => stuck NullDeref
        end
      | BACKEND_NONE => ret (-1, buffer)
      end
  end.

End Transport.

(** ** Media-changer command layer ([scsi.c], lines 85-328) *)

(** Cursor of the READ ELEMENT STATUS parser: the three variables its
    loops update. *)
Record Cursor := mkCursor {
  offset : Z;                     (* uint32_t offset *)
  status_idx : Z;                 (* size_t status_idx *)
  out : list ElementStatus        (* the caller's statuses[] *)
}.

Definition set_offset (o : Z) (c : Cursor) : Cursor :=
  mkCursor o (status_idx c) (out c).

(** The scan [for (i = 0; i < desc_len && i < 12; i++)] that clears
    [all_zero] at the first non-zero byte. *)
Fixpoint all_zero_scan (fuel : nat) (buf : list byte) (off desc_len i : Z) : bool :=
  match fuel with
  | O => true
  | S fuel' =>
    if (i <? desc_len) && (i <? 12) then
      if negb (byte_at buf (off + i) =? 0) then false
      else all_zero_scan fuel' buf off desc_len (u16 (i + 1))
    else true
  end.

(** What the body of the descriptor loop stores in [statuses[status_idx]]. *)
Definition store_status (buf : list byte) (off desc_len : Z) (e : ElementStatus)
  : ElementStatus :=
  let addr := u16 (be16 buf off) in
  let flags := byte_at buf (off + 2) in
  let e1 := mkElementStatus addr
                            (negb (Z.land flags 0x01 =? 0))
                            (negb (Z.land flags 0x04 =? 0))
                            (source e) (source_valid e) in
  if 12 <=? desc_len then
    mkElementStatus (address e1) (full e1) (except e1)
                    (u16 (be16 buf (off + 10)))
                    (negb (Z.land (byte_at buf (off + 9)) 0x80 =? 0))
  else e1.

(** Lines 286-318: one descriptor at the cursor, before [offset += desc_len].
    The scan runs at most 12 times, so 13 units of fuel let it reach its
    own exit test. *)
Definition read_descriptor (buf : list byte) (type desc_len : Z) (c : Cursor) : Cursor :=
  let all_zero := all_zero_scan 13 buf (offset c) desc_len 0 in
  if negb all_zero || negb (type =? ELEM_STORAGE) then
    mkCursor (offset c) (status_idx c + 1)
             (alter (store_status buf (offset c) desc_len)
                    (Z.to_nat (status_idx c)) (out c))
  else c.

(** Lines 280-321: the descriptor loop of one page. *)
Fixpoint walk_descriptors (fuel : nat) (buf : list byte)
    (type desc_len page_end max_statuses : Z) (c : Cursor) : option Cursor :=
  match fuel with
  | O => None
  | S fuel' =>
    if (u32 (offset c + desc_len) <=? page_end) && (status_idx c <? max_statuses) then
      if desc_len <? 2 then Some (set_offset page_end c)
      else
        let c1 := read_descriptor buf type desc_len c in
        walk_descriptors fuel' buf type desc_len page_end max_statuses
                         (set_offset (u32 (offset c1 + desc_len)) c1)
    else Some c
  end.

(** Lines 259-324: the page loop.  Every descriptor is at least two bytes
    long, so [page_end + 1] units of fuel are more than the descriptor loop
    of a page can use ([walk_descriptors_total] below). *)
Fixpoint walk_pages (fuel : nat) (buf : list byte)
    (end_ max_statuses : Z) (c : Cursor) : option Cursor :=
  match fuel with
  | O => None
  | S fuel' =>
    if (u32 (offset c + 8) <=? end_) && (status_idx c <? max_statuses) then
      let type := Z.land (byte_at buf (offset c)) 0x0F in
      let desc_len := u16 (be16 buf (offset c + 2)) in
      let page_bytes := u32 (be24 buf (offset c + 5)) in
      let c1 := set_offset (u32 (offset c + 8)) c in
      if (desc_len =? 0) || (page_bytes =? 0) then Some c1
      else
        let page_end0 := u32 (offset c1 + page_bytes) in
        let page_end := if end_ <? page_end0 then end_ else page_end0 in
        match walk_descriptors (S (Z.to_nat page_end)) buf type desc_len
                               page_end max_statuses c1 with
        | None => None
        | Some c2 =>
          let c3 := if offset c2 <? page_end then set_offset page_end c2 else c2 in
          walk_pages fuel' buf end_ max_statuses c3
        end
    else Some c
  end.

(** [for (uint16_t i = 0; i < num_storage; i++) slots[i] = first_storage + i;] *)
Fixpoint fill_slots (fuel : nat) (first_storage num_storage i : Z) (arr : list Z)
  : list Z :=
  match fuel with
  | O => arr
  | S fuel' =>
    if i <? num_storage then
      fill_slots fuel' first_storage num_storage (u16 (i + 1))
                 (<[Z.to_nat i := u16 (first_storage + i)]> arr)
    else arr
  end.

Definition test_unit_ready_cdb : list byte := bytes_of [0x00; 0; 0; 0; 0; 0].

Definition mode_sense_cdb : list byte :=
  let alloc := 256 in
  bytes_of [0x5A; 0x08; 0x1D; 0; 0; 0; 0;
            Z.land (Z.shiftr alloc 8) 0xFF; Z.land alloc 0xFF; 0].

Definition read_element_status_alloc (count : Z) : Z :=
  let alloc := u32 (8 + 8 + count * 24) in
  let alloc := if alloc <? 4096 then 4096 else alloc in
  if 65535 <? alloc then 65535 else alloc.

Definition read_element_status_cdb (element_type start count alloc : Z) : list byte :=
  bytes_of [0xB8; Z.land element_type 0x0F;
            Z.land (Z.shiftr start 8) 0xFF; Z.land start 0xFF;
            Z.land (Z.shiftr count 8) 0xFF; Z.land count 0xFF;
            Z.land (Z.shiftr alloc 16) 0xFF; Z.land (Z.shiftr alloc 8) 0xFF;
            Z.land alloc 0xFF; 0; 0; 0].

(** Lines 146-162 of [scsi_mode_sense_element]: the offset of the element
    address assignment page in the 256-byte response, or [None] where the
    function gives up with [-1]. *)
Definition locate_element_page (buf : list byte) : option Z :=
  let alloc := 256 in
  let block_desc_len := u16 (be16 buf 6) in
  let page_offset := u32 (8 + block_desc_len) in
  if alloc <? u32 (page_offset + 18) then None
  else
    let page_code := Z.land (byte_at buf page_offset) 0x3F in
    let page_len := byte_at buf (page_offset + 1) in
    if negb (page_code =? 0x1D) || (page_len <? 16) then None
    else Some page_offset.

(** The fields read through [p = &buf[page_offset + 2]]. *)
Definition page_transport (buf : list byte) (page_offset : Z) : Z :=
  u16 (be16 buf (page_offset + 2)).
Definition page_first_storage (buf : list byte) (page_offset : Z) : Z :=
  u16 (be16 buf (page_offset + 2 + 4)).
Definition page_num_storage (buf : list byte) (page_offset : Z) : Z :=
  u16 (be16 buf (page_offset + 2 + 6)).
Definition page_first_ie (buf : list byte) (page_offset : Z) : Z :=
  u16 (be16 buf (page_offset + 2 + 8)).
Definition page_num_ie (buf : list byte) (page_offset : Z) : Z :=
  u16 (be16 buf (page_offset + 2 + 10)).
Definition page_drive (buf : list byte) (page_offset : Z) : Z :=
  u16 (be16 buf (page_offset + 2 + 12)).

(** Lines 167 and 177: [map->transport] and [map->drive]. *)
Definition store_addresses (buf : list byte) (page_offset : Z) (map : ElementMap)
  : ElementMap :=
  mkElementMap (page_transport buf page_offset) (slots map) (slot_count map)
               (page_drive buf page_offset) (ie map) (has_ie map).

(** Line 182 when [calloc] returns [NULL]: the assignment to [map->slots]
    comes before the test, so the pointer the map held is gone. *)
Definition store_null_slots (map : ElementMap) : ElementMap :=
  mkElementMap (transport map) None (slot_count map) (drive map) (ie map) (has_ie map).

(** Lines 186-189, once [calloc] has returned a zeroed array. *)
Definition store_slots (first_storage num_storage : Z) (map : ElementMap) : ElementMap :=
  mkElementMap (transport map)
               (Some (fill_slots (Z.to_nat num_storage) first_storage num_storage 0
                                 (replicate (Z.to_nat num_storage) 0)))
               num_storage (drive map) (ie map) (has_ie map).

(** Lines 193-196. *)
Definition store_ie (first_ie num_ie : Z) (map : ElementMap) : ElementMap :=
  if 0 <? num_ie then
    mkElementMap (transport map) (slots map) (slot_count map) (drive map) first_ie true
  else map.

Section Commands.
Variable env : Env.

(** [calloc]: the [n]-th request of the run succeeds or returns [NULL]. *)
Definition calloc (size : Z) : M bool :=
  n <- gets allocations ;;
  modify count_allocation ;;;
  modify (emit (EvCalloc size)) ;;;
  ret (calloc_ok env n).

Definition free : M unit := modify (emit EvFree).

Definition scsi_test_unit_ready (conn : option ChangerConnection) : M Z :=
  r <- changer_execute_cdb env conn test_unit_ready_cdb 6 None 0 DIR_NONE 10000 ;;
  ret (fst r).

(** The loop of at most three TEST UNIT READY commands, [n] iterations
    left. *)
Fixpoint clear_unit_attention (n : nat) (conn : option ChangerConnection) : M unit :=
  match n with
  | O => ret tt
  | S n' =>
    rc <- scsi_test_unit_ready conn ;;
    if rc =? 0 then ret tt
    else modify (emit (EvUsleep 100000)) ;;; clear_unit_attention n' conn
  end.

(** [scsi_mode_sense_element]: up to three TEST UNIT READY, MODE SENSE(10)
    for page 0x1D into a zeroed 256-byte buffer, then the decoding above. *)
Definition scsi_mode_sense_element (conn : option ChangerConnection)
    (map : option ElementMap) : M (Z * option ElementMap) :=
  match conn, map with
  | Some _, Some m =>
    clear_unit_attention 3 conn ;;;
    r <- changer_execute_cdb env conn mode_sense_cdb 10
                             (Some (replicate 256 x00)) 256 DIR_READ 10000 ;;
    if negb (fst r =? 0) then ret (fst r, Some m)
    else
      let buf := default [] (snd r) in
      match locate_element_page buf with
      | None => ret (-1, Some m)
      | Some page_offset =>
        let m1 := store_addresses buf page_offset m in
        let first_storage := page_first_storage buf page_offset in
        let num_storage := page_num_storage buf page_offset in
        let first_ie := page_first_ie buf page_offset in
        let num_ie := page_num_ie buf page_offset in
        if 0 <? num_storage then
          ok <- calloc (num_storage * 2) ;;
          if negb ok then ret (-1, Some (store_null_slots m1))
          else ret (0, Some (store_ie first_ie num_ie
                               (store_slots first_storage num_storage m1)))
        else ret (0, Some (store_ie first_ie num_ie m1))
      end
  | _, _ => ret (-1, map)
  end.

(** [scsi_read_element_status]: the value returned is [rc] of the command
    when it fails, and [(int)status_idx] after the page loop; the second
    component is the caller's array as the call leaves it.

    The page loop reads [buf[offset + 2]] for the flags of a descriptor
    before it looks at [desc_len]; for a descriptor of two bytes that ends
    at [alloc] this is the byte behind the allocation.  No read goes
    further, so the loop runs on [heap]: the [alloc] bytes of the buffer
    followed by that byte. *)
Definition scsi_read_element_status (conn : option ChangerConnection)
    (element_type start count : Z)
    (statuses : option (list ElementStatus)) (max_statuses : Z)
  : M (Z * option (list ElementStatus)) :=
  match conn with
  | None => ret (-1, statuses)
  | Some _ =>
    let alloc := read_element_status_alloc count in
    ok <- calloc alloc ;;
    if negb ok then ret (-1, statuses)
    else
      r <- changer_execute_cdb env conn
             (read_element_status_cdb element_type start count alloc) 12
             (Some (replicate (Z.to_nat alloc) x00)) alloc DIR_READ 30000 ;;
      if negb (fst r =? 0) then free ;;; ret (fst r, statuses)
      else
        let buf := default [] (snd r) in
        let report_bytes := u32 (be24 buf 5) in
        if report_bytes =? 0 then free ;;; ret (0, statuses)
        else
          match statuses with
          | None => free ;;; ret (0, None)
          | Some arr =>
            n <- gets allocations ;;
            let heap := (buf ++ [heap_after env (Nat.pred n)])%list in
            let end_ := u32 (8 + report_bytes) in
            let end_ := if alloc <? end_ then alloc else end_ in
            match walk_pages (S (Z.to_nat end_)) heap end_ max_statuses
                             (mkCursor 8 0 arr) with
            | None => stuck OutOfFuel
            | Some c => free ;;; ret (status_idx c, Some (out c))
            end
          end
  end.

End Commands.

(** ** Optical media and disk arbitration ([mount.c], both copies) *)

Inductive MediaClass := kIODVDMediaClass | kIOCDMediaClass | kIOBDMediaClass.

Definition kDADiskEjectOptionDefault : Z := 0.

(** A registry entry, as far as the locator looks at it: its "BSD Name"
    property, absent or a string. *)
Record RegistryEntry := mkRegistryEntry {
  bsd_name_property : option string
}.

(** The I/O registry.  [service_matching c] tells whether
    [IOServiceMatching] builds a dictionary for the class;
    [matching_services c] is [None] when [IOServiceGetMatchingServices]
    does not return [KERN_SUCCESS], and the instances the iterator yields
    otherwise. *)
Record Registry := mkRegistry {
  service_matching : MediaClass -> bool;
  matching_services : MediaClass -> option (list RegistryEntry)
}.

(** What disk arbitration does with one request: when its callback fires
    (milliseconds after the request; [None] if it never does) and the
    status of the dissenter it delivers, if any. *)
Record DAReply := mkDAReply {
  arrival : option Z;
  dissenter : option Z
}.

Record DiskArbitration := mkDiskArbitration {
  session_create : bool;                    (* DASessionCreate returned non-NULL *)
  disk_from_bsd_name : string -> bool;      (* DADiskCreateFromBSDName returned non-NULL *)
  eject_reply : string -> Z -> DAReply      (* by disc name and eject options *)
}.

Inductive MountEvent :=
| EvGetMatchingServices (c : MediaClass)
| EvStrdup (s : string)
| EvDADiskEject (name : string) (options : Z).

(** [CFStringGetCString] into a buffer of [size] bytes: the string and its
    terminator have to fit. *)
Definition CFStringGetCString (s : string) (size : Z) : bool :=
  Z.of_nat (String.length s) + 1 <=? size.

(** [snprintf(dst, size, "/dev/%s", name)] *)
Definition snprintf_dev (size : nat) (name : string) : string :=
  substring 0 (size - 1) ("/dev/" ++ name)%string.

Definition fired_by (r : DAReply) (ms : Z) : bool :=
  match arrival r with
  | Some t => t <? ms
  | None => false
  end.

Module CChangerLibMount.

(** One registry query and [IOIteratorNext] on its iterator. *)
Definition first_instance (reg : Registry) (c : MediaClass)
  : list MountEvent * option RegistryEntry :=
  if service_matching reg c then
    ([EvGetMatchingServices c],
     match matching_services reg c with
     | Some l => head l
     | None => None
     end)
  else ([], None).

Definition mount_find_dvd_bsd_name (reg : Registry)
  : list MountEvent * option string :=
  let '(t1, service) := first_instance reg kIODVDMediaClass in
  let '(t2, service) :=
    match service with
    | None =>
      let '(t, s) := first_instance reg kIOCDMediaClass in ((t1 ++ t)%list, s)
    | Some _ => (t1, service)
    end in
  match service with
  | Some e =>
    match bsd_name_property e with
    | Some s =>
      if CFStringGetCString s 64 then ((t2 ++ [EvStrdup s])%list, Some s)
      else (t2, None)
    | None => (t2, None)
    end
  | None => (t2, None)
  end.

(** [strncmp(name, "/dev/", 5) == 0 ? name + 5 : name] *)
Definition strip_dev (name : string) : string :=
  if String.prefix "/dev/" name then substring 5 (String.length name - 5) name else name.

(** [da_runloop_wait(&ctx.done, timeout_sec)]: the run loop is pumped
    until the callback has fired or the wall clock passes the deadline. *)
Definition da_runloop_wait (r : DAReply) (timeout_sec : Z) : bool :=
  fired_by r (timeout_sec * 1000).

Definition mount_eject_disc (da : DiskArbitration) (bsd_name : option string)
    (force : bool) : list MountEvent * Z :=
  match bsd_name with
  | None => ([], -1)
  | Some bsd =>
    let name := strip_dev bsd in
    if negb (session_create da) then ([], -1)
    else if negb (disk_from_bsd_name da name) then ([], -1)
    else
      let r := eject_reply da name kDADiskEjectOptionDefault in
      let t := [EvDADiskEject name kDADiskEjectOptionDefault] in
      if negb (da_runloop_wait r 30) then (t, -1)
      else
        match dissenter r with
        | Some status => (t, status)
        | None => (t, 0)
        end
  end.

End CChangerLibMount.

Module BridgingMount.

(** One of the three blocks of the locator: query the class, take the
    first instance, copy its BSD name. *)
Definition try_class (reg : Registry) (c : MediaClass)
  : list MountEvent * option string :=
  let kr := if service_matching reg c then matching_services reg c else None in
  match kr with
  | Some l =>
    match head l with
    | Some e =>
      match bsd_name_property e with
      | Some s =>
        if CFStringGetCString s 128
        then ([EvGetMatchingServices c; EvStrdup s], Some s)
        else ([EvGetMatchingServices c], None)
      | None => ([EvGetMatchingServices c], None)
      end
    | None => ([EvGetMatchingServices c], None)
    end
  | None => ([EvGetMatchingServices c], None)
  end.

Definition mount_find_dvd_bsd_name (reg : Registry)
  : list MountEvent * option string :=
  let '(t1, result) := try_class reg kIODVDMediaClass in
  match result with
  | Some _ => (t1, result)
  | None =>
    let '(t2, result) := try_class reg kIOCDMediaClass in
    match result with
    | Some _ => ((t1 ++ t2)%list, result)
    | None =>
      let '(t3, result) := try_class reg kIOBDMediaClass in
      ((t1 ++ t2 ++ t3)%list, result)
    end
  end.

(** [while (!ctx.done && elapsed < timeout) { run_loop_for_seconds(1.0);
    elapsed++; }], returning [ctx.done]. *)
Fixpoint pump_seconds (fuel : nat) (r : DAReply) (timeout elapsed : Z) (done : bool)
  : bool :=
  match fuel with
  | O => done
  | S fuel' =>
    if negb done && (elapsed <? timeout)
    then pump_seconds fuel' r timeout (elapsed + 1) (fired_by r ((elapsed + 1) * 1000))
    else done
  end.

Definition mount_eject_disc (da : DiskArbitration) (bsd_name : string)
    (force : bool) : list MountEvent * Z :=
  if negb (session_create da) then ([], -1)
  else
    let dev_path := snprintf_dev 256 bsd_name in
    if negb (disk_from_bsd_name da dev_path) then ([], -1)
    else
      let options := if force then kDADiskEjectOptionDefault
                     else kDADiskEjectOptionDefault in
      let r := eject_reply da dev_path options in
      let t := [EvDADiskEject dev_path options] in
      let done := pump_seconds 30 r 30 0 false in
      let result := match dissenter r with Some status => status | None => 0 end in
      (t, if done then result else -1).

End BridgingMount.

(** ** The specification's sense table

    The string mapping of section 4.1 of the specification, row by row
    and in the order of the table; [None] for a triple no row covers.
    This definition follows the specification, not the code: it is what
    [scsi_sense_string] is compared with. *)
Definition spec_sense_table (key asc ascq : Z) : option string :=
  if key =? 0x00 then Some "No sense"
  else if (key =? 0x02) && (asc =? 0x04) && (ascq =? 0x00)
    then Some "Not ready, cause not reportable"
  else if (key =? 0x02) && (asc =? 0x04) && (ascq =? 0x01)
    then Some "Becoming ready"
  else if (key =? 0x02) && (asc =? 0x04) && (ascq =? 0x02)
    then Some "Needs INITIALIZE ELEMENT STATUS"
  else if (key =? 0x02) && (asc =? 0x04) && (ascq =? 0x03)
    then Some "Manual intervention required"
  else if (key =? 0x02) && (asc =? 0x3A) then Some "Medium not present"
  else if (key =? 0x05) && (asc =? 0x21) then Some "Invalid element address"
  else if (key =? 0x05) && (asc =? 0x24) then Some "Invalid field in CDB"
  else if ((key =? 0x05) || (key =? 0x0B)) && (asc =? 0x3B) && (ascq =? 0x0D)
    then Some "Medium destination full"
  else if ((key =? 0x05) || (key =? 0x0B)) && (asc =? 0x3B) && (ascq =? 0x0E)
    then Some "Medium source empty"
  else if ((key =? 0x05) || (key =? 0x0B)) && (asc =? 0x3B)
    then Some "Element position error"
  else if (key =? 0x06) && (asc =? 0x28) then Some "Medium may have changed"
  else if (key =? 0x06) && (asc =? 0x29) then Some "Power on or reset"
  else None.

(** ** Auxiliary predicates *)

(** The entries of [b] from index [n] on are those of [a]. *)
Definition same_from (n : Z) (a b : list ElementStatus) : Prop :=
  length b = length a /\ forall i : nat, (Z.to_nat n <= i)%nat -> b !! i = a !! i.

(** The same for an array that may be [NULL]. *)
Definition untouched_from (n : Z) (a b : option (list ElementStatus)) : Prop :=
  match a, b with
  | Some arr, Some arr' => same_from n arr arr'
  | None, None => True
  | _, _ => False
  end.

(** A connected connection has the interface pointer of its backend.
    [connect_scsitask] and [connect_sbp2] set [backend] and [connected]
    only after they have stored it, and [changer_disconnect] clears
    [connected]. *)
Definition handles_present (c : ChangerConnection) : bool :=
  negb (connected c)
  || match backend c with
     | BACKEND_SCSITASK => match scsi_device c with Some _ => true | None => false end
     | BACKEND_SBP2 => match login c with Some _ => true | None => false end
     | BACKEND_NONE => true
     end.

Definition usable (conn : option ChangerConnection) : bool :=
  match conn with
  | Some c => handles_present c
  | None => true
  end.

(** The media classes a trace queries, in order. *)
Fixpoint queried (t : list MountEvent) : list MediaClass :=
  match t with
  | [] => []
  | EvGetMatchingServices c :: t' => c :: queried t'
  | _ :: t' => queried t'
  end.

(** The strings a trace allocates with [strdup], in order. *)
Fixpoint copied (t : list MountEvent) : list string :=
  match t with
  | [] => []
  | EvStrdup s :: t' => s :: copied t'
  | _ :: t' => copied t'
  end.

(** ** Concrete devices and connections used in the examples *)

Definition no_sense : SenseData := mkSenseData x00 x00 x00 false.

Definition fresh_world : World := mkWorld no_sense 0 0 [].

Definition empty_status : ElementStatus := mkElementStatus 0 false false 0 false.

Definition empty_map : ElementMap := mkElementMap 0 None 0 0 0 false.

Definition no_orb : Sbp2Reply := mkSbp2Reply false false false false [].

(** A changer that answers every command with GOOD status and [data]. *)
Definition answering (data : list byte) : Env :=
  mkEnv (fun _ _ => mkScsiTaskReply true true true x00 x00 x00 data)
        (fun _ _ => no_orb)
        (fun _ => true)
        (fun _ => x00).

(** A changer that fails every command with CHECK CONDITION and the
    sense triple 05/3B/0E. *)
Definition source_empty_changer : Env :=
  mkEnv (fun _ _ => mkScsiTaskReply true true false x05 x3b x0e [])
        (fun _ _ => no_orb)
        (fun _ => true)
        (fun _ => x00).


(** A changer whose commands fail in [ExecuteTaskSync] itself, the sense
    structure left zeroed. *)
Definition failing_transport : Env :=
  mkEnv (fun _ _ => mkScsiTaskReply true false false x00 x00 x00 [])
        (fun _ _ => no_orb)
        (fun _ => true)
        (fun _ => x00).

(** READ ELEMENT STATUS responses: an 8-byte header (first element,
    element count, report length), then one page of [page_type] with two
    12-byte descriptors. *)
Definition one_page (num_elem page_type : Z) (d1 d2 : list Z) : list byte :=
  bytes_of ([0; 0x10; 0; num_elem; 0; 0; 0; 32]
            ++ [page_type; 0; 0; 12; 0; 0; 0; 24] ++ d1 ++ d2)%list.

Definition zero_descriptor : list Z := [0; 0; 0; 0; 0; 0; 0; 0; 0; 0; 0; 0].

(** Slots 0x0010 (full, source 0x0005 valid) and 0x0011 (empty). *)
Definition storage_pair (num_elem : Z) : list byte :=
  one_page num_elem ELEM_STORAGE
           [0; 0x10; 0x01; 0; 0; 0; 0; 0; 0; 0x80; 0; 0x05]
           [0; 0x11; 0x00; 0; 0; 0; 0; 0; 0; 0; 0; 0].

Definition three_statuses : list ElementStatus :=
  [empty_status; empty_status; empty_status].

(** MODE SENSE responses: an 8-byte header without block descriptors, then
    page 0x1D with transport 0x00E0, the given storage range, no
    import/export element and the drive at 0x0100. *)
Definition element_page (first_hi first_lo num_hi num_lo : Z) : list byte :=
  bytes_of ([0; 0; 0; 0; 0; 0; 0; 0]
            ++ [0x1D; 18; 0x00; 0xE0; 0; 1; first_hi; first_lo; num_hi; num_lo;
                0; 0; 0; 0; 0x01; 0x00; 0; 1; 0; 0])%list.

(** A registry whose only optical medium is a Blu-ray disc, [disk3]. *)
Definition bluray_only : Registry :=
  mkRegistry (fun _ => true)
             (fun c => match c with
                       | kIOBDMediaClass => Some [mkRegistryEntry (Some "disk3")]
                       | _ => Some []
                       end).

(** Disk arbitration that ejects [name] after 1.5 s without dissent. *)
Definition ejecting (name : string) : DiskArbitration :=
  mkDiskArbitration true (String.eqb name)
                    (fun _ _ => mkDAReply (Some 1500) None).

Definition kernel_conn : ChangerConnection :=
  mkChangerConnection BACKEND_SCSITASK 7 (Some 1) true None None true.

Definition firewire_conn : ChangerConnection :=
  mkChangerConnection BACKEND_SBP2 9 None false (Some 2) (Some 3) true.

(** ** The remaining commands of [scsi.c] *)

(** [DeviceInfo]: the three character arrays with their terminators. *)
Record DeviceInfo := mkDeviceInfo {
  vendor : list byte;        (* char vendor[9] *)
  product : list byte;       (* char product[17] *)
  revision : list byte;      (* char revision[5] *)
  device_type : Z            (* uint8_t *)
}.

(** The [n] bytes [buf[start] .. buf[start + n - 1]]. *)
Definition raw_field (buf : list byte) (start n : nat) : list byte :=
  map (fun i => nth (start + i) buf x00) (seq 0 n).

(** [memcpy(dst, &buf[start], n); dst[n] = '\0';] *)
Definition copy_field (buf : list byte) (start n : nat) : list byte :=
  (raw_field buf start n ++ [x00])%list.

(** [for (int i = last; i >= 0 && field[i] == ' '; i--) field[i] = '\0';] *)
Fixpoint trim_spaces (fuel : nat) (i : Z) (field : list byte) : list byte :=
  match fuel with
  | O => field
  | S fuel' =>
    if (0 <=? i) && (u8 (nth (Z.to_nat i) field x00) =? 32) then
      trim_spaces fuel' (i - 1) (<[Z.to_nat i := x00]> field)
    else field
  end.

(** Lines 101-118: the fields of a 96-byte INQUIRY response.  The loop
    over an [n]-byte field runs at most [n] times; one more unit of fuel
    lets it reach its own exit test. *)
Definition decode_inquiry (buf : list byte) : DeviceInfo :=
  mkDeviceInfo (trim_spaces 9 7 (copy_field buf 8 8))
               (trim_spaces 17 15 (copy_field buf 16 16))
               (trim_spaces 5 3 (copy_field buf 32 4))
               (Z.land (byte_at buf 0) 0x1F).

Definition inquiry_cdb : list byte := bytes_of [0x12; 0; 0; 0; 96; 0].

Definition move_medium_cdb (transport_addr source_addr dest_addr : Z) : list byte :=
  bytes_of [0xA5; 0;
            Z.land (Z.shiftr transport_addr 8) 0xFF; Z.land transport_addr 0xFF;
            Z.land (Z.shiftr source_addr 8) 0xFF; Z.land source_addr 0xFF;
            Z.land (Z.shiftr dest_addr 8) 0xFF; Z.land dest_addr 0xFF;
            0; 0; 0; 0].

Definition init_element_status_cdb : list byte := bytes_of [0x07; 0; 0; 0; 0; 0].

Section MoreCommands.
Variable env : Env.

Definition scsi_inquiry (conn : option ChangerConnection) (info : option DeviceInfo)
  : M (Z * option DeviceInfo) :=
  r <- changer_execute_cdb env conn inquiry_cdb 6
                           (Some (replicate 96 x00)) 96 DIR_READ 10000 ;;
  match info with
  | Some _ =>
    if fst r =? 0 then ret (fst r, Some (decode_inquiry (default [] (snd r))))
    else ret (fst r, info)
  | None => ret (fst r, None)
  end.

Definition scsi_move_medium (conn : option ChangerConnection)
    (transport_addr source_addr dest_addr : Z) : M Z :=
  r <- changer_execute_cdb env conn
         (move_medium_cdb transport_addr source_addr dest_addr) 12
         None 0 DIR_NONE 120000 ;;
  ret (fst r).

Definition scsi_init_element_status (conn : option ChangerConnection) : M Z :=
  r <- changer_execute_cdb env conn init_element_status_cdb 6 None 0 DIR_NONE 120000 ;;
  ret (fst r).

End MoreCommands.

(** [element_map_free]; [free(NULL)] does nothing. *)
Definition element_map_free (map : option ElementMap) : M (option ElementMap) :=
  match map with
  | None => ret None
  | Some m =>
    when (match slots m with Some _ => true | None => false end) free ;;;
    ret (Some (mkElementMap (transport m) None 0 (drive m) (ie m) (has_ie m)))
  end.

(** The C string an array holds: its bytes before the first NUL. *)
Fixpoint c_string (field : list byte) : list byte :=
  match field with
  | [] => []
  | b :: rest => if u8 b =? 0 then [] else b :: c_string rest
  end.

(** A byte string without its trailing spaces. *)
Fixpoint drop_trailing_spaces (l : list byte) : list byte :=
  match l with
  | [] => []
  | b :: rest =>
    match drop_trailing_spaces rest with
    | [] => if u8 b =? 32 then [] else [b]
    | r => b :: r
    end
  end.

(** How many times a trace calls [free]. *)
Fixpoint frees (t : list Event) : nat :=
  match t with
  | [] => O
  | EvFree :: t' => S (frees t')
  | _ :: t' => frees t'
  end.

(** How many times a trace calls [calloc]. *)
Fixpoint callocs (t : list Event) : nat :=
  match t with
  | [] => O
  | EvCalloc _ :: t' => S (callocs t')
  | _ :: t' => callocs t'
  end.

(** How many times a trace sleeps. *)
Fixpoint sleeps (t : list Event) : nat :=
  match t with
  | [] => O
  | EvUsleep _ :: t' => S (sleeps t')
  | _ :: t' => sleeps t'
  end.

(** An [n]-byte field with its trailing spaces turned into NULs, and its
    terminator. *)
Definition trimmed_field (raw : list byte) : list byte :=
  (drop_trailing_spaces raw
   ++ replicate (length raw - length (drop_trailing_spaces raw)) x00
   ++ [x00])%list.

(** An INQUIRY response of a changer: device type 8, vendor "ACME",
    product "JUKEBOX 200", revision "1.0", space padded. *)
Definition acme_inquiry : list byte :=
  bytes_of ([0x08; 0; 0; 0; 0; 0; 0; 0]
            ++ [65; 67; 77; 69; 32; 32; 32; 32]
            ++ [74; 85; 75; 69; 66; 79; 88; 32; 50; 48; 48; 32; 32; 32; 32; 32]
            ++ [49; 46; 48; 32])%list.

(** [s] is [raw] without its trailing spaces: it does not end in a space
    and only spaces follow it in [raw]. *)
Definition trimmed_of (s raw : list byte) : Prop :=
  (forall b, last s = Some b -> u8 b <> 32)
  /\ exists k, raw = (s ++ replicate k " "%byte)%list.

Definition no_nul (l : list byte) : Prop := Forall (fun b => u8 b <> 0) l.

(** ** Discovery and attach ([sbp2.c], lines 12-219 and 329-434) *)

(** A Core Foundation property value, as far as the code tells the types
    apart.  [CFNumberValue n] is a number that [CFNumberGetValue] reads as
    the [int] [n]. *)
Inductive CFValue :=
| CFStringValue (s : string)
| CFNumberValue (n : Z)
| CFOtherValue.

(** The I/O registry and the plug-in interfaces behind the two backends.
    Service handles are positive numbers: [IOIteratorNext] returns 0 only
    at the end of an iteration. *)
Record IOKit := mkIOKit {
  io_service_matching : string -> bool;              (* IOServiceMatching != NULL *)
  io_matching_services : string -> option (list positive);
                                                     (* None: not KERN_SUCCESS *)
  io_property : Z -> string -> option CFValue;       (* IORegistryEntryCreateCFProperty *)
  io_children : Z -> option (list positive);         (* None: no child iterator *)
  io_cstring_overflow : string -> Z -> string;
        (* what CFStringGetCString leaves in a zeroed buffer too small for the string *)
  io_create_plugin : Z -> BackendType -> option Z;   (* KERN_SUCCESS and a plug-in *)
  io_query_interface : Z -> option Z;                (* S_OK and an interface *)
  io_obtain_exclusive : Z -> bool;
  io_lun_open : Z -> bool;
  io_create_login : Z -> option Z;
  io_submit_login : Z -> bool;
  io_login_done : Z -> bool;                         (* callback within 5 s *)
  io_login_status_ok : Z -> bool
}.

Definition cfstring_equals (value : option CFValue) (expected : string) : bool :=
  match value with
  | Some (CFStringValue s) => CFStringGetCString s 256 && String.eqb s expected
  | _ => false
  end.

Definition cfnumber_to_int (value : option CFValue) : Z :=
  match value with
  | Some (CFNumberValue n) => n
  | _ => -1
  end.

(** [while ((service = IOIteratorNext(iter))) { if (test) { result = service;
    break; } IOObjectRelease(service); }] *)
Fixpoint first_service (test : Z -> bool) (l : list positive) : Z :=
  match l with
  | [] => 0
  | s :: rest => if test (Z.pos s) then Z.pos s else first_service test rest
  end.

Section Attach.
Variable io : IOKit.

Definition is_changer_nub (service : Z) : bool :=
  cfnumber_to_int (io_property io service "Peripheral Device Type") =? 8.

Definition find_scsi_changer : Z :=
  if negb (io_service_matching io "IOSCSIPeripheralDeviceNub") then 0
  else
    match io_matching_services io "IOSCSIPeripheralDeviceNub" with
    | None => 0
    | Some l => first_service is_changer_nub l
    end.

Definition find_scsi_task_device (nub : Z) : Z :=
  match io_children io nub with
  | None => 0
  | Some l =>
    first_service
      (fun child => match io_property io child "SCSITaskDeviceCategory" with
                    | Some _ => true
                    | None => false
                    end) l
  end.

Definition find_scsi_task_global (vendor_id product_id : string) : Z :=
  if negb (io_service_matching io "IOSCSIPeripheralDeviceNub") then 0
  else
    match io_matching_services io "IOSCSIPeripheralDeviceNub" with
    | None => 0
    | Some l =>
      first_service
        (fun service =>
           cfstring_equals (io_property io service "Vendor Identification") vendor_id
           && cfstring_equals (io_property io service "Product Identification")
                              product_id
           && cfstring_equals (io_property io service "SCSITaskDeviceCategory")
                              "SCSITaskUserClientDevice") l
    end.

Definition changer_find_service : Z := find_scsi_changer.

(** A 128-byte zeroed buffer after the guarded [CFStringGetCString]. *)
Definition copy_identification (value : option CFValue) : string :=
  match value with
  | Some (CFStringValue s) =>
    if CFStringGetCString s 128 then s else io_cstring_overflow io s 128
  | _ => ""
  end.

Definition nonempty (s : string) : bool :=
  match s with
  | EmptyString => false
  | String _ _ => true
  end.

Definition connect_scsitask (conn : ChangerConnection) (nub : Z)
  : Z * ChangerConnection :=
  let vendor_id := copy_identification (io_property io nub "Vendor Identification") in
  let product_id := copy_identification (io_property io nub "Product Identification") in
  let task_service := find_scsi_task_device nub in
  let task_service :=
    if (task_service =? 0) && nonempty vendor_id && nonempty product_id
    then find_scsi_task_global vendor_id product_id
    else task_service in
  if task_service =? 0 then (-1, conn)
  else
    match io_create_plugin io task_service BACKEND_SCSITASK with
    | None => (-1, conn)
    | Some plugin =>
      let conn := set_scsi_device (io_query_interface io plugin) conn in
      match scsi_device conn with
      | None => (-1, conn)
      | Some dev =>
        let conn :=
          if io_obtain_exclusive io dev
          then mkChangerConnection (backend conn) (service conn) (scsi_device conn)
                                   true (lun conn) (login conn) (connected conn)
          else conn in
        (0, mkChangerConnection BACKEND_SCSITASK (service conn) (scsi_device conn)
                                (has_exclusive conn) (lun conn) (login conn) true)
      end
    end.

Definition is_changer_lun (service : Z) : bool :=
  cfnumber_to_int (io_property io service "Device_Type") =? 8.

Definition find_sbp2_changer : Z :=
  if negb (io_service_matching io "IOFireWireSBP2LUN") then 0
  else
    match io_matching_services io "IOFireWireSBP2LUN" with
    | None => 0
    | Some l => first_service is_changer_lun l
    end.

Definition connect_sbp2 (conn : ChangerConnection) : Z * ChangerConnection :=
  let svc := find_sbp2_changer in
  if svc =? 0 then (-1, conn)
  else
    let conn := set_service svc conn in
    match io_create_plugin io svc BACKEND_SBP2 with
    | None => (-1, conn)
    | Some plugin =>
      let conn := set_lun (io_query_interface io plugin) conn in
      match lun conn with
      | None => (-1, conn)
      | Some l =>
        if negb (io_lun_open io l) then (-1, set_lun None conn)
        else
          match io_create_login io l with
          | None => (-1, set_lun None conn)
          | Some lg =>
            let conn := set_login (Some lg) conn in
            if negb (io_submit_login io lg) || negb (io_login_done io lg)
               || negb (io_login_status_ok io lg)
            then (-1, set_lun None (set_login None conn))
            else (0, mkChangerConnection BACKEND_SBP2 (service conn)
                                         (scsi_device conn) (has_exclusive conn)
                                         (lun conn) (login conn) true)
          end
      end
    end.

(** [memset(conn, 0, sizeof *conn)] *)
Definition zeroed_connection : ChangerConnection :=
  mkChangerConnection BACKEND_NONE 0 None false None None false.

Definition changer_connect (conn : option ChangerConnection)
  : Z * option ChangerConnection :=
  match conn with
  | None => (-1, None)
  | Some _ =>
    let conn := zeroed_connection in
    let nub := find_scsi_changer in
    let attempt :=
      if negb (nub =? 0) then connect_scsitask (set_service nub conn) nub
      else (-1, conn) in
    if fst attempt =? 0 then (0, Some (snd attempt))
    else
      let fallback := connect_sbp2 (snd attempt) in
      if fst fallback =? 0 then (0, Some (snd fallback))
      else (-1, Some (snd fallback))
  end.

End Attach.

(** No registry entries, no plug-ins. *)
Definition empty_iokit : IOKit :=
  mkIOKit (fun _ => true) (fun _ => Some []) (fun _ _ => None) (fun _ => Some [])
          (fun s _ => s) (fun _ _ => None) (fun _ => None) (fun _ => false)
          (fun _ => false) (fun _ => None) (fun _ => false) (fun _ => false)
          (fun _ => false).

(** A FireWire changer the kernel does not expose as a SCSI task device:
    nub 5 (type 8) has no task-device child, LUN 6 (type 8) accepts an
    exclusive login. *)
Definition firewire_only : IOKit :=
  mkIOKit (fun _ => true)
          (fun class => if String.eqb class "IOSCSIPeripheralDeviceNub" then Some [5%positive]
                        else if String.eqb class "IOFireWireSBP2LUN" then Some [6%positive]
                        else Some [])
          (fun service key =>
             if String.eqb key "Peripheral Device Type" || String.eqb key "Device_Type"
             then Some (CFNumberValue 8) else None)
          (fun _ => Some [])
          (fun s _ => s)
          (fun service _ => Some (service + 100))
          (fun plugin => Some (plugin + 100))
          (fun _ => true) (fun _ => true)
          (fun l => Some (l + 100))
          (fun _ => true) (fun _ => true) (fun _ => true).

(** ** The remaining disc helpers ([mount.c], both copies) *)

Definition kDADiskUnmountOptionDefault : Z := 0x00000000.
Definition kDADiskUnmountOptionForce : Z := 0x00080000.
Definition MAXPATHLEN : Z := 1024.

(** What [DADiskCopyDescription] tells about a disc: the file-system path
    of its volume URL and its volume name, each possibly absent. *)
Record DiskDescription := mkDiskDescription {
  volume_path : option string;
  volume_name : option string
}.

(** Disk arbitration beyond eject: unmount requests and descriptions, by
    disc name. *)
Record DiskArbitrationOps := mkDiskArbitrationOps {
  da_base : DiskArbitration;
  unmount_reply : string -> Z -> DAReply;
  mount_reply : string -> Z -> DAReply;
  description : string -> option DiskDescription;  (* None: NULL *)
  path_overflow : string -> string
        (* what CFURLGetFileSystemRepresentation leaves in a zeroed buffer
           too small for the path *)
}.

Inductive ArbitrationEvent :=
| EvDADiskUnmount (name : string) (options : Z)
| EvDADiskMount (name : string) (options : Z).

Definition kDADiskMountOptionDefault : Z := 0x00000000.

(** [CFURLGetFileSystemRepresentation] into a buffer of [size] bytes. *)
Definition CFURLGetFileSystemRepresentation (path : string) (size : Z) : bool :=
  Z.of_nat (String.length path) + 1 <=? size.

Module CChangerLibDisc.

Definition mount_is_disc_present (reg : Registry) : bool :=
  match snd (CChangerLibMount.mount_find_dvd_bsd_name reg) with
  | Some _ => true
  | None => false
  end.

Definition mount_unmount_disc (ops : DiskArbitrationOps) (bsd_name : option string)
    (force : bool) : list ArbitrationEvent * Z :=
  match bsd_name with
  | None => ([], -1)
  | Some bsd =>
    let name := CChangerLibMount.strip_dev bsd in
    if negb (session_create (da_base ops)) then ([], -1)
    else if negb (disk_from_bsd_name (da_base ops) name) then ([], -1)
    else
      let options := kDADiskUnmountOptionDefault in
      let options := if force then Z.lor options kDADiskUnmountOptionForce
                     else options in
      let r := unmount_reply ops name options in
      let t := [EvDADiskUnmount name options] in
      if negb (CChangerLibMount.da_runloop_wait r 30) then (t, -1)
      else
        match dissenter r with
        | Some status => (t, status)
        | None => (t, 0)
        end
  end.

(** The description of the disc [bsd_name] names, where the three queries
    get one. *)
Definition describe (ops : DiskArbitrationOps) (bsd_name : option string)
  : option DiskDescription :=
  match bsd_name with
  | None => None
  | Some bsd =>
    let name := CChangerLibMount.strip_dev bsd in
    if negb (session_create (da_base ops)) then None
    else if negb (disk_from_bsd_name (da_base ops) name) then None
    else description ops name
  end.

Definition mount_is_mounted (ops : DiskArbitrationOps) (bsd_name : option string)
  : bool :=
  match describe ops bsd_name with
  | Some desc => match volume_path desc with Some _ => true | None => false end
  | None => false
  end.

Definition mount_get_mount_point (ops : DiskArbitrationOps) (bsd_name : option string)
  : option string :=
  match describe ops bsd_name with
  | Some desc =>
    match volume_path desc with
    | Some path =>
      if CFURLGetFileSystemRepresentation path MAXPATHLEN then Some path else None
    | None => None
    end
  | None => None
  end.

Definition mount_get_volume_name (ops : DiskArbitrationOps) (bsd_name : option string)
  : option string :=
  match describe ops bsd_name with
  | Some desc =>
    match volume_name desc with
    | Some name => if CFStringGetCString name 256 then Some name else None
    | None => None
    end
  | None => None
  end.

(** [mount_callback] fills [ctx.mount_point], zeroed before, from the
    description of the disc when there is no dissenter. *)
Definition callback_mount_point (ops : DiskArbitrationOps) (name : string) : string :=
  match description ops name with
  | Some desc =>
    match volume_path desc with
    | Some path =>
      if CFURLGetFileSystemRepresentation path MAXPATHLEN then path
      else path_overflow ops path
    | None => ""
    end
  | None => ""
  end.

Definition mount_disc (ops : DiskArbitrationOps) (bsd_name : option string)
    (timeout_seconds : Z) : list ArbitrationEvent * option string :=
  match bsd_name with
  | None => ([], None)
  | Some bsd =>
    let name := CChangerLibMount.strip_dev bsd in
    if negb (session_create (da_base ops)) then ([], None)
    else if negb (disk_from_bsd_name (da_base ops) name) then ([], None)
    else
      let r := mount_reply ops name kDADiskMountOptionDefault in
      let t := [EvDADiskMount name kDADiskMountOptionDefault] in
      if negb (CChangerLibMount.da_runloop_wait r timeout_seconds) then (t, None)
      else
        match dissenter r with
        | Some _ => (t, None)
        | None =>
          let mount_point := callback_mount_point ops name in
          match mount_point with
          | EmptyString => (t, None)
          | String _ _ => (t, Some mount_point)
          end
        end
  end.

End CChangerLibDisc.

Module BridgingDisc.

Definition mount_is_disc_present (reg : Registry) : bool :=
  match snd (BridgingMount.mount_find_dvd_bsd_name reg) with
  | Some _ => true
  | None => false
  end.

(** [while (elapsed < timeout) { if (mount_is_disc_present()) return 0;
    sleep(1); elapsed++; } return -1;] with the registry as the [k]-th
    poll finds it.  The second component counts the polls. *)
Fixpoint wait_loop (fuel : nat) (regs : nat -> Registry) (timeout elapsed : Z)
    (polls : nat) : Z * nat :=
  match fuel with
  | O => (-1, polls)
  | S fuel' =>
    if elapsed <? timeout then
      if mount_is_disc_present (regs polls) then (0, S polls)
      else wait_loop fuel' regs timeout (elapsed + 1) (S polls)
    else (-1, polls)
  end.

Definition mount_wait_for_disc (regs : nat -> Registry) (timeout : Z) : Z * nat :=
  wait_loop (S (Z.to_nat timeout)) regs timeout 0 0.

Definition mount_unmount_disc (ops : DiskArbitrationOps) (bsd_name : string)
    (force : bool) : list ArbitrationEvent * Z :=
  if negb (session_create (da_base ops)) then ([], -1)
  else
    let dev_path := snprintf_dev 256 bsd_name in
    if negb (disk_from_bsd_name (da_base ops) dev_path) then ([], -1)
    else
      let options := if force then kDADiskUnmountOptionForce
                     else kDADiskUnmountOptionDefault in
      let r := unmount_reply ops dev_path options in
      let t := [EvDADiskUnmount dev_path options] in
      let done := BridgingMount.pump_seconds 30 r 30 0 false in
      let result := match dissenter r with Some status => status | None => 0 end in
      (t, if done then result else -1).

Definition describe (ops : DiskArbitrationOps) (bsd_name : string)
  : option DiskDescription :=
  if negb (session_create (da_base ops)) then None
  else
    let dev_path := snprintf_dev 256 bsd_name in
    if negb (disk_from_bsd_name (da_base ops) dev_path) then None
    else description ops dev_path.

Definition mount_get_mount_point (ops : DiskArbitrationOps) (bsd_name : string)
  : option string :=
  match describe ops bsd_name with
  | Some desc =>
    match volume_path desc with
    | Some path => if CFURLGetFileSystemRepresentation path 1024 then Some path else None
    | None => None
    end
  | None => None
  end.

Definition mount_is_mounted (ops : DiskArbitrationOps) (bsd_name : string) : bool :=
  match mount_get_mount_point ops bsd_name with
  | Some _ => true
  | None => false
  end.

Definition mount_get_volume_name (ops : DiskArbitrationOps) (bsd_name : string)
  : option string :=
  match describe ops bsd_name with
  | Some desc =>
    match volume_name desc with
    | Some name => if CFStringGetCString name 512 then Some name else None
    | None => None
    end
  | None => None
  end.

Definition mount_disc (ops : DiskArbitrationOps) (bsd_name : string)
    (timeout : Z) : list ArbitrationEvent * option string :=
  if negb (session_create (da_base ops)) then ([], None)
  else
    let dev_path := snprintf_dev 256 bsd_name in
    if negb (disk_from_bsd_name (da_base ops) dev_path) then ([], None)
    else
      let r := mount_reply ops dev_path kDADiskMountOptionDefault in
      let t := [EvDADiskMount dev_path kDADiskMountOptionDefault] in
      let done := BridgingMount.pump_seconds (S (Z.to_nat timeout)) r timeout 0 false in
      let result := match dissenter r with Some status => status | None => 0 end in
      if negb done || negb (result =? 0) then (t, None)
      else (t, mount_get_mount_point ops bsd_name).

End BridgingDisc.

(** A registry that shows a DVD, [disk3], from the third poll on. *)
Definition disc_arrives (k : nat) : Registry :=
  mkRegistry (fun _ => true)
             (fun c => match c with
                       | kIODVDMediaClass =>
                         if (2 <=? k)%nat then Some [mkRegistryEntry (Some "disk3")]
                         else Some []
                       | _ => Some []
                       end).

(** Whether a reply's callback, if any, comes at or after the request. *)
Definition arrives_after_request (r : DAReply) : Prop :=
  match arrival r with
  | Some t => 0 <= t
  | None => True
  end.

(** Disk arbitration that mounts any disc at /Volumes/XYZ after 2.5 s. *)
Definition mounting : DiskArbitrationOps :=
  mkDiskArbitrationOps
    (mkDiskArbitration true (fun _ => true) (fun _ _ => mkDAReply (Some 1500) None))
    (fun _ _ => mkDAReply (Some 29999) (Some 49168))
    (fun _ _ => mkDAReply (Some 2500) None)
    (fun _ => Some (mkDiskDescription (Some "/Volumes/XYZ") (Some "XYZ")))
    (fun p => p).

(** A changer that answers MODE SENSE with five slots from address 0,
    on a host whose allocator has nothing left. *)
Definition out_of_memory : Env :=
  mkEnv (scsitask_reply (answering (element_page 0 0 0 5)))
        (sbp2_reply (answering (element_page 0 0 0 5)))
        (fun _ => false)
        (fun _ => x00).

(** ** Memory around the READ ELEMENT STATUS buffer *)

(** Two memories hold the same bytes at the indices [0] to [n]. *)
Definition same_upto (n : Z) (a b : list byte) : Prop :=
  forall i, 0 <= i <= n -> byte_at a i = byte_at b i.

(** The same device and allocator on a heap where the byte [p] follows
    every block. *)
Definition with_heap (p : byte) (env : Env) : Env :=
  mkEnv (scsitask_reply env) (sbp2_reply env) (calloc_ok env) (fun _ => p).

(** A READ ELEMENT STATUS response that fills an allocation of 4096 bytes:
    the header reports 4088 bytes, and the one storage page has
    descriptors of two bytes, 2039 of them zero and the last with the
    address 0x0010. *)
Definition short_descriptor_page : list byte :=
  bytes_of ([0; 0x10; 0; 1; 0; 0; 0x0F; 0xF8]
            ++ [ELEM_STORAGE; 0; 0; 2; 0; 0; 0x0F; 0xF0]
            ++ replicate 4078 0 ++ [0; 0x10])%list.
(** ** Proof steps *)

(** Run the monadic plumbing of a computation, eagerly or one layer at a
    time. *)
Ltac run := unfold bind, ret, modify, gets, when, stuck; simpl.
Ltac run_step := unfold bind, ret, modify, gets, when, stuck; cbv beta iota.

(** Case analysis on every integer comparison in sight. *)
Ltac split_tests :=
  repeat match goal with
         | |- context [?a =? ?b] => destruct (Z.eqb_spec a b); simpl
         | H : context [?a =? ?b] |- _ => destruct (Z.eqb_spec a b); simpl in H
         end.

(** * Properties *)

(** ** Machine integers *)

Lemma u8_range (b : byte) : 0 <= u8 b < 256.
Proof.
  unfold u8. pose proof (Byte.to_N_bounded b). lia.
Qed.

Lemma u8_to_byte (x : Z) : 0 <= x < 256 -> u8 (to_byte x) = x.
Proof.
  intros Hx. unfold u8, to_byte.
  rewrite Z.mod_small by lia.
  destruct (Byte.of_N (Z.to_N x)) as [b|] eqn:E.
  - apply Byte.to_of_N in E. rewrite E. lia.
  - apply Byte.of_N_None_iff in E. lia.
Qed.

Lemma to_byte_u8 (b : byte) : to_byte (u8 b) = b.
Proof.
  unfold to_byte, u8. pose proof (Byte.to_N_bounded b).
  rewrite Z.mod_small by lia.
  rewrite N2Z.id, Byte.of_to_N. reflexivity.
Qed.

Lemma byte_at_range (buf : list byte) (i : Z) : 0 <= byte_at buf i < 256.
Proof.
  unfold byte_at. destruct (i <? 0); [lia | apply u8_range].
Qed.

Lemma land_low_nibble_range (x : Z) : 0 <= x -> 0 <= Z.land x 0x0F < 256.
Proof.
  intros Hx. change 0x0F with (Z.ones 4). rewrite Z.land_ones by lia.
  pose proof (Z.mod_pos_bound x (2 ^ 4)). lia.
Qed.

(** ** Sense decoder *)

Example sense_string_source_empty :
  scsi_sense_string (Some (mkSenseData x05 x3b x0e true)) = "Medium source empty".
Proof. reflexivity. Qed.

Example sense_string_invalid :
  scsi_sense_string (Some no_sense) = "No sense data"
  /\ scsi_sense_string None = "No sense data".
Proof. split; reflexivity. Qed.

(** C2 (as the code has it): for a valid sense triple that a row of the
    section 4.1 table covers, [scsi_sense_string] returns the string of
    that row, except on the row 02/04/02, where it returns
    "Need INITIALIZE ELEMENT STATUS". *)
Theorem sense_string_follows_table (s : SenseData) (row : string) :
  valid s = true ->
  spec_sense_table (u8 (sense_key s)) (u8 (asc s)) (u8 (ascq s)) = Some row ->
  scsi_sense_string (Some s) =
    if (u8 (sense_key s) =? 0x02) && (u8 (asc s) =? 0x04) && (u8 (ascq s) =? 0x02)
    then "Need INITIALIZE ELEMENT STATUS"
    else row.
Proof.
  intros Hv Hrow. unfold scsi_sense_string, spec_sense_table in *.
  rewrite Hv. simpl.
  split_tests; try lia; try congruence.
Qed.

Lemma sense_string_follows_table_witness :
  scsi_sense_string (Some (mkSenseData x05 x3b x0e true)) = "Medium source empty"
  /\ scsi_sense_string (Some (mkSenseData x02 x04 x02 true))
     = "Need INITIALIZE ELEMENT STATUS".
Proof.
  split.
  - exact (sense_string_follows_table (mkSenseData x05 x3b x0e true)
             "Medium source empty" eq_refl eq_refl).
  - exact (sense_string_follows_table (mkSenseData x02 x04 x02 true)
             "Needs INITIALIZE ELEMENT STATUS" eq_refl eq_refl).
Defined.

(** C2, counterexample: on the valid triple 02/04/02 the table of the
    specification reads "Needs INITIALIZE ELEMENT STATUS" and the code
    returns another string. *)
Lemma sense_string_init_status_differs :
  spec_sense_table 0x02 0x04 0x02 = Some "Needs INITIALIZE ELEMENT STATUS"
  /\ scsi_sense_string (Some (mkSenseData x02 x04 x02 true))
     <> "Needs INITIALIZE ELEMENT STATUS".
Proof.
  split; [reflexivity | discriminate].
Qed.

(** [parse_sense], the decoder of raw sense bytes, has no caller: the
    two backends store sense through [scsi_set_sense].  Taken alone, it
    makes the slot valid with the new key for a fixed-format buffer of at
    least 8 and fewer than 13 bytes and leaves [asc] and [ascq] as the
    slot held them. *)
Lemma parse_sense_short_buffer (buf : list byte) (len : Z) (w : World) :
  8 <= len < 13 ->
  Z.land (byte_at buf 0) 0x7F = 0x70 \/ Z.land (byte_at buf 0) 0x7F = 0x71 ->
  let g := scsi_get_last_sense (parse_sense (Some buf) len w) in
  valid g = true
  /\ u8 (sense_key g) = Z.land (byte_at buf 2) 0x0F
  /\ asc g = asc (scsi_get_last_sense w)
  /\ ascq g = ascq (scsi_get_last_sense w).
Proof.
  intros Hlen Hcode. unfold parse_sense, scsi_get_last_sense.
  destruct (Z.ltb_spec len 8); [lia|].
  destruct (Z.leb_spec 13 len); [lia|].
  destruct (Z.leb_spec 14 len); [lia|].
  assert (E : negb (Z.land (byte_at buf 0) 0x7F =? 0x70)
              && negb (Z.land (byte_at buf 0) 0x7F =? 0x71) = false).
  { destruct Hcode as [-> | ->]; reflexivity. }
  rewrite E. simpl.
  repeat split.
  apply u8_to_byte, land_low_nibble_range. apply byte_at_range.
Qed.

(** ** Changer connection *)


(** What [execute_cdb_scsitask] does once the task exists: it returns -1
    unless [ExecuteTaskSync] succeeds with status GOOD, and writes the
    sense slot only through [scsi_set_sense], with the masked key, the ASC
    and the ASCQ of the reply. *)
Lemma execute_cdb_scsitask_sense env dev cdb cdb_len buffer buffer_len
      direction timeout_ms w :
  let r := scsitask_reply env (commands w) (take (Z.to_nat cdb_len) cdb) in
  let key := to_byte (Z.land (u8 (SENSE_KEY r)) 0x0F) in
  let a := ADDITIONAL_SENSE_CODE r in
  let q := ADDITIONAL_SENSE_CODE_QUALIFIER r in
  task_created r = true ->
  exists buffer' w',
    execute_cdb_scsitask env dev cdb cdb_len buffer buffer_len direction timeout_ms w
      = Ok (if kr_success r && status_good r then 0 else -1, buffer') w'
    /\ g_last_sense w'
       = if kr_success r
         then if status_good r then g_last_sense w else mkSenseData key a q true
         else if negb (u8 key =? 0) || negb (u8 a =? 0) || negb (u8 q =? 0)
              then mkSenseData key a q true
              else g_last_sense w.
Proof.
  intros r key a q Hc. unfold execute_cdb_scsitask. run.
  fold r. rewrite Hc. simpl. fold key a q.
  destruct (kr_success r); simpl.
  - destruct (status_good r); simpl; eexists _, _; split; reflexivity.
  - destruct (negb (u8 key =? 0) || negb (u8 a =? 0) || negb (u8 q =? 0));
      simpl; eexists _, _; split; reflexivity.
Qed.

(** C1 (as the code has it): the last-sense slot is the single
    module-level [g_last_sense], read by [scsi_get_last_sense], which
    takes no connection.  A CDB that fails on any connection of the kernel
    SCSI-task backend returns -1.  When [ExecuteTaskSync] succeeded and
    the status is other than GOOD, the reply's sense key (low nibble), ASC
    and ASCQ are stored in that slot, marked valid.  When
    [ExecuteTaskSync] itself failed, they are stored only if one of the
    three is non-zero, and the slot is left as it was otherwise. *)
Theorem failing_cdb_sets_global_sense env (A : ChangerConnection) (dev : Z)
    cdb cdb_len buffer buffer_len direction timeout_ms (w : World) :
  connected A = true ->
  backend A = BACKEND_SCSITASK ->
  scsi_device A = Some dev ->
  let r := scsitask_reply env (commands w) (take (Z.to_nat cdb_len) cdb) in
  let key := Z.land (u8 (SENSE_KEY r)) 0x0F in
  let stored := mkSenseData (to_byte key) (ADDITIONAL_SENSE_CODE r)
                            (ADDITIONAL_SENSE_CODE_QUALIFIER r) true in
  task_created r = true ->
  kr_success r && status_good r = false ->
  exists buffer' w',
    changer_execute_cdb env (Some A) cdb cdb_len buffer buffer_len direction timeout_ms w
      = Ok (-1, buffer') w'
    /\ (kr_success r = true -> scsi_get_last_sense w' = stored)
    /\ (kr_success r = false ->
        key <> 0 \/ u8 (ADDITIONAL_SENSE_CODE r) <> 0
        \/ u8 (ADDITIONAL_SENSE_CODE_QUALIFIER r) <> 0 ->
        scsi_get_last_sense w' = stored)
    /\ (kr_success r = false ->
        key = 0 -> u8 (ADDITIONAL_SENSE_CODE r) = 0 ->
        u8 (ADDITIONAL_SENSE_CODE_QUALIFIER r) = 0 ->
        scsi_get_last_sense w' = scsi_get_last_sense w).
Proof.
  intros Hconn Hback Hdev r key stored Hc Hfail.
  unfold changer_execute_cdb, scsi_get_last_sense.
  rewrite Hconn, Hback, Hdev. cbn [negb].
  destruct (execute_cdb_scsitask_sense env dev cdb cdb_len buffer buffer_len
              direction timeout_ms w Hc) as (buffer' & w' & Hexec & Hsense).
  fold r in Hexec, Hsense. fold key in Hsense. rewrite Hfail in Hexec.
  exists buffer', w'. split; [exact Hexec|].
  assert (Hkey : u8 (to_byte key) = key).
  { apply u8_to_byte, land_low_nibble_range. apply u8_range. }
  rewrite Hkey in Hsense.
  destruct (kr_success r); cbn [andb] in Hfail.
  - rewrite Hfail in Hsense.
    split; [intros _; exact Hsense|]. split; discriminate.
  - split; [discriminate|]. split.
    + intros _ Hnz. rewrite Hsense.
      destruct (Z.eqb_spec key 0) as [Hk|Hk]; [|reflexivity].
      destruct (Z.eqb_spec (u8 (ADDITIONAL_SENSE_CODE r)) 0) as [Ha|Ha]; [|reflexivity].
      destruct (Z.eqb_spec (u8 (ADDITIONAL_SENSE_CODE_QUALIFIER r)) 0) as [Hq|Hq];
        [|reflexivity].
      exfalso. destruct Hnz as [Hnz | [Hnz | Hnz]]; contradiction.
    + intros _ Hk Ha Hq. rewrite Hsense, Hk, Ha, Hq. reflexivity.
Qed.

Lemma failing_cdb_sets_global_sense_witness :
  exists buffer' w',
    changer_execute_cdb source_empty_changer (Some kernel_conn)
                        test_unit_ready_cdb 6 None 0 DIR_NONE 10000 fresh_world
      = Ok (-1, buffer') w'
    /\ scsi_get_last_sense w' = mkSenseData x05 x3b x0e true.
Proof.
  destruct (failing_cdb_sets_global_sense source_empty_changer kernel_conn 1
              test_unit_ready_cdb 6 None 0 DIR_NONE 10000 fresh_world
              eq_refl eq_refl eq_refl eq_refl eq_refl)
    as (buffer' & w' & Hexec & Hstored & _).
  exists buffer', w'. split; [exact Hexec | exact (Hstored eq_refl)].
Defined.

(** A command whose [ExecuteTaskSync] fails with the sense structure left
    zeroed returns -1 and stores nothing. *)
Example failed_transport_keeps_sense :
  exists w',
    changer_execute_cdb failing_transport (Some kernel_conn)
                        test_unit_ready_cdb 6 None 0 DIR_NONE 10000
                        (set_last_sense (mkSenseData x05 x3b x0e true) fresh_world)
      = Ok (-1, None) w'
    /\ scsi_get_last_sense w' = mkSenseData x05 x3b x0e true.
Proof. eexists. split; [vm_compute; reflexivity | reflexivity]. Qed.

(** C1, counterexample: [kernel_conn] and [firewire_conn] are distinct
    connections; a TEST UNIT READY that fails on the first changes the
    last sense that a holder of the second reads back. *)
Lemma last_sense_shared_between_connections :
  kernel_conn <> firewire_conn
  /\ exists w',
       changer_execute_cdb source_empty_changer (Some kernel_conn)
                           test_unit_ready_cdb 6 None 0 DIR_NONE 10000 fresh_world
         = Ok (-1, None) w'
       /\ scsi_get_last_sense w' = mkSenseData x05 x3b x0e true
       /\ scsi_get_last_sense w' <> scsi_get_last_sense fresh_world.
Proof.
  split; [discriminate|].
  eexists. split; [vm_compute; reflexivity|].
  split; [reflexivity | discriminate].
Qed.




(** C7: a second [changer_disconnect] on the same connection releases
    nothing and changes nothing, and after a disconnect
    [changer_execute_cdb] returns -1 without reaching a backend: the
    world, with its command counter and its trace, is as it was. *)
Theorem disconnect_idempotent_then_unavailable
    (conn : option ChangerConnection) (w : World) :
  exists conn1 w1,
    changer_disconnect conn w = Ok conn1 w1
    /\ match conn, conn1 with
       | Some _, Some c1 => connected c1 = false
       | None, None => True
       | _, _ => False
       end
    /\ changer_disconnect conn1 w1 = Ok conn1 w1
    /\ forall env cdb cdb_len buffer buffer_len direction timeout_ms,
         changer_execute_cdb env conn1 cdb cdb_len buffer buffer_len
                             direction timeout_ms w1
         = Ok (-1, buffer) w1.
Proof.
  destruct conn as [[b svc dev ex l lg cn]|];
    [|exists None, w; repeat split; reflexivity].
  unfold changer_disconnect, disconnect_scsitask, disconnect_sbp2. run.
  destruct b, dev as [d|], ex, l as [l|], lg as [lg|]; simpl;
    destruct (Z.eqb_spec svc 0) as [->|Hsvc]; simpl;
    eexists _, _; (split; [reflexivity|]); simpl;
    (split; [reflexivity|]); (split; [reflexivity|]); reflexivity.
Qed.

Example disconnect_kernel_conn_trace :
  exists c1 w1,
    changer_disconnect (Some kernel_conn) fresh_world = Ok (Some c1) w1
    /\ trace w1 = [EvReleaseExclusiveAccess 1; EvReleaseScsiDevice 1; EvIOObjectRelease 7]
    /\ changer_disconnect (Some c1) w1 = Ok (Some c1) w1.
Proof.
  eexists _, _. repeat split; reflexivity.
Qed.

(** ** READ ELEMENT STATUS: the parser's loops *)

Lemma u16_range (x : Z) : 0 <= u16 x < 65536.
Proof. unfold u16. apply Z.mod_pos_bound. lia. Qed.

Lemma u32_range (x : Z) : 0 <= u32 x < 4294967296.
Proof. unfold u32. apply Z.mod_pos_bound. lia. Qed.

Lemma u32_small (x : Z) : 0 <= x < 4294967296 -> u32 x = x.
Proof. intros. unfold u32. apply Z.mod_small. assumption. Qed.

Lemma u16_small (x : Z) : 0 <= x < 65536 -> u16 x = x.
Proof. intros. unfold u16. apply Z.mod_small. assumption. Qed.

Lemma same_from_refl n a : same_from n a a.
Proof. split; [reflexivity | intros; reflexivity]. Qed.

Lemma same_from_trans n m a b c :
  n <= m -> same_from n a b -> same_from m b c -> same_from m a c.
Proof.
  intros Hnm [Hl1 H1] [Hl2 H2]. split; [congruence|].
  intros i Hi. rewrite H2 by assumption. apply H1. lia.
Qed.

(** One descriptor advances [status_idx] by at most one and writes at most
    the entry it then counts. *)
Lemma read_descriptor_step buf type desc_len c :
  0 <= status_idx c ->
  let c' := read_descriptor buf type desc_len c in
  offset c' = offset c
  /\ status_idx c <= status_idx c' <= status_idx c + 1
  /\ same_from (status_idx c') (out c) (out c').
Proof.
  intros Hidx. unfold read_descriptor.
  destruct (negb _ || negb _); simpl.
  - split; [reflexivity|]. split; [lia|]. split.
    + apply length_alter.
    + intros i Hi. apply list_lookup_alter_ne. lia.
  - split; [reflexivity|]. split; [lia|]. apply same_from_refl.
Qed.

Lemma walk_descriptors_unfold fuel buf type desc_len page_end max_statuses c :
  walk_descriptors (S fuel) buf type desc_len page_end max_statuses c =
  if (u32 (offset c + desc_len) <=? page_end) && (status_idx c <? max_statuses) then
    if desc_len <? 2 then Some (set_offset page_end c)
    else walk_descriptors fuel buf type desc_len page_end max_statuses
           (set_offset (u32 (offset (read_descriptor buf type desc_len c) + desc_len))
                       (read_descriptor buf type desc_len c))
  else Some c.
Proof. reflexivity. Qed.

(** The descriptor loop ends within the fuel [walk_pages] gives it, never
    moves the cursor backwards or past the page, and keeps [status_idx]
    within [max_statuses]. *)
Lemma walk_descriptors_total buf type desc_len page_end max_statuses :
  0 <= desc_len < 65536 -> 0 <= page_end <= 65535 ->
  forall fuel c,
    0 <= offset c <= 65535 ->
    0 <= status_idx c <= max_statuses ->
    (Z.to_nat (page_end - offset c) < fuel)%nat ->
    exists c',
      walk_descriptors fuel buf type desc_len page_end max_statuses c = Some c'
      /\ offset c <= offset c' <= Z.max (offset c) page_end
      /\ status_idx c <= status_idx c' <= max_statuses
      /\ same_from (status_idx c') (out c) (out c').
Proof.
  intros Hdl Hpe. induction fuel as [|fuel IH]; intros c Hoff Hidx Hfuel; [lia|].
  rewrite walk_descriptors_unfold.
  rewrite (u32_small (offset c + desc_len)) by lia.
  destruct (Z.leb_spec (offset c + desc_len) page_end) as [Hin|Hout];
    destruct (Z.ltb_spec (status_idx c) max_statuses) as [Hroom|Hfull]; simpl;
    try (exists c; repeat split; try lia; apply same_from_refl).
  destruct (Z.ltb_spec desc_len 2) as [Hshort|Hlong].
  - exists (set_offset page_end c). simpl.
    repeat split; try lia; apply same_from_refl.
  - destruct (read_descriptor_step buf type desc_len c) as (Ho & Hi & Hsame); [lia|].
    set (c1 := read_descriptor buf type desc_len c) in *.
    rewrite Ho. rewrite (u32_small (offset c + desc_len)) by lia.
    destruct (IH (set_offset (offset c + desc_len) c1)) as (c' & Hrun & Hoff' & Hidx' & Hsame').
    + simpl. lia.
    + simpl. lia.
    + simpl. lia.
    + exists c'. simpl in *. split; [exact Hrun|].
      split; [lia|]. split; [lia|].
      eapply same_from_trans; [|exact Hsame|exact Hsame']. lia.
Qed.

Lemma walk_pages_unfold fuel buf end_ max_statuses c :
  walk_pages (S fuel) buf end_ max_statuses c =
  if (u32 (offset c + 8) <=? end_) && (status_idx c <? max_statuses) then
    let type := Z.land (byte_at buf (offset c)) 0x0F in
    let desc_len := u16 (be16 buf (offset c + 2)) in
    let page_bytes := u32 (be24 buf (offset c + 5)) in
    let c1 := set_offset (u32 (offset c + 8)) c in
    if (desc_len =? 0) || (page_bytes =? 0) then Some c1
    else
      let page_end0 := u32 (offset c1 + page_bytes) in
      let page_end := if end_ <? page_end0 then end_ else page_end0 in
      match walk_descriptors (S (Z.to_nat page_end)) buf type desc_len
                             page_end max_statuses c1 with
      | None => None
      | Some c2 =>
        let c3 := if offset c2 <? page_end then set_offset page_end c2 else c2 in
        walk_pages fuel buf end_ max_statuses c3
      end
  else Some c.
Proof. reflexivity. Qed.

(** The page loop ends within [end_ - offset + 1] iterations and keeps
    [status_idx] within [max_statuses]. *)
Lemma walk_pages_total buf end_ max_statuses :
  0 <= end_ <= 65535 ->
  forall fuel c,
    0 <= offset c <= 65535 ->
    0 <= status_idx c <= max_statuses ->
    (Z.to_nat (end_ - offset c) < fuel)%nat ->
    exists c',
      walk_pages fuel buf end_ max_statuses c = Some c'
      /\ status_idx c <= status_idx c' <= max_statuses
      /\ same_from (status_idx c') (out c) (out c').
Proof.
  intros Hend. induction fuel as [|fuel IH]; intros c Hoff Hidx Hfuel; [lia|].
  rewrite walk_pages_unfold.
  rewrite (u32_small (offset c + 8)) by lia.
  destruct (Z.leb_spec (offset c + 8) end_) as [Hin|Hout];
    destruct (Z.ltb_spec (status_idx c) max_statuses) as [Hroom|Hfull]; cbn [andb];
    try (exists c; repeat split; try lia; apply same_from_refl).
  cbv zeta.
  set (type := Z.land (byte_at buf (offset c)) 15).
  set (desc_len := u16 (be16 buf (offset c + 2))).
  set (page_bytes := u32 (be24 buf (offset c + 5))).
  destruct ((desc_len =? 0) || (page_bytes =? 0)).
  { exists (set_offset (offset c + 8) c). cbn [offset status_idx out set_offset].
    repeat split; try lia; apply same_from_refl. }
  cbn [offset set_offset].
  set (page_end0 := u32 (offset c + 8 + page_bytes)).
  set (page_end := if end_ <? page_end0 then end_ else page_end0).
  assert (Hpe : 0 <= page_end <= 65535 /\ page_end <= end_).
  { subst page_end. pose proof (u32_range (offset c + 8 + page_bytes)) as Hr.
    fold page_end0 in Hr. destruct (Z.ltb_spec end_ page_end0); lia. }
  destruct Hpe as [Hpe Hpe'].
  destruct (walk_descriptors_total buf type desc_len page_end max_statuses
              (u16_range _) Hpe (S (Z.to_nat page_end)) (set_offset (offset c + 8) c))
    as (c2 & Hrun & Hoff2 & Hidx2 & Hsame2);
    cbn [offset status_idx out set_offset]; try lia.
  cbn [offset status_idx out set_offset] in *.
  rewrite Hrun.
  set (c3 := if offset c2 <? page_end then set_offset page_end c2 else c2).
  assert (H3 : offset c + 8 <= offset c3 <= end_
                /\ status_idx c3 = status_idx c2 /\ out c3 = out c2).
  { subst c3. destruct (Z.ltb_spec (offset c2) page_end);
      cbn [offset status_idx out set_offset]; repeat split; lia. }
  destruct H3 as (Hoff3 & Hidx3 & Hout3).
  destruct (IH c3) as (c' & Hrun' & Hidx' & Hsame'); try lia.
  exists c'. split; [exact Hrun'|]. split; [lia|].
  rewrite Hout3 in Hsame'.
  eapply same_from_trans; [|exact Hsame2|exact Hsame']. lia.
Qed.

Lemma read_element_status_alloc_range (count : Z) :
  4096 <= read_element_status_alloc count <= 65535.
Proof.
  unfold read_element_status_alloc.
  pose proof (u32_range (8 + 8 + count * 24)).
  destruct (Z.ltb_spec (u32 (8 + 8 + count * 24)) 4096); simpl.
  - reflexivity || (split; lia).
  - destruct (Z.ltb_spec 65535 (u32 (8 + 8 + count * 24))); lia.
Qed.

(** With its interface pointer in place, a connection always gives
    [changer_execute_cdb] a result, 0 or -1. *)
Lemma changer_execute_cdb_returns env conn cdb cdb_len buffer buffer_len
      direction timeout_ms w :
  usable conn = true ->
  exists rc buffer' w',
    changer_execute_cdb env conn cdb cdb_len buffer buffer_len direction timeout_ms w
    = Ok (rc, buffer') w'
    /\ (rc = 0 \/ rc = -1).
Proof.
  intros Hu. destruct conn as [c|]; [|eexists _, _, _; split; [reflexivity | lia]].
  unfold changer_execute_cdb, usable, handles_present in *.
  destruct (connected c); simpl in *; [|eexists _, _, _; split; [reflexivity | lia]].
  destruct (backend c); [eexists _, _, _; split; [reflexivity | lia]| |].
  - destruct (scsi_device c); [|discriminate].
    unfold execute_cdb_scsitask. run.
    destruct (task_created _); simpl; [|eexists _, _, _; split; [reflexivity | lia]].
    destruct (kr_success _); simpl.
    + destruct (status_good _); simpl; eexists _, _, _; (split; [reflexivity | lia]).
    + destruct (negb _ || negb _ || negb _); simpl;
        eexists _, _, _; (split; [reflexivity | lia]).
  - destruct (login c); [|discriminate].
    unfold execute_cdb_sbp2. run.
    destruct (orb_created _); simpl; [|eexists _, _, _; split; [reflexivity | lia]].
    destruct (orb_submitted _); simpl; [|eexists _, _, _; split; [reflexivity | lia]].
    destruct (notified _); simpl; [|eexists _, _, _; split; [reflexivity | lia]].
    destruct (normal_status _); simpl; eexists _, _, _; (split; [reflexivity | lia]).
Qed.

Lemma untouched_from_refl n a : untouched_from n a a.
Proof. destruct a; [apply same_from_refl | exact I]. Qed.

(** C3 (as the code has it): [scsi_read_element_status] returns, the
    number of entries it reports as populated is at most [max_statuses],
    and the caller's array is untouched from that index on.  The element
    count of the response header is not part of the bound. *)
Theorem read_element_status_within_capacity env conn element_type start count
    statuses max_statuses w :
  usable conn = true ->
  0 <= max_statuses ->
  exists rc statuses' w',
    scsi_read_element_status env conn element_type start count statuses max_statuses w
    = Ok (rc, statuses') w'
    /\ rc <= max_statuses
    /\ untouched_from rc statuses statuses'.
Proof.
  intros Hu Hmax.
  unfold scsi_read_element_status.
  destruct conn as [c|];
    [|exists (-1), statuses, w; split; [reflexivity|];
      split; [lia | apply untouched_from_refl]].
  set (alloc := read_element_status_alloc count).
  pose proof (read_element_status_alloc_range count) as Halloc. fold alloc in Halloc.
  unfold calloc, free. run_step.
  destruct (calloc_ok env (allocations w)); cbn [negb];
    [|eexists _, _, _; split; [reflexivity|];
      split; [lia | apply untouched_from_refl]].
  match goal with
  | |- context [changer_execute_cdb env ?cn ?cdb ?l ?b ?bl ?d ?t ?w0] =>
    destruct (changer_execute_cdb_returns env cn cdb l b bl d t w0 Hu)
      as (rc & buf & w1 & Hexec & Hrc); rewrite Hexec
  end.
  cbn [fst snd].
  destruct Hrc as [-> | ->]; cbn [Z.eqb negb];
    [|eexists _, _, _; split; [reflexivity|];
      split; [lia | apply untouched_from_refl]].
  set (b := default [] buf).
  destruct (u32 (be24 b 5) =? 0);
    [eexists _, _, _; split; [reflexivity|];
     split; [lia | apply untouched_from_refl]|].
  destruct statuses as [arr|];
    [|eexists _, _, _; split; [reflexivity|]; split; [lia | exact I]].
  set (end0 := u32 (8 + u32 (be24 b 5))).
  set (end_ := if alloc <? end0 then alloc else end0).
  assert (Hend : 0 <= end_ <= 65535).
  { subst end_. pose proof (u32_range (8 + u32 (be24 b 5))) as Hr. fold end0 in Hr.
    destruct (Z.ltb_spec alloc end0); lia. }
  match goal with
  | |- context [walk_pages _ ?heap end_ max_statuses _] =>
    destruct (walk_pages_total heap end_ max_statuses Hend (S (Z.to_nat end_))
                               (mkCursor 8 0 arr))
      as (c' & Hrun & Hidx & Hs); cbn [offset status_idx out]; try lia
  end.
  rewrite Hrun. cbn [offset status_idx out] in *.
  eexists _, _, _. split; [reflexivity|]. split; [lia | exact Hs].
Qed.

Lemma read_element_status_within_capacity_witness :
  exists rc statuses' w',
    scsi_read_element_status (answering (storage_pair 2)) (Some kernel_conn)
                             ELEM_STORAGE 0 2 (Some three_statuses) 1 fresh_world
    = Ok (rc, statuses') w'
    /\ rc <= 1
    /\ untouched_from rc (Some three_statuses) statuses'.
Proof.
  apply read_element_status_within_capacity; [reflexivity | lia].
Defined.

Example read_element_status_storage_pair :
  exists w',
    scsi_read_element_status (answering (storage_pair 2)) (Some kernel_conn)
                             ELEM_STORAGE 0 2 (Some three_statuses) 3 fresh_world
    = Ok (2, Some [mkElementStatus 0x0010 true false 0x0005 true;
                   mkElementStatus 0x0011 false false 0 false;
                   empty_status]) w'.
Proof. eexists. vm_compute. reflexivity. Qed.

(** C3, counterexample: the header of the response announces one element,
    its page carries two descriptors, and two entries are populated. *)
Lemma read_element_status_exceeds_reported_count :
  be16 (storage_pair 1) 2 = 1
  /\ exists statuses' w',
       scsi_read_element_status (answering (storage_pair 1)) (Some kernel_conn)
                                ELEM_STORAGE 0 2 (Some three_statuses) 3 fresh_world
       = Ok (2, statuses') w'
       /\ ~ 2 <= be16 (storage_pair 1) 2.
Proof.
  split; [reflexivity|].
  eexists _, _. split; [vm_compute; reflexivity|].
  vm_compute. intros H. apply H. reflexivity.
Qed.

(** C9: with [statuses == NULL] and a command that succeeds,
    [scsi_read_element_status] frees its buffer and returns 0 whatever the
    response holds; no descriptor is read and there is no array to fill. *)
Theorem read_element_status_null_array env (c : ChangerConnection)
    element_type start count max_statuses (w w1 w2 : World) (buf : option (list byte)) :
  let alloc := read_element_status_alloc count in
  calloc env alloc w = Ok true w1 ->
  changer_execute_cdb env (Some c)
    (read_element_status_cdb element_type start count alloc) 12
    (Some (replicate (Z.to_nat alloc) x00)) alloc DIR_READ 30000 w1
  = Ok (0, buf) w2 ->
  scsi_read_element_status env (Some c) element_type start count None max_statuses w
  = Ok (0, None) (emit EvFree w2).
Proof.
  intros alloc Hcalloc Hexec.
  unfold scsi_read_element_status. fold alloc.
  unfold bind at 1. rewrite Hcalloc. cbn [negb].
  unfold bind at 1. rewrite Hexec. cbn [fst snd Z.eqb negb].
  destruct (u32 (be24 (default [] buf) 5) =? 0); reflexivity.
Qed.

Lemma read_element_status_null_array_witness :
  be16 (storage_pair 2) 2 = 2
  /\ exists w',
       scsi_read_element_status (answering (storage_pair 2)) (Some kernel_conn)
                                ELEM_STORAGE 0 2 None 0 fresh_world
       = Ok (0, None) w'.
Proof.
  split; [reflexivity|].
  eexists.
  eapply (read_element_status_null_array (answering (storage_pair 2)) kernel_conn
            ELEM_STORAGE 0 2 0 fresh_world).
  - reflexivity.
  - vm_compute. reflexivity.
Defined.

(** ** READ ELEMENT STATUS: all-zero descriptors *)

Lemma all_zero_scan_zero buf off desc_len :
  (forall j, 0 <= j < 12 -> byte_at buf (off + j) = 0) ->
  forall fuel i, 0 <= i -> all_zero_scan fuel buf off desc_len i = true.
Proof.
  intros Hz. induction fuel as [|fuel IH]; intros i Hi; [reflexivity|].
  cbn [all_zero_scan].
  destruct (Z.ltb_spec i desc_len); [|reflexivity].
  destruct (Z.ltb_spec i 12); [|reflexivity].
  cbn [andb]. rewrite Hz by lia. cbn [Z.eqb negb].
  apply IH. pose proof (u16_range (i + 1)). lia.
Qed.

(** A scan that meets a non-zero byte among the first [min desc_len 12]
    clears [all_zero]. *)
Lemma all_zero_scan_nonzero buf off desc_len j :
  0 <= j < desc_len -> j < 12 -> byte_at buf (off + j) <> 0 ->
  forall fuel i, 0 <= i <= j -> (Z.to_nat (j - i) < fuel)%nat ->
    all_zero_scan fuel buf off desc_len i = false.
Proof.
  intros Hj Hj12 Hnz. induction fuel as [|fuel IH]; intros i Hi Hfuel; [lia|].
  cbn [all_zero_scan].
  destruct (Z.ltb_spec i desc_len); [|lia].
  destruct (Z.ltb_spec i 12); [|lia].
  cbn [andb].
  destruct (Z.eqb_spec (byte_at buf (off + i)) 0) as [Hzero|Hne]; [|reflexivity].
  cbn [negb].
  assert (i <> j) by (intros ->; contradiction).
  rewrite u16_small by lia. apply IH; lia.
Qed.

(** A descriptor with a non-zero byte among its first [min desc_len 12]
    is stored and counted in a page of any type. *)
Lemma nonzero_descriptor_stored buf type desc_len c j :
  0 <= j < desc_len -> j < 12 -> byte_at buf (offset c + j) <> 0 ->
  read_descriptor buf type desc_len c
  = mkCursor (offset c) (status_idx c + 1)
             (alter (store_status buf (offset c) desc_len)
                    (Z.to_nat (status_idx c)) (out c)).
Proof.
  intros Hj Hj12 Hnz. unfold read_descriptor.
  rewrite (all_zero_scan_nonzero buf (offset c) desc_len j Hj Hj12 Hnz 13 0) by lia.
  reflexivity.
Qed.

Lemma store_status_zero buf off desc_len e :
  (forall j, 0 <= j < 12 -> byte_at buf (off + j) = 0) ->
  let e' := store_status buf off desc_len e in
  address e' = 0 /\ full e' = false /\ except e' = false.
Proof.
  intros Hz.
  pose proof (Hz 0 ltac:(lia)) as H0. rewrite Z.add_0_r in H0.
  pose proof (Hz 1 ltac:(lia)) as H1.
  pose proof (Hz 2 ltac:(lia)) as H2.
  unfold store_status, be16. rewrite H0, H1, H2.
  destruct (12 <=? desc_len); repeat split; reflexivity.
Qed.

(** C6: when the descriptor loop stands on a descriptor whose first 12
    bytes are all zero, the descriptor is skipped ([status_idx] and the
    array as before) exactly when the page is a storage page; in a page of
    any other type the entry is stored, with address 0 and both flags
    clear, and counted.  Either way the loop goes on behind the
    descriptor. *)
Theorem zero_descriptor_skipped_iff_storage (fuel : nat) (buf : list byte)
    (type desc_len page_end max_statuses : Z) (c : Cursor) :
  2 <= desc_len ->
  u32 (offset c + desc_len) <= page_end ->
  status_idx c < max_statuses ->
  (forall j, 0 <= j < 12 -> byte_at buf (offset c + j) = 0) ->
  let c' := read_descriptor buf type desc_len c in
  (status_idx c' = status_idx c <-> type = ELEM_STORAGE)
  /\ (type = ELEM_STORAGE -> c' = c)
  /\ (type <> ELEM_STORAGE ->
      status_idx c' = status_idx c + 1
      /\ out c' = alter (store_status buf (offset c) desc_len)
                        (Z.to_nat (status_idx c)) (out c)
      /\ forall e, let e' := store_status buf (offset c) desc_len e in
                   address e' = 0 /\ full e' = false /\ except e' = false)
  /\ walk_descriptors (S fuel) buf type desc_len page_end max_statuses c
     = walk_descriptors fuel buf type desc_len page_end max_statuses
                        (set_offset (u32 (offset c + desc_len)) c').
Proof.
  intros Hdl Hin Hroom Hz c'.
  assert (Hc' : c' = if type =? ELEM_STORAGE then c
                     else mkCursor (offset c) (status_idx c + 1)
                            (alter (store_status buf (offset c) desc_len)
                                   (Z.to_nat (status_idx c)) (out c))).
  { subst c'. unfold read_descriptor.
    rewrite (all_zero_scan_zero buf (offset c) desc_len Hz) by lia.
    cbn [negb orb]. destruct (type =? ELEM_STORAGE); reflexivity. }
  assert (Hoff : offset c' = offset c).
  { rewrite Hc'. destruct (type =? ELEM_STORAGE); reflexivity. }
  split; [|split; [|split]].
  - rewrite Hc'. destruct (Z.eqb_spec type ELEM_STORAGE); cbn [status_idx];
      split; intros; try assumption; try reflexivity; lia.
  - intros ->. rewrite Hc'. reflexivity.
  - intros Hne. rewrite Hc'.
    destruct (Z.eqb_spec type ELEM_STORAGE); [contradiction|].
    cbn [status_idx out]. split; [reflexivity|]. split; [reflexivity|].
    intros e. apply store_status_zero. exact Hz.
  - rewrite walk_descriptors_unfold.
    destruct (Z.leb_spec (u32 (offset c + desc_len)) page_end); [|lia].
    destruct (Z.ltb_spec (status_idx c) max_statuses); [|lia].
    destruct (Z.ltb_spec desc_len 2); [lia|].
    cbn [andb]. fold c'. rewrite Hoff. reflexivity.
Qed.

Lemma zero_descriptor_skipped_iff_storage_witness :
  let buf := one_page 2 ELEM_TRANSPORT zero_descriptor zero_descriptor in
  let c := mkCursor 16 0 three_statuses in
  let c' := read_descriptor buf ELEM_TRANSPORT 12 c in
  (status_idx c' = status_idx c <-> ELEM_TRANSPORT = ELEM_STORAGE)
  /\ (ELEM_TRANSPORT = ELEM_STORAGE -> c' = c)
  /\ (ELEM_TRANSPORT <> ELEM_STORAGE ->
      status_idx c' = status_idx c + 1
      /\ out c' = alter (store_status buf (offset c) 12)
                        (Z.to_nat (status_idx c)) (out c)
      /\ forall e, let e' := store_status buf (offset c) 12 e in
                   address e' = 0 /\ full e' = false /\ except e' = false)
  /\ walk_descriptors 41 buf ELEM_TRANSPORT 12 40 3 c
     = walk_descriptors 40 buf ELEM_TRANSPORT 12 40 3
                        (set_offset (u32 (offset c + 12)) c').
Proof.
  apply (zero_descriptor_skipped_iff_storage 40
           (one_page 2 ELEM_TRANSPORT zero_descriptor zero_descriptor)
           ELEM_TRANSPORT 12 40 3 (mkCursor 16 0 three_statuses)).
  - lia.
  - vm_compute. discriminate.
  - cbn [status_idx]. lia.
  - intros j Hj. cbn [offset].
    assert (Hcases : j = 0 \/ j = 1 \/ j = 2 \/ j = 3 \/ j = 4 \/ j = 5 \/ j = 6
                     \/ j = 7 \/ j = 8 \/ j = 9 \/ j = 10 \/ j = 11) by lia.
    repeat (destruct Hcases as [-> | Hcases]; [reflexivity|]).
    subst j. reflexivity.
Defined.

(** Whole runs over pages of two all-zero descriptors: nothing is
    populated from a storage page, both entries from a page of any other
    type. *)
Example zero_descriptors_by_page_type :
  let run page_type :=
    match scsi_read_element_status
            (answering (one_page 2 page_type zero_descriptor zero_descriptor))
            (Some kernel_conn) page_type 0 2 (Some three_statuses) 3 fresh_world with
    | Ok (rc, _) _ => Some rc
    | Stuck _ => None
    end in
  run ELEM_STORAGE = Some 0
  /\ run ELEM_TRANSPORT = Some 2
  /\ run ELEM_IE = Some 2
  /\ run ELEM_DRIVE = Some 2.
Proof. vm_compute. repeat split; reflexivity. Qed.

(** ** MODE SENSE: the slot array *)

Lemma fill_slots_spec (first_storage num_storage : Z) :
  0 <= num_storage < 65536 ->
  forall fuel i arr,
    0 <= i <= num_storage ->
    (Z.to_nat (num_storage - i) <= fuel)%nat ->
    length arr = Z.to_nat num_storage ->
    let r := fill_slots fuel first_storage num_storage i arr in
    length r = Z.to_nat num_storage
    /\ forall j, 0 <= j < num_storage ->
         r !! Z.to_nat j = if j <? i then arr !! Z.to_nat j
                           else Some (u16 (first_storage + j)).
Proof.
  intros Hnum. induction fuel as [|fuel IH]; intros i arr Hi Hfuel Hlen.
  - cbn [fill_slots]. split; [assumption|].
    intros j Hj. destruct (Z.ltb_spec j i); [reflexivity | lia].
  - cbn [fill_slots]. destruct (Z.ltb_spec i num_storage) as [Hlt|Hge].
    + rewrite u16_small by lia.
      destruct (IH (i + 1) (<[Z.to_nat i := u16 (first_storage + i)]> arr))
        as [Hl Hr]; [lia | lia | rewrite length_insert; assumption |].
      split; [exact Hl|].
      intros j Hj. rewrite (Hr j Hj).
      destruct (Z.ltb_spec j (i + 1)) as [Hji|Hji];
        destruct (Z.ltb_spec j i) as [Hji'|Hji']; try lia.
      * apply list_lookup_insert_ne. lia.
      * assert (j = i) by lia. subst j.
        apply list_lookup_insert_eq. lia.
      * reflexivity.
    + split; [assumption|].
      intros j Hj. destruct (Z.ltb_spec j i); [reflexivity | lia].
Qed.

Lemma store_slots_spec first_storage num_storage m :
  0 <= num_storage < 65536 ->
  slot_count (store_slots first_storage num_storage m) = num_storage
  /\ exists arr,
       slots (store_slots first_storage num_storage m) = Some arr
       /\ length arr = Z.to_nat num_storage
       /\ forall i, 0 <= i < num_storage ->
            arr !! Z.to_nat i = Some (u16 (first_storage + i)).
Proof.
  intros Hnum. unfold store_slots. cbn [slot_count slots].
  split; [reflexivity|]. eexists. split; [reflexivity|].
  destruct (fill_slots_spec first_storage num_storage Hnum
              (Z.to_nat num_storage) 0 (replicate (Z.to_nat num_storage) 0))
    as [Hl Hr]; [lia | lia | apply length_replicate |].
  split; [exact Hl|].
  intros i Hi. rewrite (Hr i Hi).
  destruct (Z.ltb_spec i 0); [lia | reflexivity].
Qed.

Lemma store_ie_keeps_slots first_ie num_ie m :
  slots (store_ie first_ie num_ie m) = slots m
  /\ slot_count (store_ie first_ie num_ie m) = slot_count m.
Proof. unfold store_ie. destruct (0 <? num_ie); split; reflexivity. Qed.

(** C5 (as the code has it): when the MODE SENSE command returns a
    response that the parser accepts, and the slot array can be allocated,
    [scsi_mode_sense_element] returns 0; for a storage count above zero
    [slot_count] is that count and [slots[i]] is [first_storage + i]
    truncated to 16 bits, which is [first_storage + i] itself as long as
    the range ends at or below 0x10000; for a storage count of zero the
    slot fields of the caller's map are left as they were. *)
Theorem mode_sense_builds_slots env (c : ChangerConnection) (m : ElementMap)
    (w w1 w2 : World) (buf : list byte) (page_offset : Z) :
  clear_unit_attention env 3 (Some c) w = Ok tt w1 ->
  changer_execute_cdb env (Some c) mode_sense_cdb 10
                      (Some (replicate 256 x00)) 256 DIR_READ 10000 w1
  = Ok (0, Some buf) w2 ->
  locate_element_page buf = Some page_offset ->
  let first_storage := page_first_storage buf page_offset in
  let num_storage := page_num_storage buf page_offset in
  (0 < num_storage -> calloc_ok env (allocations w2) = true) ->
  exists m' w',
    scsi_mode_sense_element env (Some c) (Some m) w = Ok (0, Some m') w'
    /\ slot_count m' = (if 0 <? num_storage then num_storage else slot_count m)
    /\ (num_storage = 0 -> slots m' = slots m)
    /\ (0 < num_storage ->
        exists arr,
          slots m' = Some arr
          /\ Z.of_nat (length arr) = num_storage
          /\ (forall i, 0 <= i < num_storage ->
                arr !! Z.to_nat i = Some ((first_storage + i) mod 65536))
          /\ (first_storage + num_storage <= 65536 ->
              forall i, 0 <= i < num_storage ->
                arr !! Z.to_nat i = Some (first_storage + i))).
Proof.
  intros Hclear Hexec Hpage first_storage num_storage Hcalloc.
  assert (Hnum : 0 <= num_storage < 65536) by apply u16_range.
  assert (Hfirst : 0 <= first_storage < 65536) by apply u16_range.
  unfold scsi_mode_sense_element.
  unfold bind at 1. rewrite Hclear.
  unfold bind at 1. rewrite Hexec.
  cbn [fst snd Z.eqb negb from_option id]. rewrite Hpage.
  fold first_storage num_storage.
  destruct (Z.ltb_spec 0 num_storage) as [Hpos|Hzero].
  - unfold calloc. run_step. rewrite (Hcalloc Hpos). cbn [negb].
    eexists _, _. split; [reflexivity|].
    destruct (store_ie_keeps_slots (page_first_ie buf page_offset)
                (page_num_ie buf page_offset)
                (store_slots first_storage num_storage
                   (store_addresses buf page_offset m))) as [Hs Hc].
    destruct (store_slots_spec first_storage num_storage
                (store_addresses buf page_offset m) Hnum)
      as (Hcount & arr & Harr & Hlen & Hat).
    rewrite Hs, Hc. split; [exact Hcount|]. split; [lia|].
    intros _. exists arr. split; [exact Harr|]. split; [lia|].
    split; [exact Hat|].
    intros Hfit i Hi. rewrite (Hat i Hi). unfold u16.
    rewrite Z.mod_small by lia. reflexivity.
  - eexists _, _. split; [reflexivity|].
    destruct (store_ie_keeps_slots (page_first_ie buf page_offset)
                (page_num_ie buf page_offset)
                (store_addresses buf page_offset m)) as [Hs Hc].
    rewrite Hs, Hc. split; [reflexivity|]. split; [reflexivity | lia].
Qed.

Lemma mode_sense_builds_slots_witness :
  exists m' w',
    scsi_mode_sense_element (answering (element_page 0 0 0 5)) (Some kernel_conn)
                            (Some empty_map) fresh_world
    = Ok (0, Some m') w'
    /\ slot_count m' = 5
    /\ slots m' = Some [0; 1; 2; 3; 4]
    /\ transport m' = 0x00E0 /\ drive m' = 0x0100 /\ has_ie m' = false.
Proof.
  destruct (mode_sense_builds_slots (answering (element_page 0 0 0 5)) kernel_conn
              empty_map fresh_world
              (emit (EvExecuteTaskSync 1 test_unit_ready_cdb)
                    (count_command fresh_world))
              (emit (EvExecuteTaskSync 1 mode_sense_cdb)
                    (count_command
                       (emit (EvExecuteTaskSync 1 test_unit_ready_cdb)
                             (count_command fresh_world))))
              (element_page 0 0 0 5 ++ replicate 228 x00)%list 8
              eq_refl eq_refl eq_refl (fun _ => eq_refl))
    as (m' & w' & Hrun & _).
  exists m', w'. split; [exact Hrun|].
  vm_compute in Hrun. injection Hrun as <- _.
  repeat split; reflexivity.
Defined.

(** C5, counterexample.  A response the parser accepts announces two
    storage elements from address 0xFFFF: the second slot is 0, not
    0xFFFF + 1, and the two slots do not differ by one.  A response that
    announces no storage element leaves a stale [slot_count] in the map. *)
Lemma mode_sense_slot_wraps :
  locate_element_page (element_page 0xFF 0xFF 0 2) = Some 8
  /\ page_first_storage (element_page 0xFF 0xFF 0 2) 8 = 0xFFFF
  /\ page_num_storage (element_page 0xFF 0xFF 0 2) 8 = 2
  /\ (exists m' w',
        scsi_mode_sense_element (answering (element_page 0xFF 0xFF 0 2))
                                (Some kernel_conn) (Some empty_map) fresh_world
        = Ok (0, Some m') w'
        /\ slot_count m' = 2
        /\ slots m' = Some [0xFFFF; 0]
        /\ 0 <> 0xFFFF + 1
        /\ 0 - 0xFFFF <> 1)
  /\ page_num_storage (element_page 0 0 0 0) 8 = 0
  /\ (exists m' w',
        scsi_mode_sense_element (answering (element_page 0 0 0 0))
                                (Some kernel_conn)
                                (Some (mkElementMap 0 None 3 0 0 false)) fresh_world
        = Ok (0, Some m') w'
        /\ slot_count m' = 3).
Proof.
  split; [reflexivity|]. split; [reflexivity|]. split; [reflexivity|].
  split.
  { eexists _, _. split; [vm_compute; reflexivity|].
    repeat split; (reflexivity || discriminate). }
  split; [reflexivity|].
  eexists _, _. split; [vm_compute; reflexivity | reflexivity].
Qed.

(** ** Optical-media locator *)

Lemma bridging_try_class_trace reg c :
  queried (fst (BridgingMount.try_class reg c)) = [c]
  /\ copied (fst (BridgingMount.try_class reg c))
     = match snd (BridgingMount.try_class reg c) with
       | Some s => [s]
       | None => []
       end.
Proof.
  unfold BridgingMount.try_class.
  destruct (service_matching reg c); [|split; reflexivity].
  destruct (matching_services reg c) as [[|e l]|]; try (split; reflexivity).
  cbn [head]. destruct (bsd_name_property e) as [s|]; [|split; reflexivity].
  destruct (CFStringGetCString s 128); split; reflexivity.
Qed.

Lemma queried_app t1 t2 : queried (t1 ++ t2) = (queried t1 ++ queried t2)%list.
Proof.
  induction t1 as [|e t1 IH]; [reflexivity|].
  destruct e; cbn [queried app]; rewrite ?IH; reflexivity.
Qed.

Lemma copied_app t1 t2 : copied (t1 ++ t2) = (copied t1 ++ copied t2)%list.
Proof.
  induction t1 as [|e t1 IH]; [reflexivity|].
  destruct e; cbn [copied app]; rewrite ?IH; reflexivity.
Qed.

(** One block of the bridging locator yields the BSD name of the first
    instance the registry returns for the class, when the query succeeds
    and the name fits the 128-byte buffer. *)
Lemma bridging_try_class_name reg c :
  snd (BridgingMount.try_class reg c)
  = if service_matching reg c then
      match matching_services reg c with
      | Some (e :: _) =>
        match bsd_name_property e with
        | Some s => if CFStringGetCString s 128 then Some s else None
        | None => None
        end
      | _ => None
      end
    else None.
Proof.
  unfold BridgingMount.try_class.
  destruct (service_matching reg c); [|reflexivity].
  destruct (matching_services reg c) as [[|e l]|]; try reflexivity.
  cbn [head]. destruct (bsd_name_property e) as [s|]; [|reflexivity].
  destruct (CFStringGetCString s 128); reflexivity.
Qed.

(** C4 (as the code has it).  [first c] is the first instance the
    registry returns for class [c], and [bsd size e] the BSD name of an
    instance when it fits a buffer of [size] bytes.  The bridging locator
    asks the registry for the DVD, CD and Blu-ray classes in that order,
    stops at the first class whose first instance gives a BSD name, and
    returns that name, copied once with [strdup], or [None] when no class
    gives one.  The library locator asks for the DVD class and, without a
    DVD instance, for the CD class; it never asks for the Blu-ray class,
    and returns the copied BSD name of the instance it found, or [None]. *)
Theorem locator_class_order (reg : Registry) :
  let b := BridgingMount.mount_find_dvd_bsd_name reg in
  let l := CChangerLibMount.mount_find_dvd_bsd_name reg in
  let first c := if service_matching reg c then
                   match matching_services reg c with
                   | Some (e :: _) => Some e
                   | _ => None
                   end
                 else None in
  let bsd size e := match bsd_name_property e with
                    | Some s => if CFStringGetCString s size then Some s else None
                    | None => None
                    end in
  let name c := match first c with
                | Some e => bsd 128 e
                | None => None
                end in
  snd b = match name kIODVDMediaClass, name kIOCDMediaClass with
          | Some s, _ => Some s
          | None, Some s => Some s
          | None, None => name kIOBDMediaClass
          end
  /\ queried (fst b)
     = match name kIODVDMediaClass, name kIOCDMediaClass with
       | Some _, _ => [kIODVDMediaClass]
       | None, Some _ => [kIODVDMediaClass; kIOCDMediaClass]
       | None, None => [kIODVDMediaClass; kIOCDMediaClass; kIOBDMediaClass]
       end
  /\ copied (fst b) = match snd b with Some s => [s] | None => [] end
  /\ snd l = match (match first kIODVDMediaClass with
                    | Some e => Some e
                    | None => first kIOCDMediaClass
                    end) with
             | Some e => bsd 64 e
             | None => None
             end
  /\ queried (fst l)
     = ((if service_matching reg kIODVDMediaClass then [kIODVDMediaClass] else [])
        ++ match first kIODVDMediaClass with
           | Some _ => []
           | None => if service_matching reg kIOCDMediaClass
                     then [kIOCDMediaClass] else []
           end)%list
  /\ copied (fst l) = match snd l with Some s => [s] | None => [] end.
Proof.
  intros b l first bsd name.
  assert (N : forall c, snd (BridgingMount.try_class reg c) = name c).
  { intros c. rewrite bridging_try_class_name. subst name first bsd. cbv beta.
    destruct (service_matching reg c); [|reflexivity].
    destruct (matching_services reg c) as [[|e t]|]; reflexivity. }
  rewrite <- !N. subst b l.
  split; [|split; [|split]].
  - unfold BridgingMount.mount_find_dvd_bsd_name.
    destruct (BridgingMount.try_class reg kIODVDMediaClass) as [t1 [s1|]];
      [reflexivity|].
    destruct (BridgingMount.try_class reg kIOCDMediaClass) as [t2 [s2|]];
      [reflexivity|].
    destruct (BridgingMount.try_class reg kIOBDMediaClass) as [t3 r3]; reflexivity.
  - unfold BridgingMount.mount_find_dvd_bsd_name.
    pose proof (bridging_try_class_trace reg kIODVDMediaClass) as [Q1 _].
    pose proof (bridging_try_class_trace reg kIOCDMediaClass) as [Q2 _].
    pose proof (bridging_try_class_trace reg kIOBDMediaClass) as [Q3 _].
    destruct (BridgingMount.try_class reg kIODVDMediaClass) as [t1 [s1|]];
      cbn [fst snd] in *; [exact Q1|].
    destruct (BridgingMount.try_class reg kIOCDMediaClass) as [t2 [s2|]];
      cbn [fst snd] in *; [rewrite queried_app, Q1, Q2; reflexivity|].
    destruct (BridgingMount.try_class reg kIOBDMediaClass) as [t3 r3];
      cbn [fst snd] in *.
    rewrite !queried_app, Q1, Q2, Q3. reflexivity.
  - unfold BridgingMount.mount_find_dvd_bsd_name.
    pose proof (bridging_try_class_trace reg kIODVDMediaClass) as [_ C1].
    pose proof (bridging_try_class_trace reg kIOCDMediaClass) as [_ C2].
    pose proof (bridging_try_class_trace reg kIOBDMediaClass) as [_ C3].
    destruct (BridgingMount.try_class reg kIODVDMediaClass) as [t1 [s1|]];
      cbn [fst snd] in *; [exact C1|].
    destruct (BridgingMount.try_class reg kIOCDMediaClass) as [t2 [s2|]];
      cbn [fst snd] in *; [rewrite copied_app, C1, C2; reflexivity|].
    destruct (BridgingMount.try_class reg kIOBDMediaClass) as [t3 r3];
      cbn [fst snd] in *.
    rewrite !copied_app, C1, C2, C3. reflexivity.
  - subst first bsd. cbv beta.
    unfold CChangerLibMount.mount_find_dvd_bsd_name, CChangerLibMount.first_instance.
    destruct (service_matching reg kIODVDMediaClass),
             (service_matching reg kIOCDMediaClass);
      destruct (matching_services reg kIODVDMediaClass) as [[|e1 l1]|];
      destruct (matching_services reg kIOCDMediaClass) as [[|e2 l2]|];
      cbn [head fst snd app];
      repeat match goal with
             | |- context [bsd_name_property ?e] =>
               destruct (bsd_name_property e) as [?s|]
             | |- context [CFStringGetCString ?s 64] =>
               destruct (CFStringGetCString s 64)
             end;
      cbn [fst snd app queried copied]; repeat split; reflexivity.
Qed.

(** C4, counterexample: with a Blu-ray disc as the only medium, a class
    matches and the bridging locator finds [disk3], but the library
    locator asks for two classes only and returns [None]. *)
Lemma library_locator_skips_bluray :
  matching_services bluray_only kIOBDMediaClass
  = Some [mkRegistryEntry (Some "disk3")]
  /\ BridgingMount.mount_find_dvd_bsd_name bluray_only
     = ([EvGetMatchingServices kIODVDMediaClass;
         EvGetMatchingServices kIOCDMediaClass;
         EvGetMatchingServices kIOBDMediaClass;
         EvStrdup "disk3"], Some "disk3")
  /\ CChangerLibMount.mount_find_dvd_bsd_name bluray_only
     = ([EvGetMatchingServices kIODVDMediaClass;
         EvGetMatchingServices kIOCDMediaClass], None)
  /\ queried (fst (CChangerLibMount.mount_find_dvd_bsd_name bluray_only))
     <> [kIODVDMediaClass; kIOCDMediaClass; kIOBDMediaClass]
  /\ snd (CChangerLibMount.mount_find_dvd_bsd_name bluray_only) <> Some "disk3".
Proof.
  repeat split; try reflexivity; discriminate.
Qed.

(** ** Eject *)

(** C8: [mount_eject_disc] does the same with [force] set and with
    [force] clear, in the library and in the bridging copy: the same
    requests reach disk arbitration, the same value is returned, and the
    only request issued is an eject with the default option. *)
Theorem eject_ignores_force (da : DiskArbitration)
    (bsd_name : option string) (name : string) :
  CChangerLibMount.mount_eject_disc da bsd_name true
  = CChangerLibMount.mount_eject_disc da bsd_name false
  /\ BridgingMount.mount_eject_disc da name true
     = BridgingMount.mount_eject_disc da name false
  /\ (forall force,
        fst (CChangerLibMount.mount_eject_disc da bsd_name force) = []
        \/ exists n, fst (CChangerLibMount.mount_eject_disc da bsd_name force)
                     = [EvDADiskEject n kDADiskEjectOptionDefault])
  /\ (forall force,
        fst (BridgingMount.mount_eject_disc da name force) = []
        \/ fst (BridgingMount.mount_eject_disc da name force)
           = [EvDADiskEject (snprintf_dev 256 name) kDADiskEjectOptionDefault]).
Proof.
  split; [reflexivity|]. split; [reflexivity|]. split.
  - intros force. unfold CChangerLibMount.mount_eject_disc.
    destruct bsd_name as [bsd|]; [|left; reflexivity].
    destruct (session_create da); [|left; reflexivity].
    destruct (disk_from_bsd_name da _); [|left; reflexivity].
    cbn [negb]. right. eexists.
    destruct (CChangerLibMount.da_runloop_wait _ _); [|reflexivity].
    destruct (dissenter _); reflexivity.
  - intros force. unfold BridgingMount.mount_eject_disc.
    destruct (session_create da); [|left; reflexivity].
    destruct (disk_from_bsd_name da _); [|left; reflexivity].
    right. destruct force; reflexivity.
Qed.

Example eject_disk3 :
  CChangerLibMount.mount_eject_disc (ejecting "disk3") (Some "/dev/disk3") false
  = ([EvDADiskEject "disk3" kDADiskEjectOptionDefault], 0)
  /\ CChangerLibMount.mount_eject_disc (ejecting "disk3") (Some "disk3") true
     = ([EvDADiskEject "disk3" kDADiskEjectOptionDefault], 0)
  /\ BridgingMount.mount_eject_disc (ejecting "/dev/disk3") "disk3" true
     = ([EvDADiskEject "/dev/disk3" kDADiskEjectOptionDefault], 0).
Proof. repeat split; reflexivity. Qed.

(** * Further properties *)

(** ** Big-endian fields of a CDB *)

Lemma land_255_range (x : Z) : 0 <= Z.land x 0xFF < 256.
Proof.
  change 0xFF with (Z.ones 8). rewrite Z.land_ones by lia.
  apply Z.mod_pos_bound. lia.
Qed.

Lemma byte_lane_bit (k x n : Z) :
  0 <= k -> 0 <= n ->
  Z.testbit (Z.shiftl (Z.land (Z.shiftr x k) (Z.ones 8)) k) n
  = (k <=? n) && (n <? k + 8) && Z.testbit x n.
Proof.
  intros Hk Hn. rewrite Z.shiftl_spec by lia.
  destruct (Z.leb_spec k n) as [Hge|Hlt].
  - rewrite Z.land_spec, Z.shiftr_spec by lia.
    replace (n - k + k) with n by lia.
    destruct (Z.ltb_spec n (k + 8)) as [Hin|Hout].
    + rewrite Z.ones_spec_low by lia. cbn. apply Bool.andb_true_r.
    + rewrite Z.ones_spec_high by lia. cbn. apply Bool.andb_false_r.
  - rewrite Z.testbit_neg_r by lia. reflexivity.
Qed.

Lemma low_byte_bit (x n : Z) :
  0 <= n -> Z.testbit (Z.land x (Z.ones 8)) n = (n <? 8) && Z.testbit x n.
Proof.
  intros Hn. rewrite Z.land_spec.
  destruct (Z.ltb_spec n 8).
  - rewrite Z.ones_spec_low by lia. cbn. apply Bool.andb_true_r.
  - rewrite Z.ones_spec_high by lia. cbn. apply Bool.andb_false_r.
Qed.

Lemma join16 (x : Z) :
  Z.lor (Z.shiftl (Z.land (Z.shiftr x 8) 0xFF) 8) (Z.land x 0xFF) = x mod 65536.
Proof.
  change 65536 with (2 ^ 16). change 0xFF with (Z.ones 8).
  apply Z.bits_inj'. intros n Hn.
  rewrite Z.lor_spec, byte_lane_bit, low_byte_bit by lia.
  destruct (Z.lt_ge_cases n 16).
  - rewrite Z.mod_pow2_bits_low by lia.
    destruct (Z.leb_spec 8 n), (Z.ltb_spec n (8 + 8)), (Z.ltb_spec n 8);
      cbn; try lia; rewrite ?Bool.orb_false_r; reflexivity.
  - rewrite Z.mod_pow2_bits_high by lia.
    destruct (Z.leb_spec 8 n), (Z.ltb_spec n (8 + 8)), (Z.ltb_spec n 8);
      cbn; try lia; reflexivity.
Qed.

Lemma join24 (x : Z) :
  Z.lor (Z.lor (Z.shiftl (Z.land (Z.shiftr x 16) 0xFF) 16)
               (Z.shiftl (Z.land (Z.shiftr x 8) 0xFF) 8))
        (Z.land x 0xFF) = x mod 16777216.
Proof.
  change 16777216 with (2 ^ 24). change 0xFF with (Z.ones 8).
  apply Z.bits_inj'. intros n Hn.
  rewrite !Z.lor_spec, !byte_lane_bit, low_byte_bit by lia.
  destruct (Z.lt_ge_cases n 24).
  - rewrite Z.mod_pow2_bits_low by lia.
    destruct (Z.leb_spec 16 n), (Z.ltb_spec n (16 + 8)), (Z.leb_spec 8 n),
             (Z.ltb_spec n (8 + 8)), (Z.ltb_spec n 8);
      cbn; try lia; rewrite ?Bool.orb_false_r; reflexivity.
  - rewrite Z.mod_pow2_bits_high by lia.
    destruct (Z.leb_spec 16 n), (Z.ltb_spec n (16 + 8)), (Z.leb_spec 8 n),
             (Z.ltb_spec n (8 + 8)), (Z.ltb_spec n 8);
      cbn; try lia; reflexivity.
Qed.

Lemma u8_to_byte_mod (x : Z) : u8 (to_byte x) = x mod 256.
Proof.
  unfold u8, to_byte. pose proof (Z.mod_pos_bound x 256 ltac:(lia)) as Hr.
  destruct (Byte.of_N (Z.to_N (x mod 256))) as [b|] eqn:E.
  - apply Byte.to_of_N in E. rewrite E. lia.
  - apply Byte.of_N_None_iff in E. lia.
Qed.

(** Reading back the [i]-th byte of a list of integers stored as bytes. *)
Lemma byte_at_bytes_of (l : list Z) (i : nat) :
  (i < length l)%nat -> byte_at (bytes_of l) (Z.of_nat i) = nth i l 0 mod 256.
Proof.
  intros Hi. unfold byte_at, bytes_of.
  destruct (Z.ltb_spec (Z.of_nat i) 0); [lia|].
  rewrite Nat2Z.id.
  rewrite (nth_indep _ x00 (to_byte 0)) by (rewrite length_map; exact Hi).
  rewrite (map_nth to_byte l 0 i). apply u8_to_byte_mod.
Qed.

Lemma land_255_mod (x : Z) : Z.land x 0xFF mod 256 = Z.land x 0xFF.
Proof. apply Z.mod_small, land_255_range. Qed.

Ltac read_cdb_bytes :=
  repeat match goal with
         | |- context [byte_at (bytes_of ?l) ?i] =>
           let n := eval cbv in (Z.to_nat i) in
           change (byte_at (bytes_of l) i) with (byte_at (bytes_of l) (Z.of_nat n));
           rewrite (byte_at_bytes_of l n) by (cbn [length]; lia);
           cbn [nth]
         end.

(** X1: the MOVE MEDIUM CDB is 12 bytes, opcode 0xA5, and carries the
    transport, source and destination addresses big-endian at bytes 2, 4
    and 6: decoding those fields gives back the three arguments (as 16-bit
    values); every other byte is zero. *)
Theorem move_medium_cdb_round_trip (transport_addr source_addr dest_addr : Z) :
  let cdb := move_medium_cdb transport_addr source_addr dest_addr in
  length cdb = 12%nat
  /\ byte_at cdb 0 = 0xA5
  /\ be16 cdb 2 = u16 transport_addr
  /\ be16 cdb 4 = u16 source_addr
  /\ be16 cdb 6 = u16 dest_addr
  /\ byte_at cdb 1 = 0
  /\ be16 cdb 8 = 0 /\ be16 cdb 10 = 0.
Proof.
  cbv zeta. unfold move_medium_cdb, be16, u16.
  split; [reflexivity|].
  cbn [Z.add Pos.add Pos.succ].
  read_cdb_bytes.
  rewrite !land_255_mod, !join16.
  repeat split; reflexivity.
Qed.

(** X2: the READ ELEMENT STATUS CDB carries the element type in the low
    nibble of byte 1, the start address and the count big-endian at bytes
    2 and 4, and at bytes 6-8 exactly the size of the buffer the function
    hands to the transport, which is never below 4096 nor above 65535. *)
Theorem read_element_status_cdb_round_trip (element_type start count : Z) :
  let alloc := read_element_status_alloc count in
  let cdb := read_element_status_cdb element_type start count alloc in
  length cdb = 12%nat
  /\ byte_at cdb 0 = 0xB8
  /\ byte_at cdb 1 = Z.land element_type 0x0F
  /\ be16 cdb 2 = u16 start
  /\ be16 cdb 4 = u16 count
  /\ be24 cdb 6 = alloc
  /\ 4096 <= alloc <= 65535.
Proof.
  cbv zeta. pose proof (read_element_status_alloc_range count) as Halloc.
  set (alloc := read_element_status_alloc count) in *.
  unfold read_element_status_cdb, be16, be24, u16.
  split; [reflexivity|].
  cbn [Z.add Pos.add Pos.succ].
  read_cdb_bytes.
  rewrite !land_255_mod, !join16, join24.
  assert (Hnib : Z.land element_type 0x0F mod 256 = Z.land element_type 0x0F).
  { apply Z.mod_small. change 0x0F with (Z.ones 4). rewrite Z.land_ones by lia.
    pose proof (Z.mod_pos_bound element_type (2 ^ 4) ltac:(lia)). lia. }
  rewrite Hnib, (Z.mod_small alloc) by lia.
  repeat split; try reflexivity; lia.
Qed.

(** ** INQUIRY *)

Lemma drop_trailing_spaces_snoc (l : list byte) (x : byte) :
  drop_trailing_spaces (l ++ [x])
  = if u8 x =? 32 then drop_trailing_spaces l else (l ++ [x])%list.
Proof.
  induction l as [|a l IH]; cbn [drop_trailing_spaces app].
  - destruct (u8 x =? 32); reflexivity.
  - rewrite IH. destruct (u8 x =? 32); [reflexivity|].
    destruct (l ++ [x])%list eqn:E; [|reflexivity].
    destruct l; discriminate.
Qed.

Lemma drop_trailing_spaces_length (l : list byte) :
  (length (drop_trailing_spaces l) <= length l)%nat.
Proof.
  induction l as [|a l IH]; cbn [drop_trailing_spaces length]; [lia|].
  destruct (drop_trailing_spaces l); [destruct (u8 a =? 32)|]; cbn [length] in *; lia.
Qed.

(** What is left does not end in a space. *)
Lemma drop_trailing_spaces_last (l : list byte) (b : byte) :
  last (drop_trailing_spaces l) = Some b -> u8 b <> 32.
Proof.
  induction l as [|x l IH] using rev_ind; [discriminate|].
  rewrite drop_trailing_spaces_snoc.
  destruct (Z.eqb_spec (u8 x) 32) as [Hsp|Hns]; [exact IH|].
  rewrite last_snoc. intros [= <-]. exact Hns.
Qed.

(** What is dropped is spaces only. *)
Lemma drop_trailing_spaces_prefix (l : list byte) :
  exists k, l = (drop_trailing_spaces l ++ replicate k " "%byte)%list.
Proof.
  induction l as [|x l IH] using rev_ind; [exists O; reflexivity|].
  rewrite drop_trailing_spaces_snoc.
  destruct (Z.eqb_spec (u8 x) 32) as [Hsp|Hns].
  - destruct IH as [k Hk]. exists (S k).
    assert (x = " "%byte) as ->.
    { rewrite <- (to_byte_u8 x), Hsp. reflexivity. }
    rewrite Hk at 1. rewrite <- app_assoc. f_equal.
    change [" "%byte] with (replicate 1 " "%byte).
    rewrite <- replicate_add. f_equal. lia.
  - exists O. cbn [replicate]. rewrite app_nil_r. reflexivity.
Qed.

(** The loop, started on the last byte of [body], turns the trailing
    spaces of [body] into NULs and leaves the rest of the array alone. *)
Lemma trim_spaces_spec (fuel : nat) :
  forall body rest,
    (length body <= fuel)%nat ->
    trim_spaces fuel (Z.of_nat (length body) - 1) (body ++ rest)
    = (drop_trailing_spaces body
       ++ replicate (length body - length (drop_trailing_spaces body)) x00
       ++ rest)%list.
Proof.
  induction fuel as [|fuel IH]; intros body rest Hfuel.
  - destruct body; [reflexivity | cbn [length] in Hfuel; lia].
  - destruct body as [|x body _] using rev_ind.
    + reflexivity.
    + rewrite length_app in *. cbn [length] in *.
      cbn [trim_spaces].
      replace (Z.of_nat (length body + 1) - 1) with (Z.of_nat (length body)) by lia.
      destruct (Z.leb_spec 0 (Z.of_nat (length body))); [|lia].
      rewrite Nat2Z.id, <- app_assoc. cbn [app].
      rewrite nth_middle. cbn [andb].
      rewrite drop_trailing_spaces_snoc.
      destruct (Z.eqb_spec (u8 x) 32) as [Hsp|Hns].
      * rewrite insert_app_r_alt by lia. rewrite Nat.sub_diag. cbn [insert list_insert].
        rewrite (IH body (x00 :: rest)) by lia.
        pose proof (drop_trailing_spaces_length body) as Hl.
        f_equal.
        replace (length body + 1 - length (drop_trailing_spaces body))%nat
          with (S (length body - length (drop_trailing_spaces body))) by lia.
        rewrite replicate_S_end, <- app_assoc. reflexivity.
      * rewrite length_app. cbn [length].
        replace (length body + 1 - (length body + 1))%nat with O by lia.
        rewrite <- app_assoc. reflexivity.
Qed.

Lemma raw_field_length buf start n : length (raw_field buf start n) = n.
Proof. unfold raw_field. rewrite length_map. apply length_seq. Qed.

Lemma trim_copy_field (buf : list byte) (start n : nat) :
  trim_spaces (S n) (Z.of_nat n - 1) (copy_field buf start n)
  = trimmed_field (raw_field buf start n).
Proof.
  unfold copy_field, trimmed_field.
  pose proof (trim_spaces_spec (S n) (raw_field buf start n) [x00]) as H.
  rewrite raw_field_length in H. rewrite raw_field_length. apply H. lia.
Qed.

Lemma c_string_app_nul (l rest : list byte) :
  Forall (fun b => u8 b <> 0) l -> c_string (l ++ x00 :: rest) = l.
Proof.
  induction 1 as [|b l Hb Hl IH]; [reflexivity|].
  cbn [app c_string]. destruct (Z.eqb_spec (u8 b) 0); [contradiction|].
  rewrite IH. reflexivity.
Qed.

Lemma c_string_trimmed_field (raw : list byte) :
  Forall (fun b => u8 b <> 0) raw ->
  c_string (trimmed_field raw) = drop_trailing_spaces raw.
Proof.
  intros Hraw. unfold trimmed_field.
  destruct (drop_trailing_spaces_prefix raw) as [k Hk].
  assert (Hd : Forall (fun b => u8 b <> 0) (drop_trailing_spaces raw)).
  { rewrite Hk in Hraw. apply Forall_app in Hraw. apply Hraw. }
  destruct (length raw - length (drop_trailing_spaces raw))%nat as [|m].
  - cbn [replicate app]. apply c_string_app_nul. exact Hd.
  - cbn [replicate app]. apply c_string_app_nul. exact Hd.
Qed.

(** X3: on success [scsi_inquiry] fills the caller's structure with the
    device type (low five bits of byte 0) and, for vendor, product and
    revision, the 8, 16 and 4 response bytes at offsets 8, 16 and 32 with
    every trailing space replaced by a NUL, followed by the terminator. *)
Theorem inquiry_fills_trimmed_fields env conn (info : DeviceInfo)
    (w w' : World) (buf : list byte) :
  changer_execute_cdb env conn inquiry_cdb 6 (Some (replicate 96 x00)) 96
                      DIR_READ 10000 w
  = Ok (0, Some buf) w' ->
  exists info',
    scsi_inquiry env conn (Some info) w = Ok (0, Some info') w'
    /\ device_type info' = Z.land (byte_at buf 0) 0x1F
    /\ 0 <= device_type info' < 32
    /\ vendor info' = trimmed_field (raw_field buf 8 8)
    /\ product info' = trimmed_field (raw_field buf 16 16)
    /\ revision info' = trimmed_field (raw_field buf 32 4).
Proof.
  intros Hexec. unfold scsi_inquiry. unfold bind. rewrite Hexec.
  cbn [fst snd Z.eqb from_option id]. unfold ret.
  eexists. split; [reflexivity|].
  unfold decode_inquiry. cbn [device_type vendor product revision].
  split; [reflexivity|]. split.
  { change 0x1F with (Z.ones 5). rewrite Z.land_ones by lia.
    pose proof (Z.mod_pos_bound (byte_at buf 0) (2 ^ 5) ltac:(lia)). lia. }
  split; [exact (trim_copy_field buf 8 8)|].
  split; [exact (trim_copy_field buf 16 16) | exact (trim_copy_field buf 32 4)].
Qed.

Lemma inquiry_fills_trimmed_fields_witness :
  exists info' w',
    scsi_inquiry (answering acme_inquiry) (Some kernel_conn)
                 (Some (mkDeviceInfo [] [] [] 0)) fresh_world
    = Ok (0, Some info') w'
    /\ device_type info' = 8
    /\ c_string (vendor info') = bytes_of [65; 67; 77; 69]
    /\ c_string (revision info') = bytes_of [49; 46; 48].
Proof.
  destruct (inquiry_fills_trimmed_fields (answering acme_inquiry) (Some kernel_conn)
              (mkDeviceInfo [] [] [] 0) fresh_world
              (emit (EvExecuteTaskSync 1 inquiry_cdb) (count_command fresh_world))
              (acme_inquiry ++ replicate 60 x00)%list eq_refl)
    as (info' & Hrun & Hty & _ & Hv & _ & Hr).
  exists info', (emit (EvExecuteTaskSync 1 inquiry_cdb) (count_command fresh_world)).
  split; [exact Hrun|]. split; [rewrite Hty; reflexivity|].
  split; [rewrite Hv | rewrite Hr]; reflexivity.
Defined.

(** X4: as long as a field of the response holds no NUL byte, the C
    string [scsi_inquiry] leaves in the structure is that field without
    its trailing spaces: it never ends in a space, and nothing but spaces
    was cut off. *)
Theorem inquiry_strings_without_trailing_space (buf : list byte) :
  let info := decode_inquiry buf in
  (no_nul (raw_field buf 8 8) ->
   trimmed_of (c_string (vendor info)) (raw_field buf 8 8))
  /\ (no_nul (raw_field buf 16 16) ->
      trimmed_of (c_string (product info)) (raw_field buf 16 16))
  /\ (no_nul (raw_field buf 32 4) ->
      trimmed_of (c_string (revision info)) (raw_field buf 32 4)).
Proof.
  assert (H : forall start n,
             no_nul (raw_field buf start n) ->
             trimmed_of (c_string (trim_spaces (S n) (Z.of_nat n - 1)
                                               (copy_field buf start n)))
                        (raw_field buf start n)).
  { intros start n Hraw. rewrite trim_copy_field.
    rewrite (c_string_trimmed_field _ Hraw). split.
    - intros b. apply drop_trailing_spaces_last.
    - apply drop_trailing_spaces_prefix. }
  cbv zeta. unfold decode_inquiry. cbn [vendor product revision].
  split; [exact (H 8 8)%nat|]. split; [exact (H 16 16)%nat | exact (H 32 4)%nat].
Qed.

Lemma inquiry_strings_without_trailing_space_witness :
  trimmed_of (c_string (vendor (decode_inquiry acme_inquiry)))
             (raw_field acme_inquiry 8 8)
  /\ trimmed_of (c_string (product (decode_inquiry acme_inquiry)))
                (raw_field acme_inquiry 16 16)
  /\ trimmed_of (c_string (revision (decode_inquiry acme_inquiry)))
                (raw_field acme_inquiry 32 4)
  /\ c_string (product (decode_inquiry acme_inquiry))
     = bytes_of [74; 85; 75; 69; 66; 79; 88; 32; 50; 48; 48].
Proof.
  destruct (inquiry_strings_without_trailing_space acme_inquiry) as (Hv & Hp & Hr).
  split; [apply Hv; repeat constructor; discriminate|].
  split; [apply Hp; repeat constructor; discriminate|].
  split; [apply Hr; repeat constructor; discriminate | reflexivity].
Defined.

(** ** What a command does to the world *)

Lemma frees_app t1 t2 : frees (t1 ++ t2) = (frees t1 + frees t2)%nat.
Proof.
  induction t1 as [|e t1 IH]; [reflexivity|].
  destruct e; cbn [frees app]; rewrite IH; reflexivity.
Qed.

Lemma callocs_app t1 t2 : callocs (t1 ++ t2) = (callocs t1 + callocs t2)%nat.
Proof.
  induction t1 as [|e t1 IH]; [reflexivity|].
  destruct e; cbn [callocs app]; rewrite IH; reflexivity.
Qed.

Lemma sleeps_app t1 t2 : sleeps (t1 ++ t2) = (sleeps t1 + sleeps t2)%nat.
Proof.
  induction t1 as [|e t1 IH]; [reflexivity|].
  destruct e; cbn [sleeps app]; rewrite IH; reflexivity.
Qed.

(** A command leaves the allocator alone, adds no [calloc], [free] or
    sleep to the trace, consumes at most one reply of the device, and
    touches the sense slot only when it fails on the kernel backend. *)
Lemma changer_execute_cdb_effect env conn cdb cdb_len buffer buffer_len
      direction timeout_ms w rc buffer' w' :
  changer_execute_cdb env conn cdb cdb_len buffer buffer_len direction timeout_ms w
  = Ok (rc, buffer') w' ->
  allocations w' = allocations w
  /\ frees (trace w') = frees (trace w)
  /\ callocs (trace w') = callocs (trace w)
  /\ sleeps (trace w') = sleeps (trace w)
  /\ (commands w <= commands w' <= S (commands w))%nat
  /\ (rc = 0 \/ rc = -1)
  /\ (rc = 0 -> g_last_sense w' = g_last_sense w)
  /\ (forall c, conn = Some c -> backend c <> BACKEND_SCSITASK ->
                g_last_sense w' = g_last_sense w)
  /\ (forall c, conn = Some c -> connected c = false -> w' = w).
Proof.
  intros Hexec.
  assert (Hsame : forall (r : Z), (r = 0 \/ r = -1) ->
            Ok (r, buffer) w = Ok (rc, buffer') w' ->
            allocations w' = allocations w
            /\ frees (trace w') = frees (trace w)
            /\ callocs (trace w') = callocs (trace w)
            /\ sleeps (trace w') = sleeps (trace w)
            /\ (commands w <= commands w' <= S (commands w))%nat
            /\ (rc = 0 \/ rc = -1)
            /\ (rc = 0 -> g_last_sense w' = g_last_sense w)
            /\ (forall c, conn = Some c -> backend c <> BACKEND_SCSITASK ->
                          g_last_sense w' = g_last_sense w)
            /\ (forall c, conn = Some c -> connected c = false -> w' = w)).
  { intros r Hr [= <- <- <-]. repeat split; auto; lia. }
  destruct conn as [c|]; [|apply (Hsame (-1)); [lia | exact Hexec]].
  unfold changer_execute_cdb in Hexec.
  destruct (connected c) eqn:Hconn; cbn [negb] in Hexec;
    [|apply (Hsame (-1)); [lia | exact Hexec]].
  destruct (backend c) eqn:Hback; [apply (Hsame (-1)); [lia | exact Hexec]| |].
  - destruct (scsi_device c) as [dev|]; [|discriminate].
    unfold execute_cdb_scsitask in Hexec. revert Hexec. run.
    destruct (task_created _); cbn [negb].
    + destruct (kr_success _); cbn [negb].
      * destruct (status_good _); cbn [negb]; intros [= <- <- <-];
          cbn [allocations trace commands g_last_sense emit count_command
               scsi_set_sense set_last_sense];
          rewrite ?frees_app, ?callocs_app, ?sleeps_app; cbn [frees callocs sleeps];
          repeat split; try lia; try congruence; auto.
      * destruct (negb _ || negb _ || negb _); cbn [negb]; intros [= <- <- <-];
          cbn [allocations trace commands g_last_sense emit count_command
               scsi_set_sense set_last_sense];
          rewrite ?frees_app, ?callocs_app, ?sleeps_app; cbn [frees callocs sleeps];
          repeat split; try lia; try congruence; auto.
    + intros [= <- <- <-]. cbn [allocations trace commands g_last_sense count_command].
      repeat split; try lia; try congruence; auto.
  - destruct (login c) as [lg|]; [|discriminate].
    unfold execute_cdb_sbp2 in Hexec. revert Hexec. run.
    destruct (orb_created _); cbn [negb];
      [destruct (orb_submitted _); cbn [negb];
       [destruct (notified _); cbn [negb];
        [destruct (normal_status _); cbn [negb]|]|]|];
      intros [= <- <- <-];
      cbn [allocations trace commands g_last_sense emit count_command];
      rewrite ?frees_app, ?callocs_app, ?sleeps_app; cbn [frees callocs sleeps];
      repeat split; try lia; try congruence; auto.
Qed.

(** X5: a command that succeeds never touches the last-sense slot, and a
    command on a connection of the SBP-2 backend never does, whatever its
    outcome: the slot changes only when a command fails on the kernel
    SCSI-task backend, and a sense stored by an earlier failure stays
    valid afterwards. *)
Theorem sense_kept_unless_kernel_failure env conn cdb cdb_len buffer buffer_len
    direction timeout_ms (w : World) :
  usable conn = true ->
  exists rc buffer' w',
    changer_execute_cdb env conn cdb cdb_len buffer buffer_len direction timeout_ms w
    = Ok (rc, buffer') w'
    /\ (rc = 0 -> scsi_get_last_sense w' = scsi_get_last_sense w)
    /\ (forall c, conn = Some c -> backend c = BACKEND_SBP2 ->
                  scsi_get_last_sense w' = scsi_get_last_sense w)
    /\ (scsi_get_last_sense w' <> scsi_get_last_sense w ->
        rc = -1 /\ exists c, conn = Some c /\ backend c = BACKEND_SCSITASK).
Proof.
  intros Hu.
  destruct (changer_execute_cdb_returns env conn cdb cdb_len buffer buffer_len
              direction timeout_ms w Hu) as (rc & b & w' & Hexec & Hrc).
  exists rc, b, w'. split; [exact Hexec|].
  destruct (changer_execute_cdb_effect _ _ _ _ _ _ _ _ _ _ _ _ Hexec)
    as (_ & _ & _ & _ & _ & _ & Hok & Hother & Hdisc).
  unfold scsi_get_last_sense.
  split; [exact Hok|]. split.
  - intros c Hc Hb. apply (Hother c Hc). rewrite Hb. discriminate.
  - intros Hch. split.
    + destruct Hrc as [-> | ->]; [exfalso; apply Hch, Hok; reflexivity | reflexivity].
    + destruct conn as [c|].
      * exists c. split; [reflexivity|].
        destruct (backend c) eqn:Hb; try reflexivity;
          exfalso; apply Hch, (Hother c eq_refl); rewrite Hb; discriminate.
      * exfalso. apply Hch. cbn in Hexec. injection Hexec as _ _ <-. reflexivity.
Qed.

Lemma sense_kept_unless_kernel_failure_witness :
  let stale := set_last_sense (mkSenseData x05 x3b x0e true) fresh_world in
  exists rc buffer' w',
    changer_execute_cdb (answering []) (Some kernel_conn) test_unit_ready_cdb 6
                        None 0 DIR_NONE 10000 stale
    = Ok (rc, buffer') w'
    /\ rc = 0
    /\ scsi_get_last_sense w' = mkSenseData x05 x3b x0e true.
Proof.
  intros stale.
  destruct (sense_kept_unless_kernel_failure (answering []) (Some kernel_conn)
              test_unit_ready_cdb 6 None 0 DIR_NONE 10000 stale eq_refl)
    as (rc & b & w' & Hexec & Hok & _).
  exists rc, b, w'. split; [exact Hexec|].
  assert (Hrc : rc = 0) by (vm_compute in Hexec; congruence).
  split; [exact Hrc | exact (Hok Hrc)].
Defined.

(** ** READ ELEMENT STATUS: buffer, bounds and paths *)

(** Every populated entry has cost the cursor at least two bytes. *)
Lemma walk_descriptors_consumes buf type desc_len page_end max_statuses :
  0 <= desc_len < 65536 -> 0 <= page_end <= 65535 ->
  forall fuel c c',
    0 <= offset c <= 65535 ->
    2 * status_idx c + 8 <= offset c ->
    walk_descriptors fuel buf type desc_len page_end max_statuses c = Some c' ->
    2 * status_idx c' + 8 <= offset c'
    /\ offset c <= offset c' <= Z.max (offset c) page_end.
Proof.
  intros Hdl Hpe. induction fuel as [|fuel IH]; intros c c' Hoff Hinv Hrun;
    [discriminate|].
  rewrite walk_descriptors_unfold in Hrun.
  rewrite (u32_small (offset c + desc_len)) in Hrun by lia.
  destruct (Z.leb_spec (offset c + desc_len) page_end) as [Hin|Hout];
    destruct (Z.ltb_spec (status_idx c) max_statuses) as [Hroom|Hfull];
    cbn [andb] in Hrun; try (injection Hrun as <-; lia).
  destruct (Z.ltb_spec desc_len 2) as [Hshort|Hlong].
  - injection Hrun as <-. cbn [offset status_idx set_offset]. lia.
  - assert (Hstep : offset (read_descriptor buf type desc_len c) = offset c
                    /\ status_idx (read_descriptor buf type desc_len c)
                       <= status_idx c + 1).
    { unfold read_descriptor. destruct (negb _ || negb _);
        cbn [offset status_idx]; lia. }
    destruct Hstep as [Ho Hi].
    rewrite Ho in Hrun. rewrite (u32_small (offset c + desc_len)) in Hrun by lia.
    apply IH in Hrun; cbn [offset status_idx set_offset] in *; lia.
Qed.

Lemma walk_pages_consumes buf end_ max_statuses :
  0 <= end_ <= 65535 ->
  forall fuel c c',
    0 <= offset c <= 65535 ->
    2 * status_idx c + 8 <= offset c ->
    walk_pages fuel buf end_ max_statuses c = Some c' ->
    2 * status_idx c' + 8 <= offset c'
    /\ offset c <= offset c' <= Z.max (offset c) end_.
Proof.
  intros Hend. induction fuel as [|fuel IH]; intros c c' Hoff Hinv Hrun;
    [discriminate|].
  rewrite walk_pages_unfold in Hrun.
  rewrite (u32_small (offset c + 8)) in Hrun by lia.
  destruct (Z.leb_spec (offset c + 8) end_) as [Hin|Hout];
    destruct (Z.ltb_spec (status_idx c) max_statuses) as [Hroom|Hfull];
    cbn [andb] in Hrun; try (injection Hrun as <-; lia).
  cbv zeta in Hrun.
  set (type := Z.land (byte_at buf (offset c)) 15) in *.
  set (desc_len := u16 (be16 buf (offset c + 2))) in *.
  set (page_bytes := u32 (be24 buf (offset c + 5))) in *.
  destruct ((desc_len =? 0) || (page_bytes =? 0)).
  { injection Hrun as <-. cbn [offset status_idx set_offset]. lia. }
  cbn [offset set_offset] in Hrun.
  set (page_end0 := u32 (offset c + 8 + page_bytes)) in *.
  set (page_end := if end_ <? page_end0 then end_ else page_end0) in *.
  assert (Hpe : 0 <= page_end <= 65535 /\ page_end <= end_).
  { subst page_end. pose proof (u32_range (offset c + 8 + page_bytes)) as Hr.
    fold page_end0 in Hr. destruct (Z.ltb_spec end_ page_end0); lia. }
  destruct Hpe as [Hpe Hpe'].
  destruct (walk_descriptors (S (Z.to_nat page_end)) buf type desc_len page_end
                             max_statuses (set_offset (offset c + 8) c))
    as [c2|] eqn:Hinner; [|discriminate].
  apply (walk_descriptors_consumes buf type desc_len page_end max_statuses
           (u16_range _) Hpe) in Hinner;
    cbn [offset status_idx set_offset] in *; try lia.
  destruct Hinner as [Hinv2 Hoff2].
  set (c3 := if offset c2 <? page_end then set_offset page_end c2 else c2) in *.
  assert (H3 : offset c2 <= offset c3 <= end_ /\ status_idx c3 = status_idx c2).
  { subst c3. destruct (Z.ltb_spec (offset c2) page_end);
      cbn [offset status_idx set_offset]; lia. }
  apply IH in Hrun; lia.
Qed.

(** The paths of [scsi_read_element_status] on a connection that is not
    [NULL]: the allocation fails; the command fails; the report is empty
    or there is no array; or the pages are walked.  On every path but the
    first the buffer is freed last. *)
Lemma read_element_status_paths env (c : ChangerConnection) element_type start count
      statuses max_statuses w :
  usable (Some c) = true ->
  0 <= max_statuses ->
  let alloc := read_element_status_alloc count in
  let w0 := emit (EvCalloc alloc) (count_allocation w) in
  exists rc statuses' w',
    scsi_read_element_status env (Some c) element_type start count statuses
                             max_statuses w
    = Ok (rc, statuses') w'
    /\ ((calloc_ok env (allocations w) = false
         /\ rc = -1 /\ statuses' = statuses /\ w' = w0)
        \/ (calloc_ok env (allocations w) = true
            /\ exists r buf w1,
                 changer_execute_cdb env (Some c)
                   (read_element_status_cdb element_type start count alloc) 12
                   (Some (replicate (Z.to_nat alloc) x00)) alloc DIR_READ 30000 w0
                 = Ok (r, buf) w1
                 /\ w' = emit EvFree w1
                 /\ ((r = -1 /\ rc = -1 /\ statuses' = statuses)
                     \/ (r = 0 /\ rc = 0 /\ statuses' = statuses
                         /\ (u32 (be24 (default [] buf) 5) = 0 \/ statuses = None))
                     \/ (r = 0
                         /\ u32 (be24 (default [] buf) 5) <> 0
                         /\ exists arr end_ c',
                              statuses = Some arr
                              /\ 0 <= end_ <= alloc
                              /\ walk_pages (S (Z.to_nat end_))
                                            (default [] buf
                                             ++ [heap_after env (allocations w)])%list
                                            end_ max_statuses (mkCursor 8 0 arr)
                                 = Some c'
                              /\ rc = status_idx c'
                              /\ statuses' = Some (out c'))))).
Proof.
  intros Hu Hmax alloc w0.
  pose proof (read_element_status_alloc_range count) as Halloc. fold alloc in Halloc.
  unfold scsi_read_element_status. fold alloc.
  unfold calloc, free. run_step. fold w0.
  destruct (calloc_ok env (allocations w)) eqn:Hcalloc; cbn [negb];
    [|eexists _, _, _; split; [reflexivity|]; left; repeat split; reflexivity].
  destruct (changer_execute_cdb_returns env (Some c)
              (read_element_status_cdb element_type start count alloc) 12
              (Some (replicate (Z.to_nat alloc) x00)) alloc DIR_READ 30000 w0 Hu)
    as (r & buf & w1 & Hexec & Hr).
  rewrite Hexec. cbn [fst snd].
  destruct Hr as [-> | ->]; cbn [Z.eqb negb].
  2:{ eexists _, _, _. split; [reflexivity|]. right. split; [reflexivity|].
      exists (-1), buf, w1. split; [reflexivity|]. split; [reflexivity|].
      left. repeat split; reflexivity. }
  set (b := default [] buf).
  destruct (Z.eqb_spec (u32 (be24 b 5)) 0) as [Hzero|Hnz].
  { eexists _, _, _. split; [reflexivity|]. right. split; [reflexivity|].
    exists 0, buf, w1. split; [reflexivity|]. split; [reflexivity|].
    right. left. repeat split; try reflexivity. left. exact Hzero. }
  destruct statuses as [arr|].
  2:{ eexists _, _, _. split; [reflexivity|]. right. split; [reflexivity|].
      exists 0, buf, w1. split; [reflexivity|]. split; [reflexivity|].
      right. left. repeat split; try reflexivity. right. reflexivity. }
  set (end0 := u32 (8 + u32 (be24 b 5))).
  set (end_ := if alloc <? end0 then alloc else end0).
  assert (Hend : 0 <= end_ <= alloc).
  { subst end_. pose proof (u32_range (8 + u32 (be24 b 5))) as Hx. fold end0 in Hx.
    destruct (Z.ltb_spec alloc end0); lia. }
  assert (Hn : Nat.pred (allocations w1) = allocations w).
  { destruct (changer_execute_cdb_effect _ _ _ _ _ _ _ _ _ _ _ _ Hexec) as (Ha & _).
    rewrite Ha. reflexivity. }
  rewrite Hn.
  destruct (walk_pages_total (b ++ [heap_after env (allocations w)])%list
                             end_ max_statuses ltac:(lia) (S (Z.to_nat end_))
                             (mkCursor 8 0 arr))
    as (c' & Hrun & Hidx & Hs); cbn [offset status_idx out]; try lia.
  rewrite Hrun.
  eexists _, _, _. split; [reflexivity|]. right. split; [reflexivity|].
  exists 0, buf, w1. split; [reflexivity|]. split; [reflexivity|].
  right. right. split; [reflexivity|]. split; [exact Hnz|].
  exists arr, end_, c'. repeat split; try assumption; lia.
Qed.

(** X6: [scsi_read_element_status] frees its response buffer exactly once
    on every path on which [calloc] gave it one (failed command, empty
    report, missing array, parsed pages), and never otherwise; it
    allocates at most once. *)
Theorem read_element_status_frees_buffer env conn element_type start count
    statuses max_statuses (w : World) :
  usable conn = true ->
  0 <= max_statuses ->
  exists rc statuses' w',
    scsi_read_element_status env conn element_type start count statuses max_statuses w
    = Ok (rc, statuses') w'
    /\ callocs (trace w')
       = (callocs (trace w) + match conn with Some _ => 1 | None => 0 end)%nat
    /\ frees (trace w')
       = (frees (trace w)
          + match conn with
            | Some _ => if calloc_ok env (allocations w) then 1 else 0
            | None => 0
            end)%nat.
Proof.
  intros Hu Hmax. destruct conn as [c|].
  2:{ exists (-1), statuses, w. split; [reflexivity|]. split; lia. }
  destruct (read_element_status_paths env c element_type start count statuses
              max_statuses w Hu Hmax)
    as (rc & st' & w' & Hrun & Hcase).
  exists rc, st', w'. split; [exact Hrun|].
  destruct Hcase as [(Hc & _ & _ & ->) | (Hc & r & buf & w1 & Hexec & -> & _)];
    rewrite Hc.
  - cbn [trace emit count_allocation].
    rewrite callocs_app, frees_app. cbn [callocs frees]. split; lia.
  - destruct (changer_execute_cdb_effect _ _ _ _ _ _ _ _ _ _ _ _ Hexec)
      as (_ & Hf & Hca & _).
    cbn [trace emit]. rewrite callocs_app, frees_app, Hf, Hca.
    cbn [trace emit count_allocation].
    rewrite callocs_app, frees_app. cbn [callocs frees]. split; lia.
Qed.

Lemma read_element_status_frees_buffer_witness :
  exists rc statuses' w',
    scsi_read_element_status source_empty_changer (Some kernel_conn)
                             ELEM_STORAGE 0 2 (Some three_statuses) 3 fresh_world
    = Ok (rc, statuses') w'
    /\ callocs (trace w') = 1%nat
    /\ frees (trace w') = 1%nat.
Proof.
  exact (read_element_status_frees_buffer source_empty_changer (Some kernel_conn)
           ELEM_STORAGE 0 2 (Some three_statuses) 3 fresh_world
           eq_refl ltac:(lia)).
Defined.

(** X7: the value [scsi_read_element_status] returns is -1 or a count
    between 0 and 32763: each counted entry stands for a descriptor of at
    least two bytes behind the 8-byte header of a buffer of at most 65535
    bytes, so the cast of [status_idx] to [int] cannot overflow. *)
Theorem read_element_status_return_range env conn element_type start count
    statuses max_statuses (w : World) :
  usable conn = true ->
  0 <= max_statuses ->
  exists rc statuses' w',
    scsi_read_element_status env conn element_type start count statuses max_statuses w
    = Ok (rc, statuses') w'
    /\ -1 <= rc
    /\ 2 * rc + 8 <= read_element_status_alloc count
    /\ rc <= 32763.
Proof.
  intros Hu Hmax.
  pose proof (read_element_status_alloc_range count) as Halloc.
  destruct conn as [c|].
  2:{ exists (-1), statuses, w. split; [reflexivity|]. lia. }
  destruct (read_element_status_paths env c element_type start count statuses
              max_statuses w Hu Hmax)
    as (rc & st' & w' & Hrun & Hcase).
  exists rc, st', w'. split; [exact Hrun|].
  destruct Hcase as [(_ & -> & _) | (_ & r & buf & w1 & _ & _ & Hpath)]; [lia|].
  destruct Hpath as [(_ & -> & _) | [(_ & -> & _) | (_ & _ & arr & end_ & c' & _ & Hend & Hwalk & -> & _)]];
    try lia.
  destruct (walk_pages_total (default [] buf ++ [heap_after env (allocations w)])%list
              end_ max_statuses ltac:(lia)
              (S (Z.to_nat end_)) (mkCursor 8 0 arr))
    as (c'' & Hrun' & Hidx & _); cbn [offset status_idx out]; try lia.
  rewrite Hwalk in Hrun'. injection Hrun' as <-. cbn [status_idx] in Hidx.
  apply (walk_pages_consumes _ end_ max_statuses ltac:(lia)) in Hwalk;
    cbn [offset status_idx] in *; lia.
Qed.

Lemma read_element_status_return_range_witness :
  exists rc statuses' w',
    scsi_read_element_status (answering (storage_pair 2)) (Some kernel_conn)
                             ELEM_STORAGE 0 2 (Some three_statuses) 3 fresh_world
    = Ok (rc, statuses') w'
    /\ -1 <= rc
    /\ 2 * rc + 8 <= read_element_status_alloc 2
    /\ rc <= 32763.
Proof.
  exact (read_element_status_return_range (answering (storage_pair 2))
           (Some kernel_conn) ELEM_STORAGE 0 2 (Some three_statuses) 3 fresh_world
           eq_refl ltac:(lia)).
Defined.

(** X8: when the command succeeds and the response reports a length of
    zero, [scsi_read_element_status] returns 0 and hands the caller's
    array back untouched, whatever else the response holds. *)
Theorem read_element_status_empty_report env (c : ChangerConnection)
    element_type start count statuses max_statuses (w w1 w2 : World)
    (buf : list byte) :
  let alloc := read_element_status_alloc count in
  calloc env alloc w = Ok true w1 ->
  changer_execute_cdb env (Some c)
    (read_element_status_cdb element_type start count alloc) 12
    (Some (replicate (Z.to_nat alloc) x00)) alloc DIR_READ 30000 w1
  = Ok (0, Some buf) w2 ->
  be24 buf 5 = 0 ->
  scsi_read_element_status env (Some c) element_type start count statuses
                           max_statuses w
  = Ok (0, statuses) (emit EvFree w2).
Proof.
  intros alloc Hcalloc Hexec Hzero.
  unfold scsi_read_element_status. fold alloc.
  unfold bind at 1. rewrite Hcalloc. cbn [negb].
  unfold bind at 1. rewrite Hexec. cbn [fst snd Z.eqb negb from_option id].
  rewrite Hzero. reflexivity.
Qed.

Lemma read_element_status_empty_report_witness :
  exists w',
    scsi_read_element_status (answering []) (Some kernel_conn)
                             ELEM_STORAGE 0 2 (Some three_statuses) 3 fresh_world
    = Ok (0, Some three_statuses) w'.
Proof.
  eexists.
  eapply (read_element_status_empty_report (answering []) kernel_conn
            ELEM_STORAGE 0 2 (Some three_statuses) 3 fresh_world).
  - reflexivity.
  - vm_compute. reflexivity.
  - vm_compute. reflexivity.
Defined.

(** ** READ ELEMENT STATUS: how far the page loop reads *)

Lemma all_zero_scan_frame (a b : list byte) (n off desc_len : Z) :
  same_upto n a b -> 0 <= off -> off + desc_len <= n ->
  forall fuel i, 0 <= i ->
    all_zero_scan fuel a off desc_len i = all_zero_scan fuel b off desc_len i.
Proof.
  intros Hab Hoff Hin. induction fuel as [|fuel IH]; intros i Hi; [reflexivity|].
  cbn [all_zero_scan].
  destruct (Z.ltb_spec i desc_len); [|reflexivity].
  destruct (Z.ltb_spec i 12); [|reflexivity].
  cbn [andb]. rewrite (Hab (off + i)) by lia.
  destruct (negb _); [reflexivity|].
  apply IH. pose proof (u16_range (i + 1)). lia.
Qed.

Lemma store_status_frame (a b : list byte) (n off desc_len : Z) (e : ElementStatus) :
  same_upto n a b -> 0 <= off -> 2 <= desc_len -> off + desc_len <= n ->
  store_status a off desc_len e = store_status b off desc_len e.
Proof.
  intros Hab Hoff Hdl Hin. unfold store_status, be16.
  rewrite (Hab off), (Hab (off + 1)), (Hab (off + 2)) by lia.
  destruct (Z.leb_spec 12 desc_len); [|reflexivity].
  rewrite (Hab (off + 9)), (Hab (off + 10)), (Hab (off + 10 + 1)) by lia.
  reflexivity.
Qed.

Lemma read_descriptor_frame (a b : list byte) (n type desc_len : Z) (c : Cursor) :
  same_upto n a b -> 0 <= offset c -> 2 <= desc_len -> offset c + desc_len <= n ->
  read_descriptor a type desc_len c = read_descriptor b type desc_len c.
Proof.
  intros Hab Hoff Hdl Hin. unfold read_descriptor.
  rewrite (all_zero_scan_frame a b n (offset c) desc_len Hab Hoff Hin 13 0) by lia.
  destruct (negb _ || negb _); [|reflexivity].
  f_equal. apply list_alter_ext; [|reflexivity].
  intros e _. apply (store_status_frame a b n); assumption.
Qed.

Lemma walk_descriptors_frame (a b : list byte) (n type desc_len page_end max_statuses : Z) :
  same_upto n a b -> 0 <= desc_len < 65536 -> page_end <= n -> n <= 65535 ->
  forall fuel c, 0 <= offset c <= 65535 ->
    walk_descriptors fuel a type desc_len page_end max_statuses c
    = walk_descriptors fuel b type desc_len page_end max_statuses c.
Proof.
  intros Hab Hdl Hpe Hn. induction fuel as [|fuel IH]; intros c Hoff; [reflexivity|].
  rewrite !walk_descriptors_unfold.
  rewrite (u32_small (offset c + desc_len)) by lia.
  destruct (Z.leb_spec (offset c + desc_len) page_end) as [Hin|]; [|reflexivity].
  destruct (Z.ltb_spec (status_idx c) max_statuses); [|reflexivity].
  cbn [andb].
  destruct (Z.ltb_spec desc_len 2); [reflexivity|].
  rewrite (read_descriptor_frame a b n type desc_len c) by (assumption || lia).
  apply IH. cbn [offset set_offset].
  assert (Ho : offset (read_descriptor b type desc_len c) = offset c).
  { unfold read_descriptor. destruct (negb _ || negb _); reflexivity. }
  rewrite Ho, u32_small by lia. lia.
Qed.

Lemma walk_descriptors_offset (buf : list byte) (type desc_len page_end max_statuses : Z) :
  0 <= desc_len < 65536 -> 0 <= page_end <= 65535 ->
  forall fuel c c', 0 <= offset c <= 65535 ->
    walk_descriptors fuel buf type desc_len page_end max_statuses c = Some c' ->
    0 <= offset c' <= 65535.
Proof.
  intros Hdl Hpe. induction fuel as [|fuel IH]; intros c c' Hoff Hrun; [discriminate|].
  rewrite walk_descriptors_unfold in Hrun.
  rewrite (u32_small (offset c + desc_len)) in Hrun by lia.
  destruct (Z.leb_spec (offset c + desc_len) page_end) as [Hin|];
    [|injection Hrun as <-; exact Hoff].
  destruct (Z.ltb_spec (status_idx c) max_statuses);
    [|injection Hrun as <-; exact Hoff].
  cbn [andb] in Hrun.
  destruct (Z.ltb_spec desc_len 2);
    [injection Hrun as <-; cbn [offset set_offset]; lia|].
  apply IH in Hrun; [exact Hrun|]. cbn [offset set_offset].
  assert (Ho : offset (read_descriptor buf type desc_len c) = offset c).
  { unfold read_descriptor. destruct (negb _ || negb _); reflexivity. }
  rewrite Ho, u32_small by lia. lia.
Qed.

Lemma walk_pages_frame (a b : list byte) (end_ max_statuses : Z) :
  same_upto end_ a b -> 0 <= end_ <= 65535 ->
  forall fuel c, 0 <= offset c <= 65535 ->
    walk_pages fuel a end_ max_statuses c = walk_pages fuel b end_ max_statuses c.
Proof.
  intros Hab Hend. induction fuel as [|fuel IH]; intros c Hoff; [reflexivity|].
  rewrite !walk_pages_unfold.
  rewrite (u32_small (offset c + 8)) by lia.
  destruct (Z.leb_spec (offset c + 8) end_) as [Hin|]; [|reflexivity].
  destruct (Z.ltb_spec (status_idx c) max_statuses); [|reflexivity].
  cbn [andb]. cbv zeta. unfold be16, be24.
  rewrite (Hab (offset c)), (Hab (offset c + 2)), (Hab (offset c + 2 + 1)),
    (Hab (offset c + 5)), (Hab (offset c + 5 + 1)), (Hab (offset c + 5 + 2)) by lia.
  fold (be16 b (offset c + 2)). fold (be24 b (offset c + 5)).
  destruct ((u16 (be16 b (offset c + 2)) =? 0) || (u32 (be24 b (offset c + 5)) =? 0));
    [reflexivity|].
  set (type := Z.land (byte_at b (offset c)) 15).
  set (desc_len := u16 (be16 b (offset c + 2))).
  set (c1 := set_offset (offset c + 8) c).
  set (page_end0 := u32 (offset c1 + u32 (be24 b (offset c + 5)))).
  set (page_end := if end_ <? page_end0 then end_ else page_end0).
  assert (Hpe : 0 <= page_end <= end_).
  { subst page_end. pose proof (u32_range (offset c1 + u32 (be24 b (offset c + 5)))) as Hr.
    fold page_end0 in Hr. destruct (Z.ltb_spec end_ page_end0); lia. }
  assert (Hc1 : 0 <= offset c1 <= 65535) by (subst c1; cbn [offset set_offset]; lia).
  rewrite (walk_descriptors_frame a b end_ type desc_len page_end max_statuses Hab
             (u16_range _) (proj2 Hpe) (proj2 Hend) _ c1 Hc1).
  destruct (walk_descriptors (S (Z.to_nat page_end)) b type desc_len page_end
                             max_statuses c1) as [c2|] eqn:Hwalk; [|reflexivity].
  apply IH.
  apply (walk_descriptors_offset b type desc_len page_end max_statuses
           (u16_range _) ltac:(lia) _ c1 c2 Hc1) in Hwalk.
  destruct (offset c2 <? page_end); cbn [offset set_offset]; lia.
Qed.

Lemma byte_at_app_l (buf tl : list byte) (i : Z) :
  i < Z.of_nat (length buf) -> byte_at (buf ++ tl) i = byte_at buf i.
Proof.
  intros Hi. unfold byte_at. destruct (Z.ltb_spec i 0); [reflexivity|].
  rewrite app_nth1 by lia. reflexivity.
Qed.

(** A command hands the caller's buffer back at its length, when
    [buffer_len] does not exceed it. *)
Lemma changer_execute_cdb_buffer_length env conn cdb cdb_len (b : list byte) buffer_len
      direction timeout_ms w rc buffer' w' :
  (Z.to_nat buffer_len <= length b)%nat ->
  changer_execute_cdb env conn cdb cdb_len (Some b) buffer_len direction timeout_ms w
  = Ok (rc, buffer') w' ->
  exists b', buffer' = Some b' /\ length b' = length b.
Proof.
  intros Hlen.
  assert (Hrecv : forall data, exists b', receive data buffer_len (Some b) = Some b'
                                          /\ length b' = length b).
  { intros data. eexists. split; [reflexivity|].
    rewrite length_app, length_take, length_drop. lia. }
  intros Hexec. unfold changer_execute_cdb in Hexec.
  destruct conn as [c|]; [|injection Hexec as _ <- _; eauto].
  destruct (connected c); cbn [negb] in Hexec; [|injection Hexec as _ <- _; eauto].
  destruct (backend c); [injection Hexec as _ <- _; eauto| |].
  - destruct (scsi_device c) as [dev|]; [|discriminate].
    unfold execute_cdb_scsitask in Hexec. revert Hexec. run.
    destruct (task_created _); cbn [negb]; [|intros [= _ <- _]; eauto].
    destruct (kr_success _); cbn [negb];
      [destruct (status_good _)|destruct (negb _ || negb _ || negb _)];
      cbn [negb]; intros [= _ <- _];
      (destruct (direction =? DIR_READ); [apply Hrecv | eauto]).
  - destruct (login c) as [lg|]; [|discriminate].
    unfold execute_cdb_sbp2 in Hexec. revert Hexec. run.
    destruct (orb_created _); cbn [negb]; [|intros [= _ <- _]; eauto].
    destruct (orb_submitted _); cbn [negb]; [|intros [= _ <- _]; eauto].
    destruct (notified _); cbn [negb]; [|intros [= _ <- _]; eauto].
    destruct (normal_status _); cbn [negb]; intros [= _ <- _];
      (destruct ((direction =? DIR_READ) && _); [apply Hrecv | eauto]).
Qed.

(** X26: the page loop of [scsi_read_element_status] reads its memory at
    the indices up to [end] only, the end of the report clipped to
    [alloc].  When the device reports fewer bytes than the allocation
    holds, the call returns what the page loop gives on the buffer alone:
    the memory behind the buffer plays no part. *)
Theorem read_element_status_within_buffer env (c : ChangerConnection)
    element_type start count (arr : list ElementStatus) max_statuses
    (w w1 w2 : World) (buf : list byte) :
  let alloc := read_element_status_alloc count in
  let end_ := u32 (8 + u32 (be24 buf 5)) in
  calloc env alloc w = Ok true w1 ->
  changer_execute_cdb env (Some c)
    (read_element_status_cdb element_type start count alloc) 12
    (Some (replicate (Z.to_nat alloc) x00)) alloc DIR_READ 30000 w1
  = Ok (0, Some buf) w2 ->
  0 <= max_statuses ->
  u32 (be24 buf 5) <> 0 ->
  end_ < alloc ->
  exists c',
    walk_pages (S (Z.to_nat end_)) buf end_ max_statuses (mkCursor 8 0 arr) = Some c'
    /\ scsi_read_element_status env (Some c) element_type start count (Some arr)
                                max_statuses w
       = Ok (status_idx c', Some (out c')) (emit EvFree w2).
Proof.
  intros alloc end_ Hcalloc Hexec Hmax Hnz Hshort.
  pose proof (read_element_status_alloc_range count) as Halloc. fold alloc in Halloc.
  assert (Hend : 0 <= end_ <= 65535).
  { subst end_. pose proof (u32_range (8 + u32 (be24 buf 5))). lia. }
  assert (Hfits : (Z.to_nat alloc <= length (replicate (Z.to_nat alloc) x00))%nat)
    by (rewrite length_replicate; lia).
  destruct (changer_execute_cdb_buffer_length _ _ _ _ _ _ _ _ _ _ _ _ Hfits Hexec)
    as (b' & [= <-] & Hlen).
  rewrite length_replicate in Hlen.
  destruct (walk_pages_total buf end_ max_statuses Hend (S (Z.to_nat end_))
                             (mkCursor 8 0 arr))
    as (c' & Hrun & _); cbn [offset status_idx out]; try lia.
  exists c'. split; [exact Hrun|].
  unfold scsi_read_element_status. fold alloc.
  unfold bind at 1. rewrite Hcalloc. cbn [negb].
  unfold bind at 1. rewrite Hexec. cbn [fst snd Z.eqb negb from_option id].
  destruct (Z.eqb_spec (u32 (be24 buf 5)) 0) as [|_]; [contradiction|].
  unfold free. run_step. fold end_.
  destruct (Z.ltb_spec alloc end_); [lia|].
  rewrite (walk_pages_frame (buf ++ [heap_after env (Nat.pred (allocations w2))])%list
             buf end_ max_statuses); cbn [offset]; try lia.
  - rewrite Hrun. reflexivity.
  - intros i Hi. apply byte_at_app_l. lia.
Qed.

Lemma read_element_status_within_buffer_witness :
  exists c' w',
    scsi_read_element_status (with_heap xff (answering (storage_pair 2)))
                             (Some kernel_conn) ELEM_STORAGE 0 2
                             (Some three_statuses) 3 fresh_world
    = Ok (status_idx c', Some (out c')) w'
    /\ status_idx c' = 2.
Proof.
  edestruct (read_element_status_within_buffer
               (with_heap xff (answering (storage_pair 2))) kernel_conn
               ELEM_STORAGE 0 2 three_statuses 3 fresh_world)
    as (c' & Hwalk & Hrun).
  - reflexivity.
  - vm_compute. reflexivity.
  - lia.
  - vm_compute. discriminate.
  - vm_compute. reflexivity.
  - exists c'. eexists. split; [exact Hrun|].
    vm_compute in Hwalk. injection Hwalk as <-. reflexivity.
Defined.

(** X27: the bound is reached.  The loop reads the flags at
    [buf[offset + 2]] whatever [desc_len] is, so for a descriptor of two
    bytes that ends where the buffer ends, the entry it stores has the
    address of the descriptor and the [full] and [except] bits of the
    byte [p] that follows the buffer in memory. *)
Theorem short_descriptor_flags_behind_buffer (buf : list byte) (p : byte)
    (type : Z) (c : Cursor) (e : ElementStatus) :
  0 <= offset c ->
  Z.of_nat (length buf) = offset c + 2 ->
  type <> ELEM_STORAGE
  \/ byte_at buf (offset c) <> 0 \/ byte_at buf (offset c + 1) <> 0 ->
  out c !! Z.to_nat (status_idx c) = Some e ->
  let c' := read_descriptor (buf ++ [p]) type 2 c in
  status_idx c' = status_idx c + 1
  /\ out c' !! Z.to_nat (status_idx c)
     = Some (mkElementStatus (u16 (be16 buf (offset c)))
                             (negb (Z.land (u8 p) 0x01 =? 0))
                             (negb (Z.land (u8 p) 0x04 =? 0))
                             (source e) (source_valid e)).
Proof.
  intros Hoff Hlen Hkept He c'.
  assert (Hc' : c' = mkCursor (offset c) (status_idx c + 1)
                       (alter (store_status (buf ++ [p]) (offset c) 2)
                              (Z.to_nat (status_idx c)) (out c))).
  { subst c'. destruct Hkept as [Htype | Hnz].
    - unfold read_descriptor.
      destruct (Z.eqb_spec type ELEM_STORAGE); [contradiction|].
      rewrite orb_true_r. reflexivity.
    - destruct Hnz as [Hnz | Hnz].
      + apply (nonzero_descriptor_stored _ _ _ _ 0); try lia.
        rewrite Z.add_0_r, byte_at_app_l by lia. exact Hnz.
      + apply (nonzero_descriptor_stored _ _ _ _ 1); try lia.
        rewrite byte_at_app_l by lia. exact Hnz. }
  rewrite Hc'. cbn [status_idx out]. split; [reflexivity|].
  rewrite list_lookup_alter_eq, He. cbn [fmap option_fmap option_map].
  f_equal. unfold store_status, be16.
  rewrite !byte_at_app_l by lia.
  assert (Hp : byte_at (buf ++ [p]) (offset c + 2) = u8 p).
  { unfold byte_at. destruct (Z.ltb_spec (offset c + 2) 0); [lia|].
    replace (Z.to_nat (offset c + 2)) with (length buf) by lia.
    rewrite nth_middle. reflexivity. }
  rewrite Hp. reflexivity.
Qed.

Lemma short_descriptor_flags_behind_buffer_witness :
  let c' := read_descriptor (bytes_of [0; 0x10] ++ [xff]) ELEM_STORAGE 2
                            (mkCursor 0 0 [empty_status]) in
  status_idx c' = 1
  /\ out c' !! 0%nat = Some (mkElementStatus 0x10 true true 0 false).
Proof.
  exact (short_descriptor_flags_behind_buffer (bytes_of [0; 0x10]) xff ELEM_STORAGE
           (mkCursor 0 0 [empty_status]) empty_status
           ltac:(cbn; lia) eq_refl
           ltac:(right; right; vm_compute; discriminate) eq_refl).
Defined.

(** A whole run that gets there: the same device, the same response, and
    an entry that is full or empty with the byte behind the allocation. *)
Example read_element_status_last_flags :
  (exists w',
     scsi_read_element_status (with_heap x00 (answering short_descriptor_page))
                              (Some kernel_conn) ELEM_STORAGE 0 2
                              (Some [empty_status]) 1 fresh_world
     = Ok (1, Some [mkElementStatus 0x10 false false 0 false]) w')
  /\ (exists w',
        scsi_read_element_status (with_heap xff (answering short_descriptor_page))
                                 (Some kernel_conn) ELEM_STORAGE 0 2
                                 (Some [empty_status]) 1 fresh_world
        = Ok (1, Some [mkElementStatus 0x10 true true 0 false]) w').
Proof. split; eexists; vm_compute; reflexivity. Qed.

(** ** MODE SENSE: retries, rejections and the slot array's memory *)

(** The TEST UNIT READY loop always ends; it submits at most [n] commands
    and sleeps at most [n] times, and it neither allocates nor frees. *)
Lemma clear_unit_attention_effect env conn (n : nat) :
  usable conn = true ->
  forall w,
  exists w',
    clear_unit_attention env n conn w = Ok tt w'
    /\ allocations w' = allocations w
    /\ frees (trace w') = frees (trace w)
    /\ callocs (trace w') = callocs (trace w)
    /\ (commands w <= commands w' <= commands w + n)%nat
    /\ (sleeps (trace w) <= sleeps (trace w') <= sleeps (trace w) + n)%nat.
Proof.
  intros Hu. induction n as [|n IH]; intros w.
  - exists w. split; [reflexivity|]. repeat split; lia.
  - cbn [clear_unit_attention]. unfold scsi_test_unit_ready.
    destruct (changer_execute_cdb_returns env conn test_unit_ready_cdb 6 None 0
                DIR_NONE 10000 w Hu) as (rc & b & w1 & Hexec & Hrc).
    destruct (changer_execute_cdb_effect _ _ _ _ _ _ _ _ _ _ _ _ Hexec)
      as (Ha & Hf & Hc & Hs & Hn & _).
    unfold bind at 1. unfold bind at 1. rewrite Hexec. unfold ret at 1.
    cbn [fst].
    destruct Hrc as [-> | ->]; cbn [Z.eqb].
    + exists w1. split; [reflexivity|]. repeat split; lia.
    + run_step. destruct (IH (emit (EvUsleep 100000) w1))
        as (w' & Hrun & Ha' & Hf' & Hc' & Hn' & Hs').
      exists w'. split; [exact Hrun|].
      cbn [allocations commands trace emit] in *.
      rewrite frees_app, callocs_app, sleeps_app in *.
      cbn [frees callocs sleeps] in *. repeat split; lia.
Qed.

(** On a disconnected connection every TEST UNIT READY fails at once, so
    the loop just sleeps [n] times. *)
Lemma clear_unit_attention_disconnected env (c : ChangerConnection) (n : nat) :
  connected c = false ->
  forall w,
    clear_unit_attention env n (Some c) w
    = Ok tt (mkWorld (g_last_sense w) (commands w) (allocations w)
                     (trace w ++ replicate n (EvUsleep 100000))).
Proof.
  intros Hc. induction n as [|n IH]; intros w.
  - cbn [clear_unit_attention replicate]. rewrite app_nil_r.
    destruct w; reflexivity.
  - cbn [clear_unit_attention]. unfold scsi_test_unit_ready, changer_execute_cdb.
    rewrite Hc. run_step. cbn [negb fst Z.eqb].
    rewrite IH. cbn [g_last_sense commands allocations trace emit replicate].
    rewrite <- app_assoc. reflexivity.
Qed.

Lemma locate_element_page_none_iff (buf : list byte) :
  let bdl := u16 (be16 buf 6) in
  locate_element_page buf = None
  <-> (230 < bdl
       \/ Z.land (byte_at buf (8 + bdl)) 0x3F <> 0x1D
       \/ byte_at buf (8 + bdl + 1) < 16).
Proof.
  cbv zeta. unfold locate_element_page.
  pose proof (u16_range (be16 buf 6)) as Hb.
  set (bdl := u16 (be16 buf 6)) in *.
  rewrite (u32_small (8 + bdl)) by lia. rewrite (u32_small (8 + bdl + 18)) by lia.
  destruct (Z.ltb_spec 256 (8 + bdl + 18)) as [Hbig|Hfit].
  - split; [intros _; left; lia | reflexivity].
  - destruct (Z.eqb_spec (Z.land (byte_at buf (8 + bdl)) 0x3F) 0x1D) as [Hcode|Hcode];
      destruct (Z.ltb_spec (byte_at buf (8 + bdl + 1)) 16) as [Hlen|Hlen];
      cbn [negb orb]; split; try reflexivity; try discriminate;
      try (intros _; right; tauto); try (intros _; right; right; lia);
      intros [H|[H|H]]; lia || contradiction.
Qed.

(** X9: a MODE SENSE response is refused, with -1 and the caller's map
    exactly as it was, when its block-descriptor length leaves fewer than
    18 bytes for the page in the 256-byte buffer (length above 230), when
    the page code found there is not 0x1D, or when the page length is
    below 16. *)
Theorem mode_sense_rejects_malformed_page env (c : ChangerConnection) (m : ElementMap)
    (w w1 w2 : World) (buf : list byte) :
  clear_unit_attention env 3 (Some c) w = Ok tt w1 ->
  changer_execute_cdb env (Some c) mode_sense_cdb 10
                      (Some (replicate 256 x00)) 256 DIR_READ 10000 w1
  = Ok (0, Some buf) w2 ->
  let bdl := u16 (be16 buf 6) in
  (230 < bdl
   \/ Z.land (byte_at buf (8 + bdl)) 0x3F <> 0x1D
   \/ byte_at buf (8 + bdl + 1) < 16) ->
  scsi_mode_sense_element env (Some c) (Some m) w = Ok (-1, Some m) w2.
Proof.
  intros Hclear Hexec bdl Hbad.
  apply (proj2 (locate_element_page_none_iff buf)) in Hbad.
  unfold scsi_mode_sense_element.
  unfold bind at 1. rewrite Hclear.
  unfold bind at 1. rewrite Hexec.
  cbn [fst snd Z.eqb negb from_option id]. rewrite Hbad. reflexivity.
Qed.

Lemma mode_sense_rejects_malformed_page_witness :
  exists w',
    scsi_mode_sense_element (answering (bytes_of [0; 0; 0; 0; 0; 0; 0; 0; 0x1C; 18]))
                            (Some kernel_conn) (Some empty_map) fresh_world
    = Ok (-1, Some empty_map) w'.
Proof.
  eexists.
  eapply (mode_sense_rejects_malformed_page
            (answering (bytes_of [0; 0; 0; 0; 0; 0; 0; 0; 0x1C; 18]))
            kernel_conn empty_map fresh_world).
  - reflexivity.
  - vm_compute. reflexivity.
  - right. left. vm_compute. discriminate.
Defined.

(** X10: when the response is accepted but [calloc] fails for the slot
    array, [scsi_mode_sense_element] returns -1 with the map half
    updated: [transport] and [drive] hold the values of the response and
    [slots] is [NULL], whatever array the caller's map held, because the
    result of [calloc] is assigned before it is tested; the slot count and
    the import/export fields are still the caller's.  A map that came
    with an array leaves with no array and its old count. *)
Theorem mode_sense_allocation_failure env (c : ChangerConnection) (m : ElementMap)
    (w w1 w2 : World) (buf : list byte) (page_offset : Z) :
  clear_unit_attention env 3 (Some c) w = Ok tt w1 ->
  changer_execute_cdb env (Some c) mode_sense_cdb 10
                      (Some (replicate 256 x00)) 256 DIR_READ 10000 w1
  = Ok (0, Some buf) w2 ->
  locate_element_page buf = Some page_offset ->
  0 < page_num_storage buf page_offset ->
  calloc_ok env (allocations w2) = false ->
  exists m' w',
    scsi_mode_sense_element env (Some c) (Some m) w = Ok (-1, Some m') w'
    /\ transport m' = page_transport buf page_offset
    /\ drive m' = page_drive buf page_offset
    /\ slots m' = None /\ slot_count m' = slot_count m
    /\ ie m' = ie m /\ has_ie m' = has_ie m
    /\ callocs (trace w') = S (callocs (trace w2))
    /\ frees (trace w') = frees (trace w2).
Proof.
  intros Hclear Hexec Hpage Hnum Hcalloc.
  unfold scsi_mode_sense_element.
  unfold bind at 1. rewrite Hclear.
  unfold bind at 1. rewrite Hexec.
  cbn [fst snd Z.eqb negb from_option id]. rewrite Hpage.
  destruct (Z.ltb_spec 0 (page_num_storage buf page_offset)); [|lia].
  unfold calloc. run_step. rewrite Hcalloc. cbn [negb].
  eexists _, _. split; [reflexivity|].
  cbn [trace emit count_allocation]. rewrite callocs_app, frees_app.
  cbn [callocs frees]. repeat split; try reflexivity; lia.
Qed.

Lemma mode_sense_allocation_failure_witness :
  exists m' w',
    scsi_mode_sense_element out_of_memory (Some kernel_conn)
                            (Some (mkElementMap 0 (Some [0x10; 0x11]) 2 0 0 false))
                            fresh_world
    = Ok (-1, Some m') w'
    /\ transport m' = 0x00E0 /\ drive m' = 0x0100
    /\ slots m' = None /\ slot_count m' = 2.
Proof.
  destruct (mode_sense_allocation_failure out_of_memory kernel_conn
              (mkElementMap 0 (Some [0x10; 0x11]) 2 0 0 false) fresh_world
              (emit (EvExecuteTaskSync 1 test_unit_ready_cdb)
                    (count_command fresh_world))
              (emit (EvExecuteTaskSync 1 mode_sense_cdb)
                    (count_command
                       (emit (EvExecuteTaskSync 1 test_unit_ready_cdb)
                             (count_command fresh_world))))
              (element_page 0 0 0 5 ++ replicate 228 x00)%list 8
              eq_refl eq_refl eq_refl eq_refl eq_refl)
    as (m' & w' & Hrun & Ht & Hd & Hs & Hc & _).
  exists m', w'. split; [exact Hrun|]. rewrite Ht, Hd, Hs, Hc.
  repeat split; reflexivity.
Defined.

(** The paths of [scsi_mode_sense_element] behind its [NULL] checks: no
    allocation is attempted and the slot fields stay; the allocation
    fails; or it succeeds and the map gets the new array. *)
Lemma mode_sense_paths env (c : ChangerConnection) (m : ElementMap) (w : World) :
  usable (Some c) = true ->
  exists w1 r buf w2 rc m' w',
    clear_unit_attention env 3 (Some c) w = Ok tt w1
    /\ changer_execute_cdb env (Some c) mode_sense_cdb 10
                           (Some (replicate 256 x00)) 256 DIR_READ 10000 w1
       = Ok (r, buf) w2
    /\ scsi_mode_sense_element env (Some c) (Some m) w = Ok (rc, Some m') w'
    /\ (rc = 0 \/ rc = -1)
    /\ ((w' = w2 /\ slots m' = slots m /\ slot_count m' = slot_count m)
        \/ (exists n, w' = emit (EvCalloc n) (count_allocation w2))
           /\ ((calloc_ok env (allocations w2) = false /\ rc = -1
                /\ slots m' = None /\ slot_count m' = slot_count m)
               \/ (calloc_ok env (allocations w2) = true /\ rc = 0
                   /\ exists arr, slots m' = Some arr))).
Proof.
  intros Hu.
  destruct (clear_unit_attention_effect env (Some c) 3 Hu w) as (w1 & Hclear & _).
  destruct (changer_execute_cdb_returns env (Some c) mode_sense_cdb 10
              (Some (replicate 256 x00)) 256 DIR_READ 10000 w1 Hu)
    as (r & buf & w2 & Hexec & Hr).
  exists w1, r, buf, w2.
  unfold scsi_mode_sense_element.
  unfold bind at 1. rewrite Hclear.
  unfold bind at 1. rewrite Hexec. cbn [fst snd].
  destruct Hr as [-> | ->]; cbn [Z.eqb negb].
  2:{ eexists _, _, _. split; [reflexivity|]. split; [reflexivity|].
      split; [reflexivity|]. split; [lia|]. left. repeat split; reflexivity. }
  destruct (locate_element_page (default [] buf)) as [po|].
  2:{ eexists _, _, _. split; [reflexivity|]. split; [reflexivity|].
      split; [reflexivity|]. split; [lia|]. left. repeat split; reflexivity. }
  destruct (Z.ltb_spec 0 (page_num_storage (default [] buf) po)).
  - unfold calloc. run_step.
    destruct (calloc_ok env (allocations w2)) eqn:Hcalloc; cbn [negb].
    + eexists _, _, _. split; [reflexivity|]. split; [reflexivity|].
      split; [reflexivity|]. split; [lia|]. right. split; [eexists; reflexivity|].
      right. split; [reflexivity|]. split; [reflexivity|].
      rewrite (proj1 (store_ie_keeps_slots _ _ _)). eexists. reflexivity.
    + eexists _, _, _. split; [reflexivity|]. split; [reflexivity|].
      split; [reflexivity|]. split; [lia|]. right. split; [eexists; reflexivity|].
      left. repeat split; reflexivity.
  - eexists _, _, _. split; [reflexivity|]. split; [reflexivity|].
    split; [reflexivity|]. split; [lia|]. left.
    destruct (store_ie_keeps_slots (page_first_ie (default [] buf) po)
                (page_num_ie (default [] buf) po)
                (store_addresses (default [] buf) po m)) as [Hs Hc].
    rewrite Hs, Hc. repeat split; reflexivity.
Qed.

Lemma mode_sense_accounting env (c : ChangerConnection) (m : ElementMap) (w : World) :
  usable (Some c) = true ->
  exists rc m' w',
    scsi_mode_sense_element env (Some c) (Some m) w = Ok (rc, Some m') w'
    /\ (rc = 0 \/ rc = -1)
    /\ (commands w' <= commands w + 4)%nat
    /\ (sleeps (trace w') <= sleeps (trace w) + 3)%nat
    /\ (callocs (trace w') <= callocs (trace w) + 1)%nat
    /\ frees (trace w') = frees (trace w).
Proof.
  intros Hu.
  destruct (mode_sense_paths env c m w Hu)
    as (w1 & r & buf & w2 & rc & m' & w' & Hclear & Hexec & Hrun & Hrc & Hcase).
  exists rc, m', w'. split; [exact Hrun|]. split; [exact Hrc|].
  destruct (clear_unit_attention_effect env (Some c) 3 Hu w)
    as (w1' & Hclear' & Ha1 & Hf1 & Hc1 & Hn1 & Hs1).
  rewrite Hclear in Hclear'. injection Hclear' as <-.
  destruct (changer_execute_cdb_effect _ _ _ _ _ _ _ _ _ _ _ _ Hexec)
    as (Ha2 & Hf2 & Hc2 & Hs2 & Hn2 & _).
  destruct Hcase as [(-> & _) | ([n ->] & _)].
  - repeat split; lia.
  - cbn [commands trace emit count_allocation].
    rewrite sleeps_app, callocs_app, frees_app. cbn [sleeps callocs frees].
    repeat split; lia.
Qed.

(** X11: one call of [scsi_mode_sense_element] submits at most four
    commands (up to three TEST UNIT READY and one MODE SENSE), sleeps at
    most three times, calls [calloc] at most once and never calls
    [free]. *)
Theorem mode_sense_effort env (c : ChangerConnection) (m : ElementMap) (w : World) :
  usable (Some c) = true ->
  exists rc m' w',
    scsi_mode_sense_element env (Some c) (Some m) w = Ok (rc, Some m') w'
    /\ (rc = 0 \/ rc = -1)
    /\ (commands w' <= commands w + 4)%nat
    /\ (sleeps (trace w') <= sleeps (trace w) + 3)%nat
    /\ (callocs (trace w') <= callocs (trace w) + 1)%nat
    /\ frees (trace w') = frees (trace w).
Proof. apply mode_sense_accounting. Qed.

Lemma mode_sense_effort_witness :
  exists rc m' w',
    scsi_mode_sense_element source_empty_changer (Some kernel_conn)
                            (Some empty_map) fresh_world
    = Ok (rc, Some m') w'
    /\ (rc = 0 \/ rc = -1)
    /\ (commands w' <= 4)%nat
    /\ (sleeps (trace w') <= 3)%nat
    /\ (callocs (trace w') <= 1)%nat
    /\ frees (trace w') = 0%nat.
Proof.
  exact (mode_sense_effort source_empty_changer kernel_conn empty_map fresh_world
           eq_refl).
Defined.

(** X12: on a connection that is not connected [scsi_mode_sense_element]
    still runs its retry loop: it sleeps three times 100 ms, submits
    nothing, and returns -1 with the map untouched. *)
Theorem mode_sense_on_disconnected env (c : ChangerConnection) (m : ElementMap)
    (w : World) :
  connected c = false ->
  exists w',
    scsi_mode_sense_element env (Some c) (Some m) w = Ok (-1, Some m) w'
    /\ trace w' = (trace w ++ [EvUsleep 100000; EvUsleep 100000; EvUsleep 100000])%list
    /\ commands w' = commands w
    /\ allocations w' = allocations w
    /\ scsi_get_last_sense w' = scsi_get_last_sense w.
Proof.
  intros Hc. unfold scsi_mode_sense_element.
  unfold bind at 1. rewrite (clear_unit_attention_disconnected env c 3 Hc).
  unfold changer_execute_cdb. rewrite Hc. run_step. cbn [negb fst Z.eqb].
  eexists. split; [reflexivity|]. repeat split; reflexivity.
Qed.

Lemma mode_sense_on_disconnected_witness :
  exists w',
    scsi_mode_sense_element (answering (element_page 0 0 0 5))
      (Some (set_connected false kernel_conn)) (Some empty_map) fresh_world
    = Ok (-1, Some empty_map) w'
    /\ trace w' = [EvUsleep 100000; EvUsleep 100000; EvUsleep 100000]
    /\ commands w' = 0%nat.
Proof.
  destruct (mode_sense_on_disconnected (answering (element_page 0 0 0 5))
              (set_connected false kernel_conn) empty_map fresh_world eq_refl)
    as (w' & Hrun & Ht & Hn & _).
  exists w'. split; [exact Hrun|]. split; [exact Ht | exact Hn].
Defined.

(** ** [element_map_free] *)

Lemma element_map_free_effect (m : ElementMap) (w : World) :
  exists m1 w1,
    element_map_free (Some m) w = Ok (Some m1) w1
    /\ slots m1 = None /\ slot_count m1 = 0
    /\ transport m1 = transport m /\ drive m1 = drive m
    /\ ie m1 = ie m /\ has_ie m1 = has_ie m
    /\ frees (trace w1)
       = (frees (trace w) + match slots m with Some _ => 1 | None => 0 end)%nat
    /\ element_map_free (Some m1) w1 = Ok (Some m1) w1.
Proof.
  unfold element_map_free, free. run_step.
  destruct (slots m) as [arr|]; run_step;
    eexists _, _; (split; [reflexivity|]);
    cbn [slots slot_count transport drive ie has_ie trace emit];
    rewrite ?frees_app; cbn [frees];
    repeat split; try reflexivity; lia.
Qed.

(** X13: [element_map_free] clears the slot array and the slot count and
    keeps the addresses; it frees exactly when the map holds an array, so
    a second call on the same map frees nothing and changes nothing. *)
Theorem element_map_free_once (m : ElementMap) (w : World) :
  exists m1 w1,
    element_map_free (Some m) w = Ok (Some m1) w1
    /\ slots m1 = None /\ slot_count m1 = 0
    /\ transport m1 = transport m /\ drive m1 = drive m
    /\ ie m1 = ie m /\ has_ie m1 = has_ie m
    /\ frees (trace w1)
       = (frees (trace w) + match slots m with Some _ => 1 | None => 0 end)%nat
    /\ element_map_free (Some m1) w1 = Ok (Some m1) w1.
Proof. apply element_map_free_effect. Qed.

(** X14: a map that starts without slot array, filled by
    [scsi_mode_sense_element] and then released by [element_map_free],
    ends without array and with a slot count of zero, and the array was
    freed exactly when its allocation had succeeded: nothing leaks and
    nothing is freed that was not allocated. *)
Theorem mode_sense_then_free_balanced env (c : ChangerConnection) (m : ElementMap)
    (w : World) :
  usable (Some c) = true ->
  slots m = None ->
  exists rc m' w' m'' w'',
    scsi_mode_sense_element env (Some c) (Some m) w = Ok (rc, Some m') w'
    /\ element_map_free (Some m') w' = Ok (Some m'') w''
    /\ slots m'' = None /\ slot_count m'' = 0
    /\ frees (trace w'')
       = (frees (trace w) + match slots m' with Some _ => 1 | None => 0 end)%nat
    /\ (allocations w'' <= allocations w + 1)%nat
    /\ (match slots m' with Some _ => True | None => False end
        <-> rc = 0 /\ allocations w'' = S (allocations w)).
Proof.
  intros Hu Hm.
  destruct (mode_sense_accounting env c m w Hu)
    as (rc0 & m0 & w0 & Hrun0 & _ & _ & _ & _ & Hfrees).
  destruct (mode_sense_paths env c m w Hu)
    as (w1 & r & buf & w2 & rc & m' & w' & Hclear & Hexec & Hrun & Hrc & Hcase).
  rewrite Hrun in Hrun0. injection Hrun0 as <- <- <-.
  destruct (element_map_free_effect m' w')
    as (m'' & w'' & Hfree & Hs & Hc & _ & _ & _ & _ & Hf & _).
  exists rc, m', w', m'', w''.
  split; [exact Hrun|]. split; [exact Hfree|]. split; [exact Hs|]. split; [exact Hc|].
  split; [lia|].
  assert (Hw'' : allocations w'' = allocations w').
  { revert Hfree. unfold element_map_free, free. run_step.
    destruct (slots m'); run_step; intros [= _ <-]; reflexivity. }
  destruct (clear_unit_attention_effect env (Some c) 3 Hu w)
    as (w1' & Hclear' & Ha1 & _).
  rewrite Hclear in Hclear'. injection Hclear' as <-.
  destruct (changer_execute_cdb_effect _ _ _ _ _ _ _ _ _ _ _ _ Hexec) as (Ha2 & _).
  destruct Hcase as [(-> & Hsl & _) | ([n ->] & [(_ & -> & Hsl & _) | (_ & -> & arr & Hsl)])];
    rewrite Hw''; cbn [allocations emit count_allocation]; rewrite Hsl, ?Hm;
    (split; [lia|]); split; try tauto; try lia; intros [? ?]; lia.
Qed.

Lemma mode_sense_then_free_balanced_witness :
  exists rc m' w' m'' w'',
    scsi_mode_sense_element (answering (element_page 0 0 0 5)) (Some kernel_conn)
                            (Some empty_map) fresh_world
    = Ok (rc, Some m') w'
    /\ element_map_free (Some m') w' = Ok (Some m'') w''
    /\ slots m'' = None /\ slot_count m'' = 0
    /\ callocs (trace w'') = 1%nat /\ frees (trace w'') = 1%nat.
Proof.
  destruct (mode_sense_then_free_balanced (answering (element_page 0 0 0 5))
              kernel_conn empty_map fresh_world eq_refl eq_refl)
    as (rc & m' & w' & m'' & w'' & Hrun & Hfree & Hs & Hc & _).
  exists rc, m', w', m'', w''.
  split; [exact Hrun|]. split; [exact Hfree|]. split; [exact Hs|]. split; [exact Hc|].
  vm_compute in Hrun. injection Hrun as <- <- <-.
  vm_compute in Hfree. injection Hfree as <- <-.
  split; reflexivity.
Defined.

(** ** Discovery and attach *)

Lemma first_service_spec (test : Z -> bool) (l : list positive) :
  (first_service test l = 0 /\ forall s, In s l -> test (Z.pos s) = false)
  \/ exists pre s post,
       l = (pre ++ s :: post)%list
       /\ first_service test l = Z.pos s
       /\ test (Z.pos s) = true
       /\ forall x, In x pre -> test (Z.pos x) = false.
Proof.
  induction l as [|a l IH]; cbn [first_service].
  - left. split; [reflexivity | intros s []].
  - destruct (test (Z.pos a)) eqn:Ha.
    + right. exists [], a, l. repeat split; auto. intros x [].
    + destruct IH as [[H0 Hall] | (pre & s & post & -> & Hf & Hs & Hpre)].
      * left. split; [exact H0|]. intros s [<- | Hin]; auto.
      * right. exists (a :: pre), s, post. repeat split; auto.
        intros x [<- | Hin]; auto.
Qed.

Lemma first_service_nonneg test l : 0 <= first_service test l.
Proof.
  destruct (first_service_spec test l) as [[-> _] | (_ & s & _ & _ & -> & _)]; lia.
Qed.

Lemma find_scsi_changer_nonneg io : 0 <= find_scsi_changer io.
Proof.
  unfold find_scsi_changer. destruct (negb _); [lia|].
  destruct (io_matching_services _ _); [apply first_service_nonneg | lia].
Qed.

Lemma find_sbp2_changer_nonneg io : 0 <= find_sbp2_changer io.
Proof.
  unfold find_sbp2_changer. destruct (negb _); [lia|].
  destruct (io_matching_services _ _); [apply first_service_nonneg | lia].
Qed.

(** X15: [find_scsi_changer] returns the first registered peripheral nub
    whose "Peripheral Device Type" is the number 8: no nub before it in
    the iteration has that type, and it returns no service exactly when
    the class cannot be matched, the query fails, or no nub has type 8. *)
Theorem find_scsi_changer_first_of_type_8 (io : IOKit) :
  let type_of s := cfnumber_to_int (io_property io (Z.pos s) "Peripheral Device Type") in
  (find_scsi_changer io = 0
   /\ (io_service_matching io "IOSCSIPeripheralDeviceNub" = false
       \/ io_matching_services io "IOSCSIPeripheralDeviceNub" = None
       \/ exists l, io_matching_services io "IOSCSIPeripheralDeviceNub" = Some l
                    /\ forall s, In s l -> type_of s <> 8))
  \/ exists pre s post,
       io_service_matching io "IOSCSIPeripheralDeviceNub" = true
       /\ io_matching_services io "IOSCSIPeripheralDeviceNub"
          = Some (pre ++ s :: post)%list
       /\ find_scsi_changer io = Z.pos s
       /\ type_of s = 8
       /\ forall x, In x pre -> type_of x <> 8.
Proof.
  cbv zeta. unfold find_scsi_changer.
  destruct (io_service_matching io "IOSCSIPeripheralDeviceNub"); cbn [negb];
    [|left; split; [reflexivity | left; reflexivity]].
  destruct (io_matching_services io "IOSCSIPeripheralDeviceNub") as [l|];
    [|left; split; [reflexivity | right; left; reflexivity]].
  destruct (first_service_spec (is_changer_nub io) l)
    as [[H0 Hall] | (pre & s & post & -> & Hf & Hs & Hpre)].
  - left. split; [exact H0|]. right. right. exists l. split; [reflexivity|].
    intros s Hin. specialize (Hall s Hin). unfold is_changer_nub in Hall.
    apply Z.eqb_neq. exact Hall.
  - right. exists pre, s, post. split; [reflexivity|]. split; [reflexivity|].
    split; [exact Hf|]. unfold is_changer_nub in *.
    split; [apply Z.eqb_eq; exact Hs|].
    intros x Hin. apply Z.eqb_neq. apply Hpre. exact Hin.
Qed.

(** What [connect_scsitask] leaves behind. *)
Lemma connect_scsitask_post io (conn : ChangerConnection) (nub : Z) :
  let r := connect_scsitask io conn nub in
  service (snd r) = service conn /\ lun (snd r) = lun conn
  /\ login (snd r) = login conn
  /\ ((fst r = 0 /\ backend (snd r) = BACKEND_SCSITASK /\ connected (snd r) = true
       /\ exists dev, scsi_device (snd r) = Some dev)
      \/ (fst r = -1 /\ backend (snd r) = backend conn
          /\ connected (snd r) = connected conn
          /\ has_exclusive (snd r) = has_exclusive conn
          /\ (scsi_device (snd r) = scsi_device conn \/ scsi_device (snd r) = None))).
Proof.
  cbv zeta. unfold connect_scsitask.
  match goal with |- context [if ?t =? 0 then (-1, conn) else _] => set (ts := t) end.
  destruct (ts =? 0); [repeat split; right; repeat split; auto|].
  destruct (io_create_plugin io ts BACKEND_SCSITASK) as [plugin|];
    [|repeat split; right; repeat split; auto].
  cbn [scsi_device set_scsi_device].
  destruct (io_query_interface io plugin) as [dev|];
    [|repeat split; right; repeat split; auto].
  destruct (io_obtain_exclusive io dev); cbn [fst snd service lun login backend
    connected scsi_device has_exclusive set_scsi_device];
    repeat split; left; repeat split; eexists; reflexivity.
Qed.

(** What [connect_sbp2] leaves behind. *)
Lemma connect_sbp2_post io (conn : ChangerConnection) :
  let r := connect_sbp2 io conn in
  scsi_device (snd r) = scsi_device conn
  /\ has_exclusive (snd r) = has_exclusive conn
  /\ (service (snd r) = service conn \/ 0 < service (snd r))
  /\ ((fst r = 0 /\ backend (snd r) = BACKEND_SBP2 /\ connected (snd r) = true
       /\ 0 < service (snd r)
       /\ exists l lg, lun (snd r) = Some l /\ login (snd r) = Some lg)
      \/ (fst r = -1 /\ backend (snd r) = backend conn
          /\ connected (snd r) = connected conn
          /\ (lun (snd r) = lun conn \/ lun (snd r) = None)
          /\ (login (snd r) = login conn \/ login (snd r) = None))).
Proof.
  cbv zeta. unfold connect_sbp2.
  pose proof (find_sbp2_changer_nonneg io) as Hnn.
  destruct (Z.eqb_spec (find_sbp2_changer io) 0) as [H0|Hpos].
  { repeat split; auto. right. repeat split; auto. }
  assert (Hsvc : 0 < find_sbp2_changer io) by lia.
  destruct (io_create_plugin io (find_sbp2_changer io) BACKEND_SBP2) as [plugin|];
    [|cbn [fst snd]; repeat split; auto; right; repeat split; auto].
  cbn [lun set_lun set_service].
  destruct (io_query_interface io plugin) as [l|];
    [|cbn [fst snd scsi_device has_exclusive service backend connected lun login];
      repeat split; auto; right; repeat split; auto].
  destruct (io_lun_open io l); cbn [negb];
    [|cbn [fst snd scsi_device has_exclusive service backend connected lun login
           set_lun];
      repeat split; auto; right; repeat split; auto].
  destruct (io_create_login io l) as [lg|];
    [|cbn [fst snd scsi_device has_exclusive service backend connected lun login
           set_lun];
      repeat split; auto; right; repeat split; auto].
  destruct (negb (io_submit_login io lg) || negb (io_login_done io lg)
            || negb (io_login_status_ok io lg));
    cbn [fst snd scsi_device has_exclusive service backend connected lun login
         set_lun set_login];
    repeat split; auto.
  - right. repeat split; auto.
  - left. repeat split; auto. exists l, lg. split; reflexivity.
Qed.

(** The two outcomes of [changer_connect]. *)
Lemma connect_establishes_connection_aux (io : IOKit) (c0 : ChangerConnection) :
  exists rc c,
    changer_connect io (Some c0) = (rc, Some c)
    /\ ((rc = 0 /\ connected c = true /\ handles_present c = true
         /\ 0 < service c
         /\ ((backend c = BACKEND_SCSITASK
              /\ (exists dev, scsi_device c = Some dev)
              /\ lun c = None /\ login c = None)
             \/ (backend c = BACKEND_SBP2
                 /\ (exists l lg, lun c = Some l /\ login c = Some lg)
                 /\ scsi_device c = None /\ has_exclusive c = false)))
        \/ (rc = -1 /\ connected c = false /\ backend c = BACKEND_NONE
            /\ scsi_device c = None /\ lun c = None /\ login c = None
            /\ has_exclusive c = false /\ 0 <= service c)).
Proof.
  unfold changer_connect.
  pose proof (find_scsi_changer_nonneg io) as Hnn.
  set (nub := find_scsi_changer io) in *.
  set (attempt := if negb (nub =? 0)
                  then connect_scsitask io (set_service nub zeroed_connection) nub
                  else (-1, zeroed_connection)).
  assert (Hattempt :
            (fst attempt = 0 /\ backend (snd attempt) = BACKEND_SCSITASK
             /\ connected (snd attempt) = true /\ 0 < service (snd attempt)
             /\ (exists dev, scsi_device (snd attempt) = Some dev)
             /\ lun (snd attempt) = None /\ login (snd attempt) = None)
            \/ (fst attempt = -1 /\ backend (snd attempt) = BACKEND_NONE
                /\ connected (snd attempt) = false
                /\ has_exclusive (snd attempt) = false
                /\ scsi_device (snd attempt) = None
                /\ lun (snd attempt) = None /\ login (snd attempt) = None
                /\ 0 <= service (snd attempt))).
  { subst attempt. destruct (Z.eqb_spec nub 0) as [H0|Hpos]; cbn [negb].
    - right. repeat split; cbn; auto. lia.
    - destruct (connect_scsitask_post io (set_service nub zeroed_connection) nub)
        as (Hs & Hl & Hlg & [(Hrc & Hb & Hc & Hd) | (Hrc & Hb & Hc & Hx & Hd)]);
        cbn [service lun login backend connected has_exclusive scsi_device
             set_service zeroed_connection] in *.
      + left. rewrite Hs. repeat split; auto. lia.
      + right. rewrite Hs. repeat split; auto; try lia; destruct Hd; auto. }
  destruct Hattempt as [(Hrc & Hb & Hc & Hs & [dev Hd] & Hl & Hlg)
                       | (Hrc & Hb & Hc & Hx & Hd & Hl & Hlg & Hs)].
  - rewrite Hrc. cbn [Z.eqb].
    exists 0, (snd attempt). split; [reflexivity|].
    left. split; [reflexivity|]. split; [exact Hc|].
    split; [unfold handles_present; rewrite Hc, Hb, Hd; reflexivity|].
    split; [exact Hs|]. left. repeat split; eauto.
  - rewrite Hrc. cbn [Z.eqb].
    destruct (connect_sbp2_post io (snd attempt))
      as (Hd' & Hx' & Hs' & [(Hrc' & Hb' & Hc' & Hpos' & l & lg & Hl' & Hlg')
                            | (Hrc' & Hb' & Hc' & Hl' & Hlg')]).
    + rewrite Hrc'. cbn [Z.eqb].
      exists 0, (snd (connect_sbp2 io (snd attempt))).
      split; [reflexivity|].
      left. split; [reflexivity|]. split; [exact Hc'|].
      split; [unfold handles_present; rewrite Hc', Hb', Hlg'; reflexivity|].
      split; [exact Hpos'|]. right. split; [exact Hb'|].
      split; [exists l, lg; split; assumption|].
      split; congruence.
    + rewrite Hrc'. cbn [Z.eqb].
      exists (-1), (snd (connect_sbp2 io (snd attempt))).
      split; [reflexivity|].
      right. split; [reflexivity|].
      repeat split; try congruence.
      * destruct Hl'; congruence.
      * destruct Hlg'; congruence.
      * destruct Hs'; lia.
Qed.

(** X16: [changer_connect] on a non-[NULL] structure either returns 0
    with a connection that is connected, has a service handle and holds
    the interface of exactly one backend (the SCSI-task device, or the
    SBP-2 LUN and login), or returns -1 with a connection that is not
    connected, has no backend and holds no interface; what the structure
    held before the call does not matter. *)
Theorem connect_establishes_connection (io : IOKit) (c0 : ChangerConnection) :
  exists rc c,
    changer_connect io (Some c0) = (rc, Some c)
    /\ changer_connect io (Some c0) = changer_connect io (Some zeroed_connection)
    /\ ((rc = 0 /\ connected c = true /\ handles_present c = true
         /\ 0 < service c
         /\ ((backend c = BACKEND_SCSITASK
              /\ (exists dev, scsi_device c = Some dev)
              /\ lun c = None /\ login c = None)
             \/ (backend c = BACKEND_SBP2
                 /\ (exists l lg, lun c = Some l /\ login c = Some lg)
                 /\ scsi_device c = None /\ has_exclusive c = false)))
        \/ (rc = -1 /\ connected c = false /\ backend c = BACKEND_NONE
            /\ scsi_device c = None /\ lun c = None /\ login c = None
            /\ has_exclusive c = false /\ 0 <= service c)).
Proof.
  destruct (connect_establishes_connection_aux io c0) as (rc & c & Hconn & Hcase).
  exists rc, c. split; [exact Hconn|]. split; [reflexivity | exact Hcase].
Qed.

Example connect_falls_back_to_sbp2 :
  changer_connect firewire_only (Some zeroed_connection)
  = (0, Some (mkChangerConnection BACKEND_SBP2 6 None false
                                  (Some 206) (Some 306) true)).
Proof. reflexivity. Qed.

Example connect_without_changer :
  changer_connect empty_iokit (Some kernel_conn) = (-1, Some zeroed_connection).
Proof. reflexivity. Qed.

(** X17: [changer_disconnect] after [changer_connect] gives back what the
    connection holds, each handle once: after a kernel attach the
    exclusive access (if obtained), the task device and the service;
    after an SBP-2 attach the login (logged out first), the LUN and the
    service; after a failed connect only the service handle that the
    attempts left in the structure, if any.  Afterwards the connection
    holds no handle. *)
Theorem connect_then_disconnect_releases (io : IOKit) (c0 : ChangerConnection)
    (w : World) :
  exists rc c c' w',
    changer_connect io (Some c0) = (rc, Some c)
    /\ changer_disconnect (Some c) w = Ok (Some c') w'
    /\ service c' = 0 /\ scsi_device c' = None /\ lun c' = None /\ login c' = None
    /\ connected c' = false
    /\ ((rc = 0 /\ backend c = BACKEND_SCSITASK
         /\ exists dev,
              scsi_device c = Some dev
              /\ trace w'
                 = (trace w
                    ++ (if has_exclusive c then [EvReleaseExclusiveAccess dev] else [])
                    ++ [EvReleaseScsiDevice dev; EvIOObjectRelease (service c)])%list)
        \/ (rc = 0 /\ backend c = BACKEND_SBP2
            /\ exists l lg,
                 lun c = Some l /\ login c = Some lg
                 /\ trace w'
                    = (trace w
                       ++ [EvSubmitLogout lg; EvReleaseLogin lg;
                           EvRemoveCallbackDispatcher l; EvCloseLun l; EvReleaseLun l;
                           EvIOObjectRelease (service c)])%list)
        \/ (rc = -1
            /\ trace w'
               = (trace w
                  ++ if service c =? 0 then [] else [EvIOObjectRelease (service c)])%list)).
Proof.
  destruct (connect_establishes_connection_aux io c0) as (rc & c & Hconn & Hcase).
  exists rc, c.
  destruct c as [b svc dev ex l lg cn].
  cbn [connected backend scsi_device lun login has_exclusive service handles_present]
    in Hcase.
  unfold changer_disconnect, disconnect_scsitask, disconnect_sbp2. run.
  destruct Hcase as [(-> & -> & _ & Hs & [(-> & [d ->] & -> & ->)
                                         | (-> & (l' & lg' & -> & ->) & -> & ->)])
                    | (-> & -> & -> & -> & -> & -> & -> & Hs)].
  - destruct ex; simpl; destruct (Z.eqb_spec svc 0); try lia; simpl;
      eexists _, _; (split; [exact Hconn|]); (split; [reflexivity|]);
      cbn; repeat split; left; (split; [reflexivity|]); (split; [reflexivity|]);
      exists d; split; try reflexivity; rewrite <- ?app_assoc; reflexivity.
  - simpl. destruct (Z.eqb_spec svc 0); [lia|]. simpl.
    eexists _, _. split; [exact Hconn|]. split; [reflexivity|].
    cbn. repeat split. right. left. split; [reflexivity|]. split; [reflexivity|].
    exists l', lg'. repeat split. rewrite <- !app_assoc. reflexivity.
  - simpl. destruct (Z.eqb_spec svc 0) as [->|Hne]; simpl;
      eexists _, _; (split; [exact Hconn|]); (split; [reflexivity|]);
      cbn; repeat split; right; right; (split; [reflexivity|]);
      rewrite ?app_nil_r; reflexivity.
Qed.

(** ** Waiting for a disc *)

Lemma wait_loop_spec (regs : nat -> Registry) (timeout : Z) :
  forall fuel elapsed polls,
    (Z.to_nat (timeout - elapsed) < fuel)%nat ->
    let r := BridgingDisc.wait_loop fuel regs timeout elapsed polls in
    (fst r = 0
     /\ (polls < snd r)%nat
     /\ Z.of_nat (snd r - polls) <= timeout - elapsed
     /\ BridgingDisc.mount_is_disc_present (regs (snd r - 1)%nat) = true
     /\ forall k, (polls <= k < snd r - 1)%nat ->
                  BridgingDisc.mount_is_disc_present (regs k) = false)
    \/ (fst r = -1
        /\ (polls <= snd r)%nat
        /\ Z.of_nat (snd r - polls) = Z.max 0 (timeout - elapsed)
        /\ forall k, (polls <= k < snd r)%nat ->
                     BridgingDisc.mount_is_disc_present (regs k) = false).
Proof.
  induction fuel as [|fuel IH]; intros elapsed polls Hfuel; [lia|].
  cbn [BridgingDisc.wait_loop].
  destruct (Z.ltb_spec elapsed timeout) as [Hlt|Hge].
  - destruct (BridgingDisc.mount_is_disc_present (regs polls)) eqn:Hp.
    + left. cbn [fst snd]. replace (S polls - 1)%nat with polls by lia.
      repeat split; try lia; try assumption.
    + destruct (IH (elapsed + 1) (S polls) ltac:(lia))
        as [(Hrc & Hlo & Hhi & Hfound & Hnone) | (Hrc & Hlo & Hhi & Hnone)].
      * left. repeat split; try assumption; try lia.
        intros k Hk. destruct (Nat.eq_dec k polls) as [->|Hne]; [exact Hp|].
        apply Hnone. lia.
      * right. repeat split; try assumption; try lia.
        intros k Hk. destruct (Nat.eq_dec k polls) as [->|Hne]; [exact Hp|].
        apply Hnone. lia.
  - right. cbn [fst snd]. repeat split; try lia.
Qed.

(** X18: the bridging [mount_wait_for_disc] polls the locator once per
    second of its timeout: it returns 0 at the first poll that finds a
    disc, provided that poll is among the first [timeout] ones, and -1
    after exactly [timeout] polls without a disc; with a timeout of zero
    or less it returns -1 without looking. *)
Theorem wait_for_disc_polls (regs : nat -> Registry) (timeout : Z) :
  let r := BridgingDisc.mount_wait_for_disc regs timeout in
  (fst r = 0
   /\ (0 < snd r)%nat /\ Z.of_nat (snd r) <= timeout
   /\ BridgingDisc.mount_is_disc_present (regs (snd r - 1)%nat) = true
   /\ forall k, (k < snd r - 1)%nat ->
                BridgingDisc.mount_is_disc_present (regs k) = false)
  \/ (fst r = -1
      /\ Z.of_nat (snd r) = Z.max 0 timeout
      /\ forall k, (k < snd r)%nat ->
                   BridgingDisc.mount_is_disc_present (regs k) = false).
Proof.
  cbv zeta. unfold BridgingDisc.mount_wait_for_disc.
  destruct (wait_loop_spec regs timeout (S (Z.to_nat timeout)) 0 0 ltac:(lia))
    as [(Hrc & Hlo & Hhi & Hfound & Hnone) | (Hrc & Hlo & Hhi & Hnone)].
  - left. rewrite Nat.sub_0_r, Z.sub_0_r in Hhi.
    repeat split; try assumption. intros k Hk. apply Hnone. lia.
  - right. rewrite Nat.sub_0_r, Z.sub_0_r in Hhi.
    repeat split; try assumption. intros k Hk. apply Hnone. lia.
Qed.

Example wait_for_disc_arrival :
  BridgingDisc.mount_wait_for_disc disc_arrives 30 = (0, 3%nat)
  /\ BridgingDisc.mount_wait_for_disc disc_arrives 2 = (-1, 2%nat)
  /\ BridgingDisc.mount_wait_for_disc (fun _ => disc_arrives 5) 0 = (-1, 0%nat).
Proof. repeat split; reflexivity. Qed.

(** ** The locator, library against bridging copy *)

Lemma cstring_fits_larger (s : string) (a b : Z) :
  a <= b -> CFStringGetCString s a = true -> CFStringGetCString s b = true.
Proof.
  unfold CFStringGetCString. intros Hab H.
  apply Z.leb_le in H. apply Z.leb_le. lia.
Qed.

(** X19: every disc the library locator finds, the bridging locator finds
    under the same name; the name the library returns is shorter than 64
    bytes and the one the bridging copy returns is shorter than 128. *)
Theorem library_locator_refined_by_bridging (reg : Registry) (s : string) :
  snd (CChangerLibMount.mount_find_dvd_bsd_name reg) = Some s ->
  snd (BridgingMount.mount_find_dvd_bsd_name reg) = Some s
  /\ Z.of_nat (String.length s) < 64.
Proof.
  unfold CChangerLibMount.mount_find_dvd_bsd_name, CChangerLibMount.first_instance,
    BridgingMount.mount_find_dvd_bsd_name, BridgingMount.try_class.
  assert (Hfit : forall x, CFStringGetCString x 64 = true ->
                           CFStringGetCString x 128 = true
                           /\ Z.of_nat (String.length x) < 64).
  { intros x Hx. split; [apply (cstring_fits_larger x 64 128); [lia | exact Hx]|].
    unfold CFStringGetCString in Hx. apply Z.leb_le in Hx. lia. }
  destruct (service_matching reg kIODVDMediaClass),
           (service_matching reg kIOCDMediaClass);
    destruct (matching_services reg kIODVDMediaClass) as [[|e1 l1]|];
    destruct (matching_services reg kIOCDMediaClass) as [[|e2 l2]|];
    cbn [head fst snd app];
    repeat match goal with
           | |- context [bsd_name_property ?e] =>
             destruct (bsd_name_property e) as [?x|]
           end;
    repeat match goal with
           | |- context [CFStringGetCString ?x 64] =>
             let H := fresh "H64" in
             destruct (CFStringGetCString x 64) eqn:H;
             [destruct (Hfit x H) as [-> ?]|]
           end;
    cbn [fst snd]; try discriminate;
    try (intros [= <-]; split; [reflexivity | assumption]).
Qed.

Lemma library_locator_refined_by_bridging_witness :
  let reg := mkRegistry (fun _ => true)
                        (fun c => match c with
                                  | kIOCDMediaClass =>
                                    Some [mkRegistryEntry (Some "disk2")]
                                  | _ => Some []
                                  end) in
  snd (BridgingMount.mount_find_dvd_bsd_name reg) = Some "disk2"
  /\ Z.of_nat (String.length "disk2") < 64.
Proof.
  intros reg.
  exact (library_locator_refined_by_bridging reg "disk2" eq_refl).
Defined.

(** ** Device names *)

Lemma substring_whole (s : string) (n : nat) :
  (String.length s <= n)%nat -> substring 0 n s = s.
Proof.
  revert n. induction s as [|c s IH]; intros n Hn.
  - destruct n; reflexivity.
  - destruct n; cbn [String.length] in Hn; [lia|].
    cbn [substring]. rewrite IH by lia. reflexivity.
Qed.

Lemma strip_dev_prefixed (n : string) :
  CChangerLibMount.strip_dev ("/dev/" ++ n) = n.
Proof.
  unfold CChangerLibMount.strip_dev.
  repeat (cbn [append String.prefix String.length Nat.sub substring];
          match goal with
          | |- context [Ascii.ascii_dec ?a ?b] =>
            destruct (Ascii.ascii_dec a b); [|congruence]
          end).
  cbn [append String.prefix String.length Nat.sub substring].
  assert (He : String.prefix "" n = true) by (destruct n; reflexivity).
  rewrite He, ?Nat.sub_0_r. apply substring_whole. lia.
Qed.

Lemma strip_dev_bare (n : string) :
  String.prefix "/dev/" n = false -> CChangerLibMount.strip_dev n = n.
Proof. intros H. unfold CChangerLibMount.strip_dev. rewrite H. reflexivity. Qed.

Lemma snprintf_dev_short (n : string) :
  (String.length n <= 250)%nat -> snprintf_dev 256 n = ("/dev/" ++ n)%string.
Proof.
  intros Hn. unfold snprintf_dev. apply substring_whole.
  cbn [append String.length]. lia.
Qed.

(** X20: the library's disc functions take the device path and the bare
    BSD name alike: for a name that does not itself start with "/dev/",
    eject, unmount and the three queries do the same with "/dev/name" as
    with "name". *)
Theorem library_accepts_dev_path (da : DiskArbitration) (ops : DiskArbitrationOps)
    (n : string) (force : bool) :
  String.prefix "/dev/" n = false ->
  CChangerLibMount.mount_eject_disc da (Some ("/dev/" ++ n)%string) force
  = CChangerLibMount.mount_eject_disc da (Some n) force
  /\ CChangerLibDisc.mount_unmount_disc ops (Some ("/dev/" ++ n)%string) force
     = CChangerLibDisc.mount_unmount_disc ops (Some n) force
  /\ CChangerLibDisc.mount_is_mounted ops (Some ("/dev/" ++ n)%string)
     = CChangerLibDisc.mount_is_mounted ops (Some n)
  /\ CChangerLibDisc.mount_get_mount_point ops (Some ("/dev/" ++ n)%string)
     = CChangerLibDisc.mount_get_mount_point ops (Some n)
  /\ CChangerLibDisc.mount_get_volume_name ops (Some ("/dev/" ++ n)%string)
     = CChangerLibDisc.mount_get_volume_name ops (Some n).
Proof.
  intros Hbare.
  unfold CChangerLibMount.mount_eject_disc, CChangerLibDisc.mount_unmount_disc,
    CChangerLibDisc.mount_is_mounted, CChangerLibDisc.mount_get_mount_point,
    CChangerLibDisc.mount_get_volume_name, CChangerLibDisc.describe.
  rewrite strip_dev_prefixed, (strip_dev_bare n Hbare).
  repeat split; reflexivity.
Qed.

Lemma library_accepts_dev_path_witness :
  CChangerLibMount.mount_eject_disc (ejecting "disk3") (Some "/dev/disk3") false
  = CChangerLibMount.mount_eject_disc (ejecting "disk3") (Some "disk3") false.
Proof.
  exact (proj1 (library_accepts_dev_path (ejecting "disk3")
                  mounting
                  "disk3" false eq_refl)).
Defined.

(** ** Unmount and eject, library against bridging copy *)


Lemma fired_by_monotone (r : DAReply) (a b : Z) :
  a <= b -> fired_by r a = true -> fired_by r b = true.
Proof.
  unfold fired_by. destruct (arrival r) as [t|]; [|discriminate].
  intros Hab H. apply Z.ltb_lt in H. apply Z.ltb_lt. lia.
Qed.

(** The one-second pumps of the bridging copy end with the callback seen
    exactly when it fires within the timeout. *)
Lemma pump_seconds_spec (r : DAReply) (timeout : Z) :
  forall fuel elapsed,
    0 <= elapsed <= timeout ->
    (Z.to_nat (timeout - elapsed) <= fuel)%nat ->
    BridgingMount.pump_seconds fuel r timeout elapsed (fired_by r (elapsed * 1000))
    = fired_by r (timeout * 1000).
Proof.
  induction fuel as [|fuel IH]; intros elapsed He Hfuel.
  - cbn [BridgingMount.pump_seconds]. assert (elapsed = timeout) as -> by lia.
    reflexivity.
  - cbn [BridgingMount.pump_seconds].
    destruct (fired_by r (elapsed * 1000)) eqn:Hdone; cbn [negb andb].
    + symmetry. apply (fired_by_monotone r (elapsed * 1000)); [lia | exact Hdone].
    + destruct (Z.ltb_spec elapsed timeout) as [Hlt|Hge].
      * apply IH; lia.
      * assert (elapsed = timeout) as <- by lia. symmetry. exact Hdone.
Qed.

Lemma pump_30_seconds (r : DAReply) :
  arrives_after_request r ->
  BridgingMount.pump_seconds 30 r 30 0 false = CChangerLibMount.da_runloop_wait r 30.
Proof.
  intros Hr. unfold CChangerLibMount.da_runloop_wait.
  assert (H0 : fired_by r (0 * 1000) = false).
  { unfold fired_by, arrives_after_request in *. destruct (arrival r) as [t|];
      [apply Z.ltb_ge; lia | reflexivity]. }
  rewrite <- H0. apply (pump_seconds_spec r 30 30 0); lia.
Qed.

(** X22: the two copies of eject and of unmount give the caller the same
    value.  For a bare name of at most 250 bytes, when disk arbitration
    treats "name" (what the library passes) and "/dev/name" (what the
    bridging copy passes) alike and callbacks do not precede their
    requests, the bridging copy's loop of thirty one-second pumps and the
    library's 30 s wall-clock wait agree, and so do the results. *)
Theorem copies_agree_on_eject_and_unmount (ops : DiskArbitrationOps) (n : string)
    (force : bool) :
  let da := da_base ops in
  let path := ("/dev/" ++ n)%string in
  String.prefix "/dev/" n = false ->
  (String.length n <= 250)%nat ->
  disk_from_bsd_name da path = disk_from_bsd_name da n ->
  (forall o, eject_reply da path o = eject_reply da n o) ->
  (forall o, unmount_reply ops path o = unmount_reply ops n o) ->
  (forall o, arrives_after_request (eject_reply da n o)) ->
  (forall o, arrives_after_request (unmount_reply ops n o)) ->
  snd (BridgingMount.mount_eject_disc da n force)
  = snd (CChangerLibMount.mount_eject_disc da (Some n) force)
  /\ snd (BridgingDisc.mount_unmount_disc ops n force)
     = snd (CChangerLibDisc.mount_unmount_disc ops (Some n) force).
Proof.
  intros da path Hbare Hlen Hdisk Heject Hunmount Hae Hau.
  unfold BridgingMount.mount_eject_disc, CChangerLibMount.mount_eject_disc,
    BridgingDisc.mount_unmount_disc, CChangerLibDisc.mount_unmount_disc.
  rewrite (snprintf_dev_short n Hlen), (strip_dev_bare n Hbare).
  fold path. fold da. rewrite Hdisk.
  destruct (session_create da); [|split; reflexivity].
  destruct (disk_from_bsd_name da n); [|split; reflexivity].
  cbn [negb snd]. split.
  - assert (Ho : (if force then kDADiskEjectOptionDefault
                  else kDADiskEjectOptionDefault) = kDADiskEjectOptionDefault)
      by (destruct force; reflexivity).
    rewrite Ho, Heject, (pump_30_seconds _ (Hae _)).
    destruct (CChangerLibMount.da_runloop_wait _ _); [|reflexivity].
    destruct (dissenter _); reflexivity.
  - assert (Ho : (if force
                  then Z.lor kDADiskUnmountOptionDefault kDADiskUnmountOptionForce
                  else kDADiskUnmountOptionDefault)
                 = (if force then kDADiskUnmountOptionForce
                    else kDADiskUnmountOptionDefault))
      by (destruct force; reflexivity).
    rewrite Ho, Hunmount, (pump_30_seconds _ (Hau _)).
    destruct (CChangerLibMount.da_runloop_wait _ _); [|reflexivity].
    destruct (dissenter _); reflexivity.
Qed.

Lemma copies_agree_on_eject_and_unmount_witness :
  snd (BridgingMount.mount_eject_disc (da_base mounting) "disk3" true)
  = snd (CChangerLibMount.mount_eject_disc (da_base mounting) (Some "disk3") true)
  /\ snd (BridgingDisc.mount_unmount_disc mounting "disk3" true)
     = snd (CChangerLibDisc.mount_unmount_disc mounting (Some "disk3") true).
Proof.
  apply (copies_agree_on_eject_and_unmount mounting "disk3" true).
  - reflexivity.
  - cbn [String.length]. lia.
  - reflexivity.
  - intros o. reflexivity.
  - intros o. reflexivity.
  - intros o. cbn. lia.
  - intros o. cbn. lia.
Defined.

(** ** Mount state queries *)

(** X23: in the library, [mount_get_mount_point] returning a path implies
    [mount_is_mounted], and the path is shorter than [MAXPATHLEN]; the two
    disagree (mounted, but no mount point) exactly for a volume path of
    [MAXPATHLEN] bytes or more.  All three queries return nothing for a
    [NULL] name and when no session or disc object can be created. *)
Theorem library_mount_queries_consistent (ops : DiskArbitrationOps)
    (bsd_name : option string) :
  (forall p, CChangerLibDisc.mount_get_mount_point ops bsd_name = Some p ->
             CChangerLibDisc.mount_is_mounted ops bsd_name = true
             /\ Z.of_nat (String.length p) < MAXPATHLEN)
  /\ (CChangerLibDisc.mount_is_mounted ops bsd_name = true ->
      CChangerLibDisc.mount_get_mount_point ops bsd_name = None ->
      exists desc path,
        CChangerLibDisc.describe ops bsd_name = Some desc
        /\ volume_path desc = Some path
        /\ MAXPATHLEN <= Z.of_nat (String.length path))
  /\ (CChangerLibDisc.describe ops bsd_name = None ->
      CChangerLibDisc.mount_is_mounted ops bsd_name = false
      /\ CChangerLibDisc.mount_get_mount_point ops bsd_name = None
      /\ CChangerLibDisc.mount_get_volume_name ops bsd_name = None).
Proof.
  unfold CChangerLibDisc.mount_get_mount_point, CChangerLibDisc.mount_is_mounted,
    CChangerLibDisc.mount_get_volume_name, CFURLGetFileSystemRepresentation,
    MAXPATHLEN.
  destruct (CChangerLibDisc.describe ops bsd_name) as [desc|].
  - destruct (volume_path desc) as [path|] eqn:Hpath.
    + destruct (Z.leb_spec (Z.of_nat (String.length path) + 1) 1024) as [Hfit|Hbig].
      * split; [intros p [= <-]; split; [reflexivity | lia]|].
        split; [discriminate | discriminate].
      * split; [discriminate|]. split; [|discriminate].
        intros _ _. exists desc, path. split; [reflexivity|]. split; [exact Hpath | lia].
    + split; [discriminate|]. split; discriminate.
  - split; [discriminate|]. split; [discriminate|]. intros _. repeat split.
Qed.

Lemma library_mount_queries_consistent_witness :
  CChangerLibDisc.mount_get_mount_point mounting (Some "disk3") = Some "/Volumes/XYZ"
  /\ CChangerLibDisc.mount_is_mounted mounting (Some "disk3") = true
  /\ Z.of_nat (String.length "/Volumes/XYZ") < MAXPATHLEN.
Proof.
  destruct (library_mount_queries_consistent mounting (Some "disk3")) as (H & _ & _).
  split; [reflexivity|]. exact (H "/Volumes/XYZ" eq_refl).
Defined.

(** ** Mount *)

Lemma pump_seconds_done (r : DAReply) (timeout : Z) :
  forall fuel elapsed, BridgingMount.pump_seconds fuel r timeout elapsed true = true.
Proof. intros [|fuel] elapsed; reflexivity. Qed.

Lemma pump_seconds_seen (r : DAReply) (timeout : Z) :
  forall fuel elapsed,
    BridgingMount.pump_seconds fuel r timeout elapsed false = true ->
    elapsed < timeout /\ fired_by r (timeout * 1000) = true.
Proof.
  induction fuel as [|fuel IH]; intros elapsed Hrun; [discriminate|].
  cbn [BridgingMount.pump_seconds negb andb] in Hrun.
  destruct (Z.ltb_spec elapsed timeout) as [Hlt|Hge]; [|discriminate].
  split; [exact Hlt|].
  destruct (fired_by r ((elapsed + 1) * 1000)) eqn:Hdone.
  - apply (fired_by_monotone r ((elapsed + 1) * 1000)); [lia | exact Hdone].
  - apply (IH (elapsed + 1)). exact Hrun.
Qed.

(** X24: [mount_disc] with a timeout of zero or less reports failure in
    both copies although the mount has been requested: the bridging copy
    never pumps the run loop, and the library's wait is over before a
    callback that does not precede its request can arrive. *)
Theorem mount_disc_without_time (ops : DiskArbitrationOps) (bsd name : string)
    (timeout : Z) :
  timeout <= 0 ->
  arrives_after_request
    (mount_reply ops (CChangerLibMount.strip_dev bsd) kDADiskMountOptionDefault) ->
  session_create (da_base ops) = true ->
  disk_from_bsd_name (da_base ops) (CChangerLibMount.strip_dev bsd) = true ->
  disk_from_bsd_name (da_base ops) (snprintf_dev 256 name) = true ->
  CChangerLibDisc.mount_disc ops (Some bsd) timeout
  = ([EvDADiskMount (CChangerLibMount.strip_dev bsd) kDADiskMountOptionDefault], None)
  /\ BridgingDisc.mount_disc ops name timeout
     = ([EvDADiskMount (snprintf_dev 256 name) kDADiskMountOptionDefault], None).
Proof.
  intros Ht Harr Hs Hd1 Hd2.
  unfold CChangerLibDisc.mount_disc, BridgingDisc.mount_disc.
  rewrite Hs, Hd1, Hd2. cbn [negb]. split.
  - unfold CChangerLibMount.da_runloop_wait, fired_by, arrives_after_request in *.
    destruct (arrival _) as [t|]; [|reflexivity].
    destruct (Z.ltb_spec t (timeout * 1000)); [lia | reflexivity].
  - destruct (BridgingMount.pump_seconds (S (Z.to_nat timeout))
                (mount_reply ops (snprintf_dev 256 name) kDADiskMountOptionDefault)
                timeout 0 false) eqn:Hdone; [|reflexivity].
    apply pump_seconds_seen in Hdone. lia.
Qed.

Lemma mount_disc_without_time_witness :
  CChangerLibDisc.mount_disc mounting (Some "disk3") 0
  = ([EvDADiskMount "disk3" kDADiskMountOptionDefault], None)
  /\ BridgingDisc.mount_disc mounting "disk3" 0
     = ([EvDADiskMount "/dev/disk3" kDADiskMountOptionDefault], None).
Proof.
  apply (mount_disc_without_time mounting "disk3" "disk3" 0).
  - lia.
  - cbn. lia.
  - reflexivity.
  - reflexivity.
  - reflexivity.
Defined.

(** X25: a mount point returned by [mount_disc] means that the callback
    fired within the timeout without a refusal.  In the library the path
    returned is the non-empty one the callback copied, and any dissenter
    gives [NULL]; in the bridging copy a dissenter of status 0 counts as
    success and the path is the one [mount_get_mount_point] reports
    afterwards. *)
Theorem mount_disc_success (ops : DiskArbitrationOps) (bsd_name : option string)
    (name : string) (timeout : Z) :
  (forall p,
     snd (CChangerLibDisc.mount_disc ops bsd_name timeout) = Some p ->
     exists bsd,
       bsd_name = Some bsd
       /\ let r := mount_reply ops (CChangerLibMount.strip_dev bsd)
                               kDADiskMountOptionDefault in
          fired_by r (timeout * 1000) = true
          /\ dissenter r = None
          /\ p <> ""
          /\ p = CChangerLibDisc.callback_mount_point ops (CChangerLibMount.strip_dev bsd))
  /\ (forall p,
        snd (BridgingDisc.mount_disc ops name timeout) = Some p ->
        let r := mount_reply ops (snprintf_dev 256 name) kDADiskMountOptionDefault in
        0 < timeout
        /\ fired_by r (timeout * 1000) = true
        /\ (dissenter r = None \/ dissenter r = Some 0)
        /\ BridgingDisc.mount_get_mount_point ops name = Some p
        /\ BridgingDisc.mount_is_mounted ops name = true).
Proof.
  split.
  - intros p. unfold CChangerLibDisc.mount_disc.
    destruct bsd_name as [bsd|]; [|discriminate].
    destruct (session_create (da_base ops)); [|discriminate].
    destruct (disk_from_bsd_name (da_base ops) _); [|discriminate].
    cbn [negb]. unfold CChangerLibMount.da_runloop_wait.
    destruct (fired_by _ _) eqn:Hfired; [|discriminate].
    destruct (dissenter _) eqn:Hdis; [discriminate|].
    cbn [negb].
    destruct (CChangerLibDisc.callback_mount_point ops _) eqn:Hmp; [discriminate|].
    intros [= <-]. exists bsd. split; [reflexivity|]. cbv zeta.
    rewrite Hfired, Hdis. repeat split; congruence.
  - intros p. unfold BridgingDisc.mount_disc.
    destruct (session_create (da_base ops)); [|discriminate].
    destruct (disk_from_bsd_name (da_base ops) _); [|discriminate].
    cbn [negb].
    destruct (BridgingMount.pump_seconds _ _ _ _ _) eqn:Hdone; [|discriminate].
    apply pump_seconds_seen in Hdone. destruct Hdone as [Hpos Hfired].
    cbn [negb orb].
    destruct (dissenter _) as [status|] eqn:Hdis.
    + destruct (Z.eqb_spec status 0) as [->|Hne]; [|discriminate].
      cbn [negb snd]. intros Hmp. cbv zeta.
      unfold BridgingDisc.mount_is_mounted. rewrite Hmp. repeat split; auto.
    + cbn [Z.eqb negb snd]. intros Hmp. cbv zeta.
      unfold BridgingDisc.mount_is_mounted. rewrite Hmp. repeat split; auto.
Qed.

Lemma mount_disc_success_witness :
  snd (CChangerLibDisc.mount_disc mounting (Some "/dev/disk3") 30) = Some "/Volumes/XYZ"
  /\ snd (BridgingDisc.mount_disc mounting "disk3" 30) = Some "/Volumes/XYZ"
  /\ fired_by (mount_reply mounting "disk3" kDADiskMountOptionDefault) (30 * 1000) = true
  /\ BridgingDisc.mount_is_mounted mounting "disk3" = true.
Proof.
  destruct (mount_disc_success mounting (Some "/dev/disk3") "disk3" 30) as [Hl Hb].
  split; [reflexivity|]. split; [reflexivity|].
  destruct (Hb "/Volumes/XYZ" eq_refl) as (_ & Hf & _ & _ & Hm).
  split; [exact Hf | exact Hm].
Defined.
